(** * Power-log analysis scripts: a shallow embedding

    The development follows the three [power_metrics_aggregator.py]
    scripts (Experiment 1, 2 and 3): the line lexing they do with
    [str.strip], [in], [str.startswith] and [re.search], the
    section-windowed extractors, the reverse idle reader, the statistics
    helpers, the timestamp loaders and the command-line entry points.

    Text is modelled as [string] over ASCII; Python integers as [Z];
    instants as [Z] (seconds), ordered as [datetime] values are.  Library
    functions whose result is all the scripts look at ([datetime.strptime],
    [datetime.fromisoformat], [strftime], float arithmetic, [os.path] and
    [glob] queries) are section variables, so every theorem holds for any
    behaviour of the library. *)

From Stdlib Require Import ZArith List String Ascii Bool Arith Lia DecimalString.
Import ListNotations.
Open Scope string_scope.
Open Scope bool_scope.

(** ** Line lexing *)

Module Lex.

(** [str.isspace] on ASCII: TAB, LF, VT, FF, CR, FS, GS, RS, US, SPACE.
    The same set is what [\s] matches in a [str] pattern. *)
Definition is_space (c : ascii) : bool :=
  let n := nat_of_ascii c in
  (((9 <=? n) && (n <=? 13)) || ((28 <=? n) && (n <=? 32)))%nat.

(** [\d] on ASCII. *)
Definition is_digit (c : ascii) : bool :=
  let n := nat_of_ascii c in ((48 <=? n) && (n <=? 57))%nat.

Definition newline : ascii := ascii_of_nat 10.
Definition dquote : ascii := ascii_of_nat 34.

(** [s] between double quotes. *)
Definition quoted (s : string) : string :=
  String dquote (s ++ String dquote EmptyString).

Fixpoint lstrip (s : string) : string :=
  match s with
  | EmptyString => EmptyString
  | String c r => if is_space c then lstrip r else s
  end.

Fixpoint rstrip (s : string) : string :=
  match s with
  | EmptyString => EmptyString
  | String c r =>
      match rstrip r with
      | EmptyString => if is_space c then EmptyString else String c EmptyString
      | r' => String c r'
      end
  end.

(** [s.strip()] *)
Definition strip (s : string) : string := rstrip (lstrip s).

(** [s.startswith(p)] *)
Fixpoint startswith (p s : string) : bool :=
  match p, s with
  | EmptyString, _ => true
  | String _ _, EmptyString => false
  | String a p', String b s' => Ascii.eqb a b && startswith p' s'
  end.

(** [p in s] *)
Fixpoint contains (p s : string) : bool :=
  startswith p s ||
  match s with
  | EmptyString => false
  | String _ r => contains p r
  end.

(** What is left of [s] after the literal [p], when [s] starts with it. *)
Fixpoint after (p s : string) : option string :=
  match p, s with
  | EmptyString, _ => Some s
  | String _ _, EmptyString => None
  | String a p', String b s' => if Ascii.eqb a b then after p' s' else None
  end.

(** The longest prefix of digits. *)
Fixpoint digits (s : string) : string :=
  match s with
  | EmptyString => EmptyString
  | String c r => if is_digit c then String c (digits r) else EmptyString
  end.

(** [int(ds)] for a string of digits, most significant first. *)
Fixpoint int_acc (acc : Z) (ds : string) : Z :=
  match ds with
  | EmptyString => acc
  | String c r => int_acc (10 * acc + (Z.of_nat (nat_of_ascii c) - 48))%Z r
  end.

Definition int (ds : string) : Z := int_acc 0%Z ds.

(** One attempt of [key\s*(\d+)] (when [star]) or [key(\d+)] at the head
    of [s]; [\s*] cannot give back a character to [\d+], so the greedy
    attempt is the only one. *)
Definition int_here (key : string) (star : bool) (s : string) : option Z :=
  match after key s with
  | None => None
  | Some r =>
      match digits (if star then lstrip r else r) with
      | EmptyString => None
      | ds => Some (int ds)
      end
  end.

(** [re.search]: the leftmost position where the attempt succeeds. *)
Fixpoint search {A : Type} (here : string -> option A) (s : string) : option A :=
  match here s with
  | Some v => Some v
  | None =>
      match s with
      | EmptyString => None
      | String _ r => search here r
      end
  end.

(** The longest prefix without a double quote, for the class of all
    characters but the double quote, repeated. *)
Fixpoint unquoted (s : string) : string :=
  match s with
  | EmptyString => EmptyString
  | String c r => if Ascii.eqb c dquote then EmptyString else String c (unquoted r)
  end.

(** One attempt of the Experiment 1 pattern for the [Time] field at the
    head of [s]: the quoted key, a colon, [\s*], a double quote, one or
    more characters that are not a double quote (the group), a double
    quote. *)
Definition time1_here (s : string) : option string :=
  match after (quoted "Time" ++ ":") s with
  | None => None
  | Some r =>
      match lstrip r with
      | String q r' =>
          if Ascii.eqb q dquote then
            match unquoted r' with
            | EmptyString => None
            | g =>
                match after g r' with
                | Some (String q' _) => if Ascii.eqb q' dquote then Some g else None
                | _ => None
                end
            end
          else None
      | EmptyString => None
      end
  end.

(** The group [(.+Z)] followed by a double quote at the head of [s]: [.]
    is any character but a newline, [.+] is greedy, so the longest
    candidate wins. *)
Fixpoint dotplus_Z (s : string) : option string :=
  match s with
  | EmptyString => None
  | String c r =>
      if Ascii.eqb c newline then None
      else
        match dotplus_Z r with
        | Some g => Some (String c g)
        | None =>
            if startswith (String "Z" (String dquote EmptyString)) r
            then Some (String c "Z")
            else None
        end
  end.

(** One attempt of the Experiment 2 and 3 pattern for the [Time] field at
    the head of [s]: the quoted key, a colon, one space, a double quote,
    the group [(.+Z)], a double quote. *)
Definition time2_here (s : string) : option string :=
  match after (quoted "Time" ++ ": " ++ String dquote EmptyString) s with
  | None => None
  | Some r => dotplus_Z r
  end.

(** [re.search] of the quoted key, a colon, [\s*] and [(\d+)], as in
    Experiment 1. *)
Definition search_int1 (key line : string) : option Z :=
  search (int_here (quoted key ++ ":") true) line.

(** [re.search] of the quoted key, a colon, one space and [(\d+)], as in
    Experiments 2 and 3 and in the idle readers. *)
Definition search_int2 (key line : string) : option Z :=
  search (int_here (quoted key ++ ": ") false) line.

Definition search_time1 (line : string) : option string := search time1_here line.
Definition search_time2 (line : string) : option string := search time2_here line.

(** The separator line of the power logs: 84 dashes. *)
Definition DASHES : string :=
  "------------------------------------------------------------------------------------".

(** The marker the Experiment 2 and 3 extractors wait for. *)
Definition POWER_DETAIL : string := quoted "PowerDetail" ++ ": [".

End Lex.

Open Scope list_scope.


(** ** Shared data *)

(** What a logger call leaves behind.  The loggers run at level INFO, so
    [logger.debug] calls leave nothing and are not modelled. *)
Inductive log_event : Type :=
| LogError (msg subject : string)
| LogWarning (msg subject : string)
| LogInfo (msg subject : string).

(** The [entry_data] dict: the four keys the scripts ever store. *)
Record entry : Type := mkEntry {
  e_Time : option string;
  e_CpuWatts : option Z;
  e_DimmWatts : option Z;
  e_Average : option Z
}.

Definition no_entry : entry := mkEntry None None None None.

(** [str(n)] for an integer. *)
Definition str_of_Z (n : Z) : string := NilEmpty.string_of_int (Z.to_int n).

(** [start_time <= timestamp <= end_time] *)
Definition in_window (start_time end_time t : Z) : bool :=
  (start_time <=? t)%Z && (t <=? end_time)%Z.

(** [if m: d[k] = m.group(1)] *)
Definition set_if {A : Type} (m : option A) (old : option A) : option A :=
  match m with
  | Some v => Some v
  | None => old
  end.

(** [xs.append(v)] when the key is in the dict. *)
Definition append_if {A : Type} (xs : list A) (m : option A) : list A :=
  match m with
  | Some v => xs ++ [v]
  | None => xs
  end.

(** Exceptions that leave a function of the scripts. *)
Inductive exn : Type :=
| FileNotFoundError
| NotADirectoryError
| ValueError
| IndexError.

Inductive result (A : Type) : Type :=
| Ok (v : A)
| Raise (e : exn).

Arguments Ok {A} v.
Arguments Raise {A} e.

(** The [sections] dict of the Experiment 2 and 3 extractors: per metric
    a list of sections, each a list of pairs. *)
Record metrics (A : Type) : Type := mkMetrics {
  m_CpuWatts : list (list A);
  m_DimmWatts : list (list A);
  m_Average : list (list A)
}.

Arguments mkMetrics {A} _ _ _.
Arguments m_CpuWatts {A} _.
Arguments m_DimmWatts {A} _.
Arguments m_Average {A} _.

(** [{CpuWatts: [[]], DimmWatts: [[]], Average: [[]]}] *)
Definition one_empty_section {A : Type} : metrics A := mkMetrics [[]] [[]] [[]].

(** [for key in sections: sections[key].append([])] *)
Definition new_section {A : Type} (m : metrics A) : metrics A :=
  mkMetrics (m_CpuWatts m ++ [[]]) (m_DimmWatts m ++ [[]]) (m_Average m ++ [[]]).

(** [xss[-1].append(v)]; the lists of sections are never empty (on an
    empty one Python raises [IndexError]; the model leaves it as it is). *)
Fixpoint append_last {A : Type} (xss : list (list A)) (v : A) : list (list A) :=
  match xss with
  | [] => []
  | [xs] => [xs ++ [v]]
  | xs :: rest => xs :: append_last rest v
  end.

(** [if value is not None: sections[key][-1].append(pair)] *)
Definition append_last_if {A B : Type} (xss : list (list B)) (m : option A)
  (pair : A -> B) : list (list B) :=
  match m with
  | Some v => append_last xss (pair v)
  | None => xss
  end.

(** [s.replace("Z", "+00:00")] *)
Fixpoint replace_Z (s : string) : string :=
  match s with
  | EmptyString => EmptyString
  | String c r =>
      if Ascii.eqb c "Z"%char then ("+00:00" ++ replace_Z r)%string
      else String c (replace_Z r)
  end.

(** The four regular expressions of Experiments 2 and 3. *)
Definition read_fields2 (line : string) (d : entry) : entry :=
  mkEntry (set_if (Lex.search_time2 line) (e_Time d))
          (set_if (Lex.search_int2 "CpuWatts" line) (e_CpuWatts d))
          (set_if (Lex.search_int2 "DimmWatts" line) (e_DimmWatts d))
          (set_if (Lex.search_int2 "Average" line) (e_Average d)).

(** [line.strip() == "}," or line.strip() == "}"] *)
Definition is_close (line : string) : bool :=
  String.eqb (Lex.strip line) "}," || String.eqb (Lex.strip line) "}".

(** ** Experiment 1: [extract_section_values] *)

Module Exp1.

Definition TOTAL_SECTIONS : nat := 8.

(** One section: the dict of four lists. *)
Record section : Type := mkSection {
  Time : list string;
  CpuWatts : list Z;
  DimmWatts : list Z;
  Average : list Z
}.

Definition empty_section : section := mkSection [] [] [] [].

(** [any(current_section[key] for key in current_section)] *)
Definition any_nonempty (s : section) : bool :=
  negb (match Time s with [] => true | _ => false end
        && match CpuWatts s with [] => true | _ => false end
        && match DimmWatts s with [] => true | _ => false end
        && match Average s with [] => true | _ => false end).

(** The local variables of the parse loop. *)
Record state : Type := mkState {
  sections : list section;
  current_section : section;
  inside_entry : bool;
  entry_data : entry;
  total_entries : nat;
  matched_entries : nat;
  log : list log_event
}.

Definition init : state := mkState [] empty_section false no_entry 0 0 [].

Section Extractor.

(** [datetime.strptime(s, "%Y-%m-%dT%H:%M:%SZ")]: [None] is [ValueError]. *)
Variable strptime : string -> option Z.
Variables start_time end_time : Z.

(** The four regular expressions applied to a line inside an entry. *)
Definition read_fields (line : string) (d : entry) : entry :=
  mkEntry (set_if (Lex.search_time1 line) (e_Time d))
          (set_if (Lex.search_int1 "CpuWatts" line) (e_CpuWatts d))
          (set_if (Lex.search_int1 "DimmWatts" line) (e_DimmWatts d))
          (set_if (Lex.search_int1 "Average" line) (e_Average d)).

(** The four appends of a matched entry. *)
Definition add_entry (ts : string) (d : entry) (s : section) : section :=
  mkSection (Time s ++ [ts])
            (append_if (CpuWatts s) (e_CpuWatts d))
            (append_if (DimmWatts s) (e_DimmWatts d))
            (append_if (Average s) (e_Average d)).

(** The close-marker branch. *)
Definition close_entry (st : state) : state :=
  match e_Time (entry_data st) with
  | Some ts =>
      match strptime ts with
      | None =>
          mkState (sections st) (current_section st) false (entry_data st)
                  (total_entries st) (matched_entries st)
                  (log st ++ [LogWarning "Error parsing time" ts])
      | Some timestamp =>
          if in_window start_time end_time timestamp then
            mkState (sections st) (add_entry ts (entry_data st) (current_section st))
                    false (entry_data st)
                    (total_entries st) (S (matched_entries st)) (log st)
          else
            mkState (sections st) (current_section st) false (entry_data st)
                    (total_entries st) (matched_entries st) (log st)
      end
  | None =>
      mkState (sections st) (current_section st) false (entry_data st)
              (total_entries st) (matched_entries st) (log st)
  end.

(** One iteration of [for line in lines], branch for branch. *)
Definition step (st : state) (line : string) : state :=
  if String.eqb (Lex.strip line) Lex.DASHES then
    mkState (sections st ++ [current_section st]) empty_section
            (inside_entry st) (entry_data st)
            (total_entries st) (matched_entries st) (log st)
  else if Lex.contains "{" line then
    mkState (sections st) (current_section st) true no_entry
            (S (total_entries st)) (matched_entries st) (log st)
  else if Lex.contains "}" line && inside_entry st then
    close_entry st
  else if inside_entry st then
    mkState (sections st) (current_section st) true
            (read_fields line (entry_data st))
            (total_entries st) (matched_entries st) (log st)
  else st.

Definition run (lines : list string) : state := fold_left step lines init.

(** After the loop: the last section is appended when one of its lists
    is not empty. *)
Definition flush_last (st : state) : list section :=
  if any_nonempty (current_section st)
  then sections st ++ [current_section st]
  else sections st.

(** [while len(sections) < TOTAL_SECTIONS: sections.append(empty)] *)
Definition pad (ss : list section) : list section :=
  ss ++ repeat empty_section (TOTAL_SECTIONS - List.length ss).

(** [sections[:TOTAL_SECTIONS]] when there are more. *)
Definition truncate (ss : list section) : list section :=
  if (TOTAL_SECTIONS <? List.length ss)%nat then firstn TOTAL_SECTIONS ss else ss.

(** The function on the lines read. *)
Definition extract_lines (lines : list string) : list section :=
  truncate (pad (flush_last (run lines))).

(** [extract_section_values]: [file] is what [open] and [readlines] give,
    [None] when they raise; the result is [None] for Python's [None]. *)
Definition extract_section_values (path : string) (file : option (list string))
  : option (list section) * list log_event :=
  match file with
  | None => (None, [LogError "File not found or unreadable" path])
  | Some lines => (Some (extract_lines lines), log (run lines))
  end.

End Extractor.

End Exp1.

(** ** Experiment 2: [load_power_data_in_time_range] *)

Module Exp2.

Record state : Type := mkState {
  sections : metrics (Z * string);
  in_power_detail_section : bool;
  entry_data : entry;
  log : list log_event
}.

Definition init : state := mkState one_empty_section false no_entry [].

Section Extractor.

(** [datetime.fromisoformat]: [None] is [ValueError]. *)
Variable fromisoformat : string -> option Z.
(** [dt.strftime('%Y-%m-%dT%H:%M:%SZ')] *)
Variable strftime : Z -> string.
Variables start_time end_time : Z.

(** The three appends of an entry inside the window. *)
Definition add_entry (timestamp_dt : Z) (d : entry) (m : metrics (Z * string))
  : metrics (Z * string) :=
  let pair := fun value : Z => (value, strftime timestamp_dt) in
  mkMetrics (append_last_if (m_CpuWatts m) (e_CpuWatts d) pair)
            (append_last_if (m_DimmWatts m) (e_DimmWatts d) pair)
            (append_last_if (m_Average m) (e_Average d) pair).

(** The close-marker branch; [if timestamp:] is false for a missing key
    and for the empty string. *)
Definition close_entry (st : state) : state :=
  match e_Time (entry_data st) with
  | None | Some EmptyString =>
      mkState (sections st) (in_power_detail_section st) no_entry (log st)
  | Some timestamp =>
      match fromisoformat (replace_Z timestamp) with
      | None =>
          mkState (sections st) (in_power_detail_section st) no_entry
                  (log st ++ [LogInfo "Invalid timestamp format. Skipping entry." timestamp])
      | Some timestamp_dt =>
          if in_window start_time end_time timestamp_dt then
            mkState (add_entry timestamp_dt (entry_data st) (sections st))
                    (in_power_detail_section st) no_entry (log st)
          else
            mkState (sections st) (in_power_detail_section st) no_entry (log st)
      end
  end.

(** One iteration of [for line_num, line in enumerate(f, 1)]. *)
Definition step (st : state) (line : string) : state :=
  if Lex.contains Lex.POWER_DETAIL line then
    mkState (sections st) true (entry_data st) (log st)
  else if Lex.startswith Lex.DASHES line && in_power_detail_section st then
    mkState (new_section (sections st)) (in_power_detail_section st)
            (entry_data st) (log st)
  else if in_power_detail_section st then
    if String.eqb (Lex.strip line) "{" then
      mkState (sections st) (in_power_detail_section st) no_entry (log st)
    else if is_close line then close_entry st
    else
      mkState (sections st) (in_power_detail_section st)
              (read_fields2 line (entry_data st)) (log st)
  else st.

Definition run (lines : list string) : state := fold_left step lines init.

(** The function on the lines of the file. *)
Definition load_power_data_in_time_range (lines : list string) : metrics (Z * string) :=
  sections (run lines).

End Extractor.

End Exp2.

(** ** Experiment 3: [load_power_data_in_time_range] *)

Module Exp3.

Record state : Type := mkState {
  sections : metrics (string * Z);
  in_power_detail_section : bool;
  entry_data : entry
}.

Definition init : state := mkState one_empty_section false no_entry.

Section Extractor.

(** [datetime.fromisoformat]: [None] is [ValueError]. *)
Variable fromisoformat : string -> option Z.
Variables start_time end_time : Z.

(** [parse_datetime_from_string] *)
Definition parse_datetime_from_string (datetime_str : string) : result Z :=
  match fromisoformat (replace_Z datetime_str) with
  | Some t => Ok t
  | None => Raise ValueError
  end.

Definition add_entry (timestamp_str : string) (d : entry) (m : metrics (string * Z))
  : metrics (string * Z) :=
  let pair := fun value : Z => (timestamp_str, value) in
  mkMetrics (append_last_if (m_CpuWatts m) (e_CpuWatts d) pair)
            (append_last_if (m_DimmWatts m) (e_DimmWatts d) pair)
            (append_last_if (m_Average m) (e_Average d) pair).

(** The close-marker branch: nothing catches the [ValueError] of the
    timestamp parse. *)
Definition close_entry (st : state) : result state :=
  match e_Time (entry_data st) with
  | None | Some EmptyString =>
      Ok (mkState (sections st) (in_power_detail_section st) no_entry)
  | Some timestamp_str =>
      match parse_datetime_from_string timestamp_str with
      | Raise e => Raise e
      | Ok timestamp =>
          if in_window start_time end_time timestamp then
            Ok (mkState (add_entry timestamp_str (entry_data st) (sections st))
                        (in_power_detail_section st) no_entry)
          else
            Ok (mkState (sections st) (in_power_detail_section st) no_entry)
      end
  end.

(** One iteration of [for line in f]. *)
Definition step (st : state) (line : string) : result state :=
  if Lex.contains Lex.POWER_DETAIL line then
    Ok (mkState (sections st) true (entry_data st))
  else if Lex.startswith Lex.DASHES line && in_power_detail_section st then
    Ok (mkState (new_section (sections st)) (in_power_detail_section st)
                (entry_data st))
  else if in_power_detail_section st then
    if String.eqb (Lex.strip line) "{" then
      Ok (mkState (sections st) (in_power_detail_section st) no_entry)
    else if is_close line then close_entry st
    else
      Ok (mkState (sections st) (in_power_detail_section st)
                  (read_fields2 line (entry_data st)))
  else Ok st.

(** The loop, stopped by the first exception. *)
Fixpoint run_from (st : state) (lines : list string) : result state :=
  match lines with
  | [] => Ok st
  | line :: rest =>
      match step st line with
      | Ok st' => run_from st' rest
      | Raise e => Raise e
      end
  end.

(** The function on the lines of the file. *)
Definition load_power_data_in_time_range (lines : list string)
  : result (metrics (string * Z)) :=
  match run_from init lines with
  | Ok st => Ok (sections st)
  | Raise e => Raise e
  end.

End Extractor.

End Exp3.

(** ** The idle reader: [get_last_X_idle_values]

    The loop is the same text in Experiment 1 and in Experiment 3. *)

Module Idle.

(** The [idle_values] dict. *)
Record idle_values : Type := mkIdle {
  CpuWatts : list Z;
  DimmWatts : list Z;
  Average : list Z
}.

Definition no_values : idle_values := mkIdle [] [] [].

(** The three regular expressions applied to a line that is no close
    marker. *)
Definition read_fields (line : string) (d : entry) : entry :=
  mkEntry (e_Time d)
          (set_if (Lex.search_int2 "CpuWatts" line) (e_CpuWatts d))
          (set_if (Lex.search_int2 "DimmWatts" line) (e_DimmWatts d))
          (set_if (Lex.search_int2 "Average" line) (e_Average d)).

(** The body of [for line in reversed(lines)], on the lines still to be
    visited (last line of the file first), with the loop variables
    [count], [entry_data] and [idle_values]; [break] ends the recursion. *)
Fixpoint scan (number : Z) (rev_lines : list string) (count : Z)
  (entry_data : entry) (acc : idle_values) : idle_values :=
  match rev_lines with
  | [] => acc
  | line :: rest =>
      if is_close line then
        match e_CpuWatts entry_data, e_DimmWatts entry_data, e_Average entry_data with
        | Some c, Some d, Some a =>
            let acc' := mkIdle (c :: CpuWatts acc) (d :: DimmWatts acc) (a :: Average acc) in
            if (count + 1 >=? number)%Z then acc'
            else scan number rest (count + 1)%Z no_entry acc'
        | _, _, _ => scan number rest count no_entry acc
        end
      else scan number rest count (read_fields line entry_data) acc
  end.

(** The values collected from the lines of an idle file. *)
Definition last_values (lines : list string) (number : Z) : idle_values :=
  scan number (rev lines) 0%Z no_entry no_values.

(** The three lists hold the same number of values. *)
Definition aligned (v : idle_values) : Prop :=
  List.length (CpuWatts v) = List.length (DimmWatts v)
  /\ List.length (DimmWatts v) = List.length (Average v).

(** The [logger.info] calls after the loop: a header, then one message
    for each [i] in [range(number)], with the values at index [i] while
    [i < len(idle_values["CpuWatts"])] and with [No Data] from there on.
    The three lists are filled together, so the three indexings are in
    range whenever the first is. *)
Definition report (idle_file : string) (number : Z) (v : idle_values)
  : list log_event :=
  LogInfo ("Last " ++ str_of_Z number ++ " Idle Values from")%string idle_file
  :: map (fun i : nat =>
            let label := ("Idle Value " ++ str_of_Z (Z.of_nat i + 1))%string in
            if (i <? List.length (CpuWatts v))%nat then
              LogInfo label
                ("CPU = " ++ str_of_Z (nth i (CpuWatts v) 0%Z) ++ " Watts, "
                 ++ "DIMM = " ++ str_of_Z (nth i (DimmWatts v) 0%Z) ++ " Watts, "
                 ++ "Average = " ++ str_of_Z (nth i (Average v) 0%Z) ++ " Watts")%string
            else LogInfo label "[No Data]")
         (seq 0 (Z.to_nat number)).

(** Experiment 1: every exception of the read is caught and logged; after
    a read that succeeds the values are reported with [logger.info]. *)
Definition get_last_X_idle_values_exp1 (idle_file : string)
  (file : option (list string)) (number : Z) : idle_values * list log_event :=
  match file with
  | None => (no_values, [LogError "Idle file not found or unreadable" idle_file])
  | Some lines =>
      let v := last_values lines number in (v, report idle_file number v)
  end.

(** Experiment 3: [open] is not guarded; the report goes to the output
    file and the console, the returned dict is modelled. *)
Definition get_last_X_idle_values_exp3 (file : option (list string)) (number : Z)
  : result idle_values :=
  match file with
  | None => Raise FileNotFoundError
  | Some lines => Ok (last_values lines number)
  end.

End Idle.

(** ** Statistics *)

(** The float operations the statistics use; [F] stands for Python's
    [float] (and numpy's [float64]). *)
Class FloatOps (F : Type) : Type := {
  (** [sum(data) / len(data)] on integers: true division *)
  int_div : Z -> Z -> F;
  (** [x - avg] for an integer [x] *)
  int_sub : Z -> F -> F;
  (** [y ** 2] *)
  square : F -> F;
  (** [sum] of floats *)
  fsum : list F -> F;
  (** [y / n] for an integer [n] *)
  div_int : F -> Z -> F;
  (** [math.sqrt] *)
  sqrt : F -> F;
  (** [math.sqrt(n)] for an integer [n] *)
  sqrt_int : Z -> F;
  (** [y / z] *)
  fdiv : F -> F -> F;
  (** [statistics.stdev] on integers, on two values or more *)
  stdev : list Z -> F
}.

Definition zsum (data : list Z) : Z := fold_right Z.add 0%Z data.
Definition zlen (data : list Z) : Z := Z.of_nat (List.length data).

Module Stats1.

(** The dict [calc_stats] returns; [None] is Python's [None]. *)
Record stats (F : Type) : Type := mkStats {
  Average : option F;
  StdDev : option F;
  StdError : option F
}.

Arguments mkStats {F} _ _ _.
Arguments Average {F} _.
Arguments StdDev {F} _.
Arguments StdError {F} _.

Section CalcStats.

Context {F : Type} `{FloatOps F}.

(** [calc_stats], the helper inside [compute_statistics]. *)
Definition calc_stats (data : list Z) : stats F :=
  match data with
  | [] => mkStats None None None
  | _ =>
      let avg := int_div (zsum data) (zlen data) in
      if (1 <? zlen data)%Z then
        let variance :=
          div_int (fsum (map (fun x => square (int_sub x avg)) data)) (zlen data - 1)%Z in
        let stddev := sqrt variance in
        let stderr := fdiv stddev (sqrt_int (zlen data)) in
        mkStats (Some avg) (Some stddev) (Some stderr)
      else mkStats (Some avg) None None
  end.

End CalcStats.

End Stats1.

Module Stats3.

(** A number of Experiment 3's metrics: the literal [0] is an [int]. *)
Inductive num (F : Type) : Type :=
| Int (n : Z)
| Float (x : F).

Arguments Int {F} n.
Arguments Float {F} x.

Section Inline.

Context {F : Type} `{FloatOps F}.

(** The statistics [find_folders_and_process] computes on the values of
    the selected section: [(average_power, std_dev_power, std_err_power)]. *)
Definition section_stats (values : list Z) : num F * num F * num F :=
  match values with
  | [] => (Int 0%Z, Int 0%Z, Int 0%Z)
  | _ =>
      let average_power := Float (int_div (zsum values) (zlen values)) in
      if (1 <? zlen values)%Z then
        (average_power, Float (stdev values),
         Float (fdiv (stdev values) (sqrt_int (zlen values))))
      else (average_power, Int 0%Z, Int 0%Z)
  end.

End Inline.

End Stats3.

(** ** Timestamp loaders *)

Module Loader1.

Section ReadTimestamps.

(** [datetime.strptime(s, "%Y-%m-%dT%H:%M:%SZ")]: [None] is [ValueError]. *)
Variable strptime : string -> option Z.
(** [re.search] of the start and end time pattern: the two groups. *)
Variable time_match : string -> option (string * string).
(** [re.search] of the total execution time pattern: [int] of the group. *)
Variable exec_time_match : string -> option Z.

(** [(start_time, end_time, total_execution_time)] and the log. *)
Record state : Type := mkState {
  start_time : option Z;
  end_time : option Z;
  total_execution_time : option Z;
  log : list log_event
}.

Definition init : state := mkState None None None [].

(** The two assignments under [try]: the first one stays when the second
    raises. *)
Definition parse_times (st : state) (start_time_str end_time_str line : string) : state :=
  match strptime (Lex.strip start_time_str) with
  | None =>
      mkState (start_time st) (end_time st) (total_execution_time st)
              (log st ++ [LogError "Error parsing timestamps" line])
  | Some s =>
      match strptime (Lex.strip end_time_str) with
      | None =>
          mkState (Some s) (end_time st) (total_execution_time st)
                  (log st ++ [LogError "Error parsing timestamps" line])
      | Some e => mkState (Some s) (Some e) (total_execution_time st) (log st)
      end
  end.

(** One iteration of [for line in f]. *)
Definition step (st : state) (line : string) : state :=
  let st1 :=
    match time_match line with
    | Some (start_time_str, end_time_str) => parse_times st start_time_str end_time_str line
    | None => st
    end in
  match exec_time_match line with
  | Some n => mkState (start_time st1) (end_time st1) (Some n) (log st1)
  | None => st1
  end.

(** [read_timestamps]: [file] is what [open] gives, [None] when it raises
    ([FileNotFoundError] or any other exception, both caught). *)
Definition read_timestamps (timestamp_file : string) (file : option (list string))
  : state :=
  match file with
  | None => mkState None None None [LogError "Timestamp file not found" timestamp_file]
  | Some lines => fold_left step lines init
  end.

End ReadTimestamps.

End Loader1.

Module Loader3.

Section LoadQueryTimestamps.

(** [datetime.fromisoformat]: [None] is [ValueError]. *)
Variable fromisoformat : string -> option Z.
(** [re.match] of the query line pattern: [int] of the first group and
    the two timestamp groups. *)
Variable query_match : string -> option (Z * string * string).

(** [query_times[k] = v] on a dict kept in insertion order. *)
Fixpoint dict_set (d : list (Z * (Z * Z))) (k : Z) (v : Z * Z) : list (Z * (Z * Z)) :=
  match d with
  | [] => [(k, v)]
  | (k', v') :: rest =>
      if (k' =? k)%Z then (k, v) :: rest else (k', v') :: dict_set rest k v
  end.

(** The loop over the lines; nothing catches the [ValueError] of a
    timestamp that does not parse. *)
Fixpoint load_lines (query_times : list (Z * (Z * Z))) (lines : list string)
  : result (list (Z * (Z * Z))) :=
  match lines with
  | [] => Ok query_times
  | line :: rest =>
      match query_match line with
      | None => load_lines query_times rest
      | Some (query_id, start, finish) =>
          match Exp3.parse_datetime_from_string fromisoformat start with
          | Raise e => Raise e
          | Ok s =>
              match Exp3.parse_datetime_from_string fromisoformat finish with
              | Raise e => Raise e
              | Ok f => load_lines (dict_set query_times query_id (s, f)) rest
              end
          end
      end
  end.

(** [load_query_timestamps]: [open] is not guarded, so a missing file is
    a [FileNotFoundError] for the caller. *)
Definition load_query_timestamps (file : option (list string))
  : result (list (Z * (Z * Z))) :=
  match file with
  | None => Raise FileNotFoundError
  | Some lines => load_lines [] lines
  end.

(** The caller in [find_folders_and_process]: the loader is reached only
    when [os.path.exists] holds; a missing file skips the thread folder. *)
Definition guarded_load (file : option (list string))
  : option (result (list (Z * (Z * Z)))) :=
  match file with
  | None => None
  | Some _ => Some (load_query_timestamps file)
  end.

End LoadQueryTimestamps.

End Loader3.

(** ** Command-line entry points *)

Module Cli.

(** How a run of a script ends: the exit status, what it printed on
    standard output, and the exception of the traceback, if any. *)
Record outcome : Type := mkOutcome {
  status : Z;
  stdout : list string;
  uncaught : option exn
}.

(** What the loop over the SF folders found does: progress lines, then
    either a normal return or an exception nobody catches. *)
Definition traversal : Type := list string -> list string * option exn.

(** The interpreter's exit status: 0 on a normal return, 1 on an uncaught
    exception. *)
Definition finish (printed : list string) (r : list string * option exn) : outcome :=
  match snd r with
  | None => mkOutcome 0%Z (printed ++ fst r) None
  | Some e => mkOutcome 1%Z (printed ++ fst r) (Some e)
  end.

(** What the scripts ask the file system. *)
Record fs : Type := mkFs {
  (** [os.path.exists] *)
  path_exists : string -> bool;
  (** [os.path.isdir] *)
  isdir : string -> bool;
  (** [glob.glob] *)
  glob : string -> list string;
  (** [os.listdir] *)
  listdir : string -> result (list string)
}.

(** [s.endswith(p)] for a one-character [p]. *)
Fixpoint endswith (c : ascii) (s : string) : bool :=
  match s with
  | EmptyString => false
  | String a EmptyString => Ascii.eqb a c
  | String _ r => endswith c r
  end.

(** [os.path.join(a, b)] on POSIX paths. *)
Definition join (a b : string) : string :=
  if Lex.startswith "/" b then b
  else if String.eqb a "" || endswith "/" a then (a ++ b)%string
  else (a ++ "/" ++ b)%string.

(** What every file system answers about a path that does not exist or
    is no directory: [os.path.isdir] is false on a missing path,
    [os.listdir] raises [FileNotFoundError] on a missing path and
    [NotADirectoryError] on a file, and [glob] finds nothing under
    either. *)
Definition fs_ok (f : fs) (p : string) : Prop :=
  (path_exists f p = false ->
   isdir f p = false /\ listdir f p = Raise FileNotFoundError)
  /\ (path_exists f p = true -> isdir f p = false ->
      listdir f p = Raise NotADirectoryError)
  /\ (isdir f p = false -> glob f (join p "SF*") = []).

(** [list.sort()] on strings: insertion into a sorted list. *)
Fixpoint insert_sorted (x : string) (l : list string) : list string :=
  match l with
  | [] => [x]
  | y :: r => if String.leb x y then x :: l else y :: insert_sorted x r
  end.

Definition sorted (l : list string) : list string :=
  fold_right insert_sorted [] l.

(** [sf_pattern.match(folder)] for the pattern [^SF\d+$]: the letters, one
    or more digits, then the end of the string or its last newline. *)
Definition sf_match (folder : string) : bool :=
  match Lex.after "SF" folder with
  | None => false
  | Some r =>
      match Lex.digits r with
      | EmptyString => false
      | ds =>
          match Lex.after ds r with
          | Some rest =>
              String.eqb rest "" || String.eqb rest (String Lex.newline EmptyString)
          | None => false
          end
      end
  end.

Section Scripts.

Variable f : fs.

(** Experiment 1, [average_execution_time_analyzer.py]: the SF folders
    [main] finds, before the sort. *)
Definition average_sf_folders (base_path : string) (names : list string)
  : list string :=
  filter (fun folder => isdir f (join base_path folder) && sf_match folder) names.

(** Experiment 1, [average_execution_time_analyzer.py]: the block under
    [if __name__ == "__main__"] with [sys.argv[1]] as [base_path], and
    [main]; [process] is what follows the test of [sf_folders]. *)
Definition average_execution_time_main (process : traversal)
  (base_path : string) : outcome :=
  if negb (path_exists f base_path) then
    mkOutcome 1%Z
      [("Error: The base path '" ++ base_path ++ "' does not exist.")%string] None
  else
    match listdir f base_path with
    | Raise e => mkOutcome 1%Z [] (Some e)
    | Ok names =>
        match sorted (average_sf_folders base_path names) with
        | [] =>
            mkOutcome 0%Z
              [("No SF folders found in base path: " ++ base_path)%string] None
        | sf_folders => finish [] (process sf_folders)
        end
    end.

(** Experiment 1, [power_metrics_aggregator.py]: the directories
    [find_sf_folders] returns. *)
Definition find_sf_folders (base_path : string) : list string :=
  filter (isdir f) (glob f (join base_path "SF*")).

(** Experiment 1, [power_metrics_aggregator.py]: [main], which asks
    [glob] and never asks whether the base path exists; [base_path] is
    the absolute path, [process] what follows the test of [sf_folders]. *)
Definition power_metrics_main (process : traversal)
  (base_path : string) : outcome :=
  match find_sf_folders base_path with
  | [] => mkOutcome 0%Z ["No SF* directories found in the base path."] None
  | sf_folders => finish [] (process sf_folders)
  end.

(** Experiment 1, [energy_metrics_analyzer.py]: the test on an item of
    the base directory, and the test on the two workbooks of an SF
    folder. *)
Definition energy_sf_folder (base_path sf_folder : string) : bool :=
  isdir f (join base_path sf_folder) && Lex.startswith "SF" sf_folder.

Definition query_execution_file (base_path sf_folder : string) : string :=
  join (join base_path sf_folder)
       ("query_execution_times_avg_" ++ sf_folder ++ "_combined.xlsx")%string.

Definition power_metrics_file (base_path sf_folder : string) : string :=
  join (join base_path sf_folder)
       ("power_metrics_" ++ sf_folder ++ "_combined.xlsx")%string.

Definition has_workbooks (base_path sf_folder : string) : bool :=
  path_exists f (query_execution_file base_path sf_folder)
  && path_exists f (power_metrics_file base_path sf_folder).

(** The line printed for an SF folder that lacks a workbook. *)
Definition skipping (base_path sf_folder : string) : string :=
  let missing_files :=
    (if path_exists f (query_execution_file base_path sf_folder) then []
     else ["query_execution_times_avg_combined.xlsx"])
    ++ (if path_exists f (power_metrics_file base_path sf_folder) then []
        else ["power_metrics_combined.xlsx"]) in
  ("Skipping " ++ sf_folder ++ " due to missing files: "
   ++ String.concat ", " missing_files)%string.

(** The loop over the items of the base directory; [combine] is what is
    done with an SF folder that holds both workbooks (reading them,
    printing and saving the combined metrics); [printed] is what was
    printed so far. *)
Fixpoint energy_loop (combine : string -> list string * option exn)
  (base_path : string) (names : list string) (printed : list string) : outcome :=
  match names with
  | [] => mkOutcome 0%Z printed None
  | sf_folder :: rest =>
      if energy_sf_folder base_path sf_folder then
        if has_workbooks base_path sf_folder then
          match snd (combine sf_folder) with
          | None =>
              energy_loop combine base_path rest (printed ++ fst (combine sf_folder))
          | Some e => mkOutcome 1%Z (printed ++ fst (combine sf_folder)) (Some e)
          end
        else
          energy_loop combine base_path rest
            (printed ++ [skipping base_path sf_folder])
      else energy_loop combine base_path rest printed
  end.

(** Experiment 1, [energy_metrics_analyzer.py]: the block under
    [if __name__ == "__main__"], which starts with [os.listdir]. *)
Definition energy_metrics_main (combine : string -> list string * option exn)
  (base_path : string) : outcome :=
  match listdir f base_path with
  | Raise e => mkOutcome 1%Z [] (Some e)
  | Ok names => energy_loop combine base_path names []
  end.

End Scripts.

End Cli.

(** ** What the extractors are meant to compute

    The definitions of this part follow the wording of the specification,
    not the code: every closed entry that has a [Time] is tagged with the
    number of separator lines that precede it in the file, and a section
    of the result is read off the tags. *)

(** A closed entry with its [Time] string. *)
Definition sample : Type := (string * entry)%type.

Definition opt_list {A : Type} (m : option A) : list A :=
  match m with
  | Some v => [v]
  | None => []
  end.

(** The window test on a [Time] string: an instant that does not parse is
    in no window. *)
Definition keeps (parse : string -> option Z) (start_time end_time : Z)
  (ts : string) : bool :=
  match parse ts with
  | Some t => in_window start_time end_time t
  | None => false
  end.

(** The entries tagged [k] that the window keeps, in file order. *)
Definition select (keep : string -> bool) (k : nat) (T : list (nat * sample))
  : list sample :=
  map snd (filter (fun x => (fst x =? k)%nat && keep (fst (snd x))) T).

(** The values of one metric in a list of entries, in order. *)
Definition values_of (get : entry -> option Z) (l : list sample) : list Z :=
  flat_map (fun x => opt_list (get (snd x))) l.

Module Spec1.

(** Separator, open marker and close marker as Experiment 1 lexes them. *)
Definition is_separator (line : string) : bool :=
  String.eqb (Lex.strip line) Lex.DASHES.

(** The tagged entries of the lines, scanning with [nsep] separators
    already seen, [inside] an entry or not, and the fields [d] read so
    far. *)
Fixpoint tagged (nsep : nat) (inside : bool) (d : entry) (lines : list string)
  : list (nat * sample) :=
  match lines with
  | [] => []
  | line :: rest =>
      if is_separator line then tagged (S nsep) inside d rest
      else if Lex.contains "{" line then tagged nsep true no_entry rest
      else if Lex.contains "}" line && inside then
        match e_Time d with
        | Some ts => (nsep, (ts, d)) :: tagged nsep false d rest
        | None => tagged nsep false d rest
        end
      else if inside then tagged nsep true (Exp1.read_fields line d) rest
      else tagged nsep inside d rest
  end.

(** The complete entries of a power log, each with its section number. *)
Definition entries (lines : list string) : list (nat * sample) :=
  tagged 0 false no_entry lines.

(** The section made of a list of entries: all the [Time] strings, and
    per metric the values that are present. *)
Definition build (l : list sample) : Exp1.section :=
  Exp1.mkSection (map fst l)
                 (values_of e_CpuWatts l)
                 (values_of e_DimmWatts l)
                 (values_of e_Average l).

(** Section [k] of the result for a window. *)
Definition section_of (keep : string -> bool) (lines : list string) (k : nat)
  : Exp1.section :=
  build (select keep k (entries lines)).

(** The number of separator lines. *)
Definition separators (lines : list string) : nat :=
  List.length (filter is_separator lines).

End Spec1.

Module Spec2.

(** The tagged entries as Experiments 2 and 3 lex them: nothing counts
    before the first marker line; [started] tells whether it was seen. *)
Fixpoint tagged (nsep : nat) (started : bool) (d : entry) (lines : list string)
  : list (nat * sample) :=
  match lines with
  | [] => []
  | line :: rest =>
      if Lex.contains Lex.POWER_DETAIL line then tagged nsep true d rest
      else if Lex.startswith Lex.DASHES line && started then tagged (S nsep) started d rest
      else if started then
        if String.eqb (Lex.strip line) "{" then tagged nsep started no_entry rest
        else if is_close line then
          match e_Time d with
          | None | Some EmptyString => tagged nsep started no_entry rest
          | Some ts => (nsep, (ts, d)) :: tagged nsep started no_entry rest
          end
        else tagged nsep started (read_fields2 line d) rest
      else tagged nsep started d rest
  end.

Definition entries (lines : list string) : list (nat * sample) :=
  tagged 0 false no_entry lines.

(** The separator lines that count: those after the first marker line. *)
Fixpoint separators (started : bool) (lines : list string) : nat :=
  match lines with
  | [] => 0
  | line :: rest =>
      if Lex.contains Lex.POWER_DETAIL line then separators true rest
      else if Lex.startswith Lex.DASHES line && started then S (separators started rest)
      else separators started rest
  end.

(** The pairs of one metric in a list of entries, in order. *)
Definition pairs_of {B : Type} (get : entry -> option Z) (pair : string -> Z -> option B)
  (l : list sample) : list B :=
  flat_map (fun x => match get (snd x) with
                     | Some v => opt_list (pair (fst x) v)
                     | None => []
                     end) l.

End Spec2.

(** The loop of Experiments 2 and 3 with the stored pair left open: [mk]
    builds it from the [Time] string, its instant and the value.  A
    [Time] that does not parse drops the entry. *)
Module Generic.

Section Machine.

Variable B : Type.
Variable parse : string -> option Z.
Variable mk : string -> Z -> Z -> B.
Variables start_time end_time : Z.

Record state : Type := mkState {
  sections : metrics B;
  started : bool;
  entry_data : entry
}.

Definition add_entry (ts : string) (t : Z) (d : entry) (m : metrics B) : metrics B :=
  mkMetrics (append_last_if (m_CpuWatts m) (e_CpuWatts d) (mk ts t))
            (append_last_if (m_DimmWatts m) (e_DimmWatts d) (mk ts t))
            (append_last_if (m_Average m) (e_Average d) (mk ts t)).

Definition close_entry (st : state) : state :=
  match e_Time (entry_data st) with
  | None | Some EmptyString => mkState (sections st) (started st) no_entry
  | Some ts =>
      match parse ts with
      | None => mkState (sections st) (started st) no_entry
      | Some t =>
          if in_window start_time end_time t then
            mkState (add_entry ts t (entry_data st) (sections st)) (started st) no_entry
          else mkState (sections st) (started st) no_entry
      end
  end.

Definition step (st : state) (line : string) : state :=
  if Lex.contains Lex.POWER_DETAIL line then
    mkState (sections st) true (entry_data st)
  else if Lex.startswith Lex.DASHES line && started st then
    mkState (new_section (sections st)) (started st) (entry_data st)
  else if started st then
    if String.eqb (Lex.strip line) "{" then
      mkState (sections st) (started st) no_entry
    else if is_close line then close_entry st
    else mkState (sections st) (started st) (read_fields2 line (entry_data st))
  else st.

(** The pair stored for a value of an entry with [Time] string [ts]. *)
Definition pair (ts : string) (v : Z) : option B :=
  match parse ts with
  | Some t => Some (mk ts t v)
  | None => None
  end.

(** The sections of one metric, read off the tagged entries. *)
Definition sections_of (get : entry -> option Z) (lines : list string) (k : nat)
  : list B :=
  Spec2.pairs_of get pair
    (select (keeps parse start_time end_time) k (Spec2.entries lines)).

Definition init : state := mkState one_empty_section false no_entry.

(** The result of the loop on the lines of a file. *)
Definition run (lines : list string) : metrics B :=
  sections (fold_left step lines init).

End Machine.

Arguments mkState {B} _ _ _.
Arguments sections {B} _.
Arguments started {B} _.
Arguments entry_data {B} _.
Arguments init {B}.

(** The instant of a [Time] string in Experiments 2 and 3. *)
Definition parse (fromisoformat : string -> option Z) (ts : string) : option Z :=
  fromisoformat (replace_Z ts).

(** The pair Experiment 2 stores: the value and the reformatted instant. *)
Definition mk2 (strftime : Z -> string) (ts : string) (t v : Z) : Z * string :=
  (v, strftime t).

(** The pair Experiment 3 stores: the [Time] string and the value. *)
Definition mk3 (ts : string) (t v : Z) : string * Z := (ts, v).

(** The [Time] string of a tagged entry parses. *)
Definition parses (fromisoformat : string -> option Z) (x : nat * sample) : Prop :=
  parse fromisoformat (fst (snd x)) <> None.

(** The states of Experiments 2 and 3 seen as states of the generic loop. *)
Definition of_exp2 (st : Exp2.state) : state (Z * string) :=
  mkState (Exp2.sections st) (Exp2.in_power_detail_section st) (Exp2.entry_data st).

Definition of_exp3 (st : Exp3.state) : state (string * Z) :=
  mkState (Exp3.sections st) (Exp3.in_power_detail_section st) (Exp3.entry_data st).

End Generic.

(** Auxiliary notions for Experiment 1. *)
Module Spec1Aux.

Import Exp1.

(** Field-wise concatenation of two sections. *)
Definition sec_app (a b : section) : section :=
  mkSection (Time a ++ Time b) (CpuWatts a ++ CpuWatts b)
            (DimmWatts a ++ DimmWatts b) (Average a ++ Average b).

(** All the sections the loop holds: the finished ones and the current
    one. *)
Definition all_sections (st : state) : list section :=
  sections st ++ [current_section st].

End Spec1Aux.

(** ** Reference instances and sample logs

    A parser and a printer for the zero-padded timestamps of the logs,
    used where a statement is run on concrete lines. *)

Module Fixture.

Definition nl (s : string) : string := (s ++ String Lex.newline EmptyString)%string.

(** [n] digits read as a number, and the rest. *)
Fixpoint read_num (n : nat) (acc : Z) (s : string) : option (Z * string) :=
  match n with
  | 0 => Some (acc, s)
  | S n' =>
      match s with
      | String c r =>
          if Lex.is_digit c
          then read_num n' (10 * acc + (Z.of_nat (nat_of_ascii c) - 48))%Z r
          else None
      | EmptyString => None
      end
  end.

(** Days since 1970-01-01 of a date of the proleptic Gregorian calendar. *)
Definition days_from_civil (y m d : Z) : Z :=
  let y' := if (m <=? 2)%Z then (y - 1)%Z else y in
  let era := (y' / 400)%Z in
  let yoe := (y' - era * 400)%Z in
  let mp := if (2 <? m)%Z then (m - 3)%Z else (m + 9)%Z in
  let doy := ((153 * mp + 2) / 5 + d - 1)%Z in
  let doe := (yoe * 365 + yoe / 4 - yoe / 100 + doy)%Z in
  (era * 146097 + doe - 719468)%Z.

(** The instant of [YYYY-MM-DDTHH:MM:SS] followed by [suffix]. *)
Definition instant_with (suffix : string) (s : string) : option Z :=
  match read_num 4 0%Z s with
  | Some (y, s1) =>
  match Lex.after "-" s1 with
  | Some s2 =>
  match read_num 2 0%Z s2 with
  | Some (mo, s3) =>
  match Lex.after "-" s3 with
  | Some s4 =>
  match read_num 2 0%Z s4 with
  | Some (d, s5) =>
  match Lex.after "T" s5 with
  | Some s6 =>
  match read_num 2 0%Z s6 with
  | Some (h, s7) =>
  match Lex.after ":" s7 with
  | Some s8 =>
  match read_num 2 0%Z s8 with
  | Some (mi, s9) =>
  match Lex.after ":" s9 with
  | Some s10 =>
  match read_num 2 0%Z s10 with
  | Some (sec, s11) =>
      if String.eqb s11 suffix
         && (1 <=? mo)%Z && (mo <=? 12)%Z && (1 <=? d)%Z && (d <=? 31)%Z
         && (h <? 24)%Z && (mi <? 60)%Z && (sec <? 60)%Z
      then Some (days_from_civil y mo d * 86400 + h * 3600 + mi * 60 + sec)%Z
      else None
  | None => None end
  | None => None end
  | None => None end
  | None => None end
  | None => None end
  | None => None end
  | None => None end
  | None => None end
  | None => None end
  | None => None end
  | None => None end.

(** An instance of [strptime] with the format of Experiment 1. *)
Definition strptime : string -> option Z := instant_with "Z".

(** An instance of [fromisoformat] on the strings Experiments 2 and 3
    give it, which end in a zero offset. *)
Definition fromisoformat : string -> option Z := instant_with "+00:00".

(** Two decimal digits. *)
Definition two (n : Z) : string :=
  String (ascii_of_nat (48 + Z.to_nat (n / 10))) 
    (String (ascii_of_nat (48 + Z.to_nat (n mod 10))) EmptyString).

(** An instance of [strftime]: the inverse of [strptime]. *)
Definition strftime (t : Z) : string :=
  let days := (t / 86400)%Z in
  let rem := (t mod 86400)%Z in
  let z := (days + 719468)%Z in
  let era := (z / 146097)%Z in
  let doe := (z - era * 146097)%Z in
  let yoe := ((doe - doe / 1460 + doe / 36524 - doe / 146096) / 365)%Z in
  let doy := (doe - (365 * yoe + yoe / 4 - yoe / 100))%Z in
  let mp := ((5 * doy + 2) / 153)%Z in
  let d := (doy - (153 * mp + 2) / 5 + 1)%Z in
  let m := if (mp <? 10)%Z then (mp + 3)%Z else (mp - 9)%Z in
  let y := (yoe + era * 400 + (if (m <=? 2)%Z then 1 else 0))%Z in
  (two (y / 100) ++ two (y mod 100) ++ "-" ++ two m ++ "-" ++ two d ++ "T"
   ++ two (rem / 3600) ++ ":" ++ two (rem / 60 mod 60) ++ ":" ++ two (rem mod 60)
   ++ "Z")%string.

(** The lines of one entry of a power log. *)
Definition entry_lines (time cpu dimm avg : string) : list string :=
  [ nl "        {";
    nl ("            " ++ Lex.quoted "Average" ++ ": " ++ avg ++ ",")%string;
    nl ("            " ++ Lex.quoted "CpuWatts" ++ ": " ++ cpu ++ ",")%string;
    nl ("            " ++ Lex.quoted "DimmWatts" ++ ": " ++ dimm ++ ",")%string;
    nl ("            " ++ Lex.quoted "Time" ++ ": " ++ Lex.quoted time)%string;
    nl "        }," ].

Definition separator_line : string := nl Lex.DASHES.
Definition marker_line : string := nl ("    " ++ Lex.POWER_DETAIL)%string.

End Fixture.

(** ** Notions the claims are stated with *)

(** The pairs of one metric when every [Time] is kept as it is. *)
Definition plain_pairs (get : entry -> option Z) (l : list sample) : list (string * Z) :=
  flat_map (fun x => match get (snd x) with
                     | Some v => [(fst x, v)]
                     | None => []
                     end) l.

(** All the [Time] strings an Experiment 1 result holds. *)
Definition kept_times (ss : list Exp1.section) : list string :=
  List.concat (map Exp1.Time ss).

(** The [Time] strings of the complete entries of a log that a window
    keeps. *)
Definition in_window_times (keep : string -> bool) (lines : list string) : list string :=
  map fst (filter (fun s => keep (fst s)) (map snd (Spec1.entries lines))).

(** The complete entries of an idle file: the runs of field lines that a
    close marker ends and that hold the three metrics, scanning the file
    forwards. *)
Fixpoint idle_entries (d : entry) (lines : list string) : list (Z * Z * Z) :=
  match lines with
  | [] => []
  | line :: rest =>
      if is_close line then
        match e_CpuWatts d, e_DimmWatts d, e_Average d with
        | Some c, Some m, Some a => (c, m, a) :: idle_entries no_entry rest
        | _, _, _ => idle_entries no_entry rest
        end
      else idle_entries (Idle.read_fields line d) rest
  end.

(** ** Sample inputs *)

Module Sample.

Import Fixture.

(** 2024-01-01T00:00:00Z and two minutes later. *)
Definition t_start : Z := 1704067200%Z.
Definition t_end : Z := 1704067320%Z.

Definition e1 : list string := entry_lines "2024-01-01T00:00:30Z" "41" "11" "121".
Definition e2 : list string := entry_lines "2024-01-01T00:01:00Z" "42" "12" "122".
Definition e3 : list string := entry_lines "2024-01-01T00:01:30Z" "43" "13" "123".
Definition e4 : list string := entry_lines "2024-01-01T00:01:45Z" "44" "14" "124".
Definition e5 : list string := entry_lines "2024-01-01T00:02:00Z" "45" "15" "125".

(** Three separator lines, one entry in each of the four sections. *)
Definition four_sections : list string :=
  e1 ++ [separator_line] ++ e2 ++ [separator_line] ++ e3 ++ [separator_line] ++ e4.

(** The same after a marker line. *)
Definition four_sections_marked : list string := marker_line :: four_sections.

(** Eight separator lines, then one entry inside the window. *)
Definition ninth_section : list string := repeat separator_line 8 ++ e1.

(** A log with one separator line after the marker. *)
Definition two_sections_marked : list string := [marker_line; separator_line].

(** An idle file of five entries and nothing else. *)
Definition idle_five : list string := e1 ++ e2 ++ e3 ++ e4 ++ e5.

(** Integer stand-ins for the float operations. *)
#[export] Instance ZOps : FloatOps Z := {
  int_div := Z.div;
  int_sub := Z.sub;
  square := fun y => (y * y)%Z;
  fsum := fun ys => fold_right Z.add 0%Z ys;
  div_int := Z.div;
  sqrt := Z.sqrt;
  sqrt_int := Z.sqrt;
  fdiv := Z.div;
  stdev := fun _ => 0%Z
}.

(** A file system in which no path exists. *)
Definition empty_fs : Cli.fs :=
  Cli.mkFs (fun _ => false) (fun _ => false) (fun _ => [])
           (fun _ => Raise FileNotFoundError).

(** A file system in which [/srv/Measures/Files] is a regular file. *)
Definition file_fs : Cli.fs :=
  Cli.mkFs (fun p => String.eqb p "/srv/Measures/Files") (fun _ => false) (fun _ => [])
           (fun p => if String.eqb p "/srv/Measures/Files"
                     then Raise NotADirectoryError else Raise FileNotFoundError).

(** A file system in which [/srv/Measures/Files] is a directory that holds a
    file [notes.txt] and an empty directory [SF1]. *)
Definition dir_fs : Cli.fs :=
  Cli.mkFs
    (fun p => String.eqb p "/srv/Measures/Files" || String.eqb p "/srv/Measures/Files/SF1"
              || String.eqb p "/srv/Measures/Files/notes.txt")
    (fun p => String.eqb p "/srv/Measures/Files" || String.eqb p "/srv/Measures/Files/SF1")
    (fun pattern => if String.eqb pattern "/srv/Measures/Files/SF*"
                    then ["/srv/Measures/Files/SF1"] else [])
    (fun p => if String.eqb p "/srv/Measures/Files" then Ok ["notes.txt"; "SF1"]
              else if String.eqb p "/srv/Measures/Files/SF1" then Ok []
              else if String.eqb p "/srv/Measures/Files/notes.txt"
                   then Raise NotADirectoryError
              else Raise FileNotFoundError).

(** A directory without any SF folder. *)
Definition plain_dir_fs : Cli.fs :=
  Cli.mkFs
    (fun p => String.eqb p "/srv/Measures/Files" || String.eqb p "/srv/Measures/Files/notes.txt")
    (fun p => String.eqb p "/srv/Measures/Files")
    (fun _ => [])
    (fun p => if String.eqb p "/srv/Measures/Files" then Ok ["notes.txt"]
              else if String.eqb p "/srv/Measures/Files/notes.txt"
                   then Raise NotADirectoryError
              else Raise FileNotFoundError).

(** A traversal that prints nothing and returns. *)
Definition quiet : Cli.traversal := fun _ => ([], None).

(** The same for one SF folder. *)
Definition quiet_combine : string -> list string * option exn := fun _ => ([], None).

End Sample.

(** ** Experiment 2: [load_last_metrics_from_idle_file] *)

Module Idle2.

(** [l[-X:]]: the last [X] items for a positive [X], the whole list for
    [X = 0] (the slice starts at index 0), and the list without its first
    [-X] items for a negative [X]. *)
Definition last_slice {A : Type} (X : Z) (l : list A) : list A :=
  if (0 <? X)%Z then skipn (List.length l - Z.to_nat X) l
  else if (X =? 0)%Z then l
  else skipn (Z.to_nat (- X)) l.

(** The three lists the loop fills. *)
Record lists : Type := mkLists {
  cpu_watts : list Z;
  dimm_watts : list Z;
  average : list Z
}.

(** One iteration of [for line in file]. *)
Definition step (acc : lists) (line : string) : lists :=
  mkLists (append_if (cpu_watts acc) (Lex.search_int2 "CpuWatts" line))
          (append_if (dimm_watts acc) (Lex.search_int2 "DimmWatts" line))
          (append_if (average acc) (Lex.search_int2 "Average" line)).

(** The function on the lines of the file. *)
Definition load_last_metrics_from_idle_file (lines : list string) (X : Z)
  : Idle.idle_values :=
  let acc := fold_left step lines (mkLists [] [] []) in
  Idle.mkIdle (last_slice X (cpu_watts acc))
              (last_slice X (dimm_watts acc))
              (last_slice X (average acc)).

(** The values of a key on the lines that hold it, in file order. *)
Definition matches (key : string) (lines : list string) : list Z :=
  flat_map (fun line => opt_list (Lex.search_int2 key line)) lines.

End Idle2.

(** A log whose second entry carries a [Time] that is no timestamp. *)
Definition bad_time_log : list string :=
  Fixture.marker_line :: Sample.e1
  ++ Fixture.entry_lines "not-a-timestampZ" "42" "12" "122" ++ Sample.e3.

(** The values of a result of Experiment 2, without the timestamps. *)
Definition values2 (m : metrics (Z * string)) : metrics Z :=
  mkMetrics (map (map fst) (m_CpuWatts m)) (map (map fst) (m_DimmWatts m))
            (map (map fst) (m_Average m)).

(** The values of a result of Experiment 3, without the timestamps. *)
Definition values3 (m : metrics (string * Z)) : metrics Z :=
  mkMetrics (map (map snd) (m_CpuWatts m)) (map (map snd) (m_DimmWatts m))
            (map (map snd) (m_Average m)).

(** ** Experiment 2: statistics of a phase *)

(** The numpy operations of Experiment 2; [F] stands for [float64]. *)
Class NumpyOps (F : Type) : Type := {
  (** [np.mean] *)
  np_mean : list Z -> F;
  (** [np.std(values, ddof=1)] *)
  np_std_ddof1 : list Z -> F;
  (** [np.sqrt] of an integer *)
  np_sqrt : Z -> F;
  (** [y / z] *)
  np_div : F -> F -> F
}.

Module Stats2.

Section Numpy.

Context {F : Type} `{NumpyOps F}.

(** [calculate_sample_std] *)
Definition calculate_sample_std (values : list Z) : option F :=
  if (1 <? zlen values)%Z then Some (np_std_ddof1 values) else None.

(** [calculate_std_error]; under [len(values) > 1] the sample standard
    deviation is a number (on [None] the division would raise). *)
Definition calculate_std_error (values : list Z) : option F :=
  if (1 <? zlen values)%Z then
    match calculate_sample_std values with
    | Some s => Some (np_div s (np_sqrt (zlen values)))
    | None => None
    end
  else None.

(** [[item[0] for section in sections for item in section if section]] *)
Definition flat_values (sections : list (list (Z * string))) : list Z :=
  flat_map (fun section =>
              flat_map (fun item => match section with
                                    | [] => []
                                    | _ :: _ => [fst item]
                                    end) section) sections.

(** The three numbers kept for one metric. *)
Definition metric_summary (flat : list Z) : option F * option F * option F :=
  match flat with
  | [] => (None, None, None)
  | _ :: _ => (Some (np_mean flat), calculate_sample_std flat, calculate_std_error flat)
  end.

(** [s.capitalize()] on ASCII letters. *)
Definition upper (c : ascii) : ascii :=
  let n := nat_of_ascii c in
  if ((97 <=? n) && (n <=? 122))%nat then ascii_of_nat (n - 32) else c.

Definition lower (c : ascii) : ascii :=
  let n := nat_of_ascii c in
  if ((65 <=? n) && (n <=? 90))%nat then ascii_of_nat (n + 32) else c.

Fixpoint lower_all (s : string) : string :=
  match s with
  | EmptyString => EmptyString
  | String c r => String (lower c) (lower_all r)
  end.

Definition capitalize (s : string) : string :=
  match s with
  | EmptyString => EmptyString
  | String c r => String (upper c) (lower_all r)
  end.

(** The dict [extract_phase_metrics] returns: the phase name and, for
    each of the three metrics, mean, sample standard deviation and
    standard error. *)
Record phase_data : Type := mkPhase {
  Phase : string;
  cpu : option F * option F * option F;
  dimm : option F * option F * option F;
  power : option F * option F * option F
}.

(** [extract_phase_metrics] *)
Definition extract_phase_metrics (phase : string) (m : metrics (Z * string))
  : phase_data :=
  mkPhase (capitalize phase)
          (metric_summary (flat_values (m_CpuWatts m)))
          (metric_summary (flat_values (m_DimmWatts m)))
          (metric_summary (flat_values (m_Average m))).

End Numpy.

End Stats2.

(** The entries of a log after the marker that a window keeps, in file
    order, whatever their section. *)
Definition kept_entries (keep : string -> bool) (lines : list string) : list sample :=
  filter (fun s => keep (fst s)) (map snd (Spec2.entries lines)).

(** ** Experiment 1: [average_execution_time_analyzer.py] *)

Module ExecTime.

(** One attempt of the pattern [Total Execution Time: (\d+)\s+seconds]
    at the head of [s]: neither [\d+] nor [\s+] can give a character
    back, so the greedy attempt is the only one. *)
Definition exec_time_here (s : string) : option Z :=
  match Lex.after "Total Execution Time: " s with
  | None => None
  | Some r =>
      match Lex.digits r with
      | EmptyString => None
      | ds =>
          match Lex.after ds r with
          | Some (String c r') =>
              if Lex.is_space c && Lex.startswith "seconds" (Lex.lstrip r')
              then Some (Lex.int ds)
              else None
          | _ => None
          end
      end
  end.

(** The loop of [extract_execution_time]: the first line that matches
    ends it. *)
Fixpoint first_match (lines : list string) : option Z :=
  match lines with
  | [] => None
  | line :: rest =>
      match Lex.search exec_time_here line with
      | Some n => Some n
      | None => first_match rest
      end
  end.

(** [extract_execution_time]: [file] is what [open] gives, [None] for
    [FileNotFoundError]; both a missing file and a file without a
    matching line give 0. *)
Definition extract_execution_time (file : option (list string)) : Z :=
  match file with
  | None => 0%Z
  | Some lines =>
      match first_match lines with
      | Some n => n
      | None => 0%Z
      end
  end.

(** The loop of [process_iteration_folder] over the timestamp files of
    the iteration folders, in their sorted order: [total_time] and
    [execution_times]. *)
Definition accumulate (files : list (option (list string))) : Z * list Z :=
  fold_left (fun acc file =>
               let execution_time := extract_execution_time file in
               ((fst acc + execution_time)%Z, snd acc ++ [execution_time]))
            files (0%Z, []).

Section Folder.

Context {F : Type} `{FloatOps F}.

(** [pd.Series(execution_times).std(ddof=1)] and the standard error
    derived from it are taken from the float operations; the function
    returns [(average_time, std_dev_time, std_error_time, len(iterations))]. *)
Definition process_iteration_folder (files : list (option (list string)))
  : Stats3.num F * Stats3.num F * Stats3.num F * nat :=
  let '(total_time, execution_times) := accumulate files in
  match execution_times with
  | [] => (Stats3.Int 0%Z, Stats3.Int 0%Z, Stats3.Int 0%Z, List.length files)
  | _ :: _ =>
      (Stats3.Float (int_div total_time (zlen execution_times)),
       Stats3.Float (stdev execution_times),
       Stats3.Float (fdiv (stdev execution_times) (sqrt_int (zlen execution_times))),
       List.length files)
  end.

End Folder.

End ExecTime.

(** ** Python indexing *)

(** [xs[i]]: a negative index counts from the end; outside both ranges
    Python raises [IndexError]. *)
Definition py_index {A : Type} (xs : list A) (i : Z) : result A :=
  let n := Z.of_nat (List.length xs) in
  let at_ k := match nth_error xs (Z.to_nat k) with
               | Some x => Ok x
               | None => Raise IndexError
               end in
  if (0 <=? i)%Z && (i <? n)%Z then at_ i
  else if (- n <=? i)%Z && (i <? 0)%Z then at_ (n + i)%Z
  else Raise IndexError.

(** ** Experiment 1: [process_iteration] and [compute_statistics] *)

Module Iteration1.

(** What [process_iteration] returns: the phase name, the statistics of
    the three metrics and the raw values. *)
Record iteration (F : Type) : Type := mkIteration {
  Phase : string;
  cpu_stats : Stats1.stats F;
  dimm_stats : Stats1.stats F;
  power_stats : Stats1.stats F;
  CpuWatts : list Z;
  DimmWatts : list Z;
  AveragePowerValues : list Z
}.

Arguments mkIteration {F} _ _ _ _ _ _ _.
Arguments Phase {F} _.
Arguments cpu_stats {F} _.
Arguments dimm_stats {F} _.
Arguments power_stats {F} _.
Arguments CpuWatts {F} _.
Arguments DimmWatts {F} _.
Arguments AveragePowerValues {F} _.

Section ProcessIteration.

Context {F : Type} `{FloatOps F}.
Variable strptime : string -> option Z.
Variable time_match : string -> option (string * string).
Variable exec_time_match : string -> option Z.

(** [compute_statistics]: [calc_stats] on each of the three lists. *)
Definition compute_statistics (cpu_watts dimm_watts average_power : list Z)
  : Stats1.stats F * Stats1.stats F * Stats1.stats F :=
  (Stats1.calc_stats cpu_watts, Stats1.calc_stats dimm_watts,
   Stats1.calc_stats average_power).

(** [process_iteration] on the content of the timestamp file of the
    iteration and of the shared power log; [Ok None] is Python's [None].
    The lines it logs are left out. *)
Definition process_iteration (timestamp_file ilo_power_file : string)
  (timestamps power_log : option (list string)) (iteration_number : Z)
  : result (option (iteration F)) :=
  let ts := Loader1.read_timestamps strptime time_match exec_time_match
              timestamp_file timestamps in
  match Loader1.start_time ts, Loader1.end_time ts with
  | Some start_time, Some end_time =>
      match fst (Exp1.extract_section_values strptime start_time end_time
                   ilo_power_file power_log) with
      | None => Ok None
      | Some sections =>
          let section_index := (iteration_number - 1)%Z in
          if (section_index >=? Z.of_nat (List.length sections))%Z then Ok None
          else
            match py_index sections section_index with
            | Raise e => Raise e
            | Ok current_section =>
                let '(c, d, p) :=
                  compute_statistics (Exp1.CpuWatts current_section)
                                     (Exp1.DimmWatts current_section)
                                     (Exp1.Average current_section) in
                Ok (Some (mkIteration
                            ("Iteration " ++ str_of_Z iteration_number)%string
                            c d p
                            (Exp1.CpuWatts current_section)
                            (Exp1.DimmWatts current_section)
                            (Exp1.Average current_section)))
            end
      end
  | _, _ => Ok None
  end.

End ProcessIteration.

End Iteration1.

(** ** Experiment 3: the section of a query *)

Module Query3.

(** The choice of [selected_section] in [find_folders_and_process]. *)
Definition select_section {A : Type} (sections : list (list A)) (query_id : Z)
  : result (list A) :=
  let section_index := (query_id - 1)%Z in
  if (section_index <? Z.of_nat (List.length sections))%Z
  then py_index sections section_index
  else Ok [].

End Query3.

(** A stand-in for the start and end time pattern that finds the sample
    window on every line. *)
Definition sample_time_match (line : string) : option (string * string) :=
  Some ("2024-01-01T00:00:00Z", "2024-01-01T00:02:00Z").

(** ** Last values and dict lookups *)

(** The last item of a list, if any. *)
Fixpoint last_opt {A : Type} (l : list A) : option A :=
  match l with
  | [] => None
  | [x] => Some x
  | _ :: r => last_opt r
  end.

(** [d.get(k)] on a dict kept as an association list. *)
Fixpoint dict_get {V : Type} (d : list (Z * V)) (k : Z) : option V :=
  match d with
  | [] => None
  | (k', v) :: rest => if (k' =? k)%Z then Some v else dict_get rest k
  end.

Module Loader1Spec.

Section Lines.

Variable strptime : string -> option Z.
Variable time_match : string -> option (string * string).
Variable exec_time_match : string -> option Z.

(** The start times that parse, line by line. *)
Definition starts (lines : list string) : list Z :=
  flat_map (fun line => match time_match line with
                        | Some (s, _) => opt_list (strptime (Lex.strip s))
                        | None => []
                        end) lines.

(** The end times of the lines on which both times parse. *)
Definition ends (lines : list string) : list Z :=
  flat_map (fun line => match time_match line with
                        | Some (s, e) =>
                            match strptime (Lex.strip s), strptime (Lex.strip e) with
                            | Some _, Some b => [b]
                            | _, _ => []
                            end
                        | None => []
                        end) lines.

(** The totals, line by line. *)
Definition totals (lines : list string) : list Z :=
  flat_map (fun line => opt_list (exec_time_match line)) lines.

(** The lines with a pair of times of which one does not parse. *)
Definition bad_lines (lines : list string) : list string :=
  filter (fun line => match time_match line with
                      | Some (s, e) =>
                          match strptime (Lex.strip s), strptime (Lex.strip e) with
                          | Some _, Some _ => false
                          | _, _ => true
                          end
                      | None => false
                      end) lines.

End Lines.

End Loader1Spec.

Module Loader3Spec.

Section Lines.

Variable fromisoformat : string -> option Z.
Variable query_match : string -> option (Z * string * string).

(** The interval of a line that matches, when both its times parse. *)
Definition interval (line : string) : option (Z * (Z * Z)) :=
  match query_match line with
  | Some (q, start, finish) =>
      match Generic.parse fromisoformat start, Generic.parse fromisoformat finish with
      | Some s, Some f => Some (q, (s, f))
      | _, _ => None
      end
  | None => None
  end.

(** A line is fine when it does not match or both its times parse. *)
Definition fine (line : string) : bool :=
  match query_match line with
  | Some _ => match interval line with Some _ => true | None => false end
  | None => true
  end.

(** The intervals given for query [q], in file order. *)
Definition intervals_of (q : Z) (lines : list string) : list (Z * Z) :=
  flat_map (fun line => match interval line with
                        | Some (q', i) => if (q' =? q)%Z then [i] else []
                        | None => []
                        end) lines.

End Lines.

End Loader3Spec.

(** A stand-in for the query line pattern: every line that starts with
    [Query] is query 1 over the sample window. *)
Definition sample_query_match (line : string) : option (Z * string * string) :=
  if Lex.startswith "Query" line
  then Some (1%Z, "2024-01-01T00:00:00Z", "2024-01-01T00:02:00Z")
  else None.

(** ** Experiment 2: [parse_timestamp_ranges] *)

Module Ranges2.

(** [\w] on ASCII: letters, digits and the underscore. *)
Definition is_word (c : ascii) : bool :=
  let n := nat_of_ascii c in
  (Lex.is_digit c
   || ((65 <=? n) && (n <=? 90)) || ((97 <=? n) && (n <=? 122)) || (n =? 95))%nat.

(** A character of the class of the timestamp groups: a digit, [T], a
    colon, [Z] or a hyphen. *)
Definition is_time_char (c : ascii) : bool :=
  Lex.is_digit c || Ascii.eqb c "T" || Ascii.eqb c ":" || Ascii.eqb c "Z"
  || Ascii.eqb c "-".

(** The longest prefix of characters of a class. *)
Fixpoint span (p : ascii -> bool) (s : string) : string :=
  match s with
  | EmptyString => EmptyString
  | String c r => if p c then String c (span p r) else EmptyString
  end.

(** [re.match(r'(\w+):', line)]: the group.  The colon is no word
    character, so the longest run of word characters is the only
    candidate. *)
Definition phase_match (line : string) : option string :=
  match span is_word line with
  | EmptyString => None
  | w =>
      match Lex.after w line with
      | Some (String c _) => if Ascii.eqb c ":" then Some w else None
      | _ => None
      end
  end.

(** [re.match] of the start and end time pattern: the two groups.  The
    comma that follows the first group is not in its class. *)
Definition time_match (line : string) : option (string * string) :=
  match Lex.after "Start Time = " line with
  | None => None
  | Some r =>
      match span is_time_char r with
      | EmptyString => None
      | g1 =>
          match Lex.after g1 r with
          | None => None
          | Some r1 =>
              match Lex.after ", End Time = " r1 with
              | None => None
              | Some r2 =>
                  match span is_time_char r2 with
                  | EmptyString => None
                  | g2 => Some (g1, g2)
                  end
              end
          end
      end
  end.

(** [d[k] = v] on a dict with string keys kept in insertion order. *)
Fixpoint dict_set (d : list (string * (Z * Z))) (k : string) (v : Z * Z)
  : list (string * (Z * Z)) :=
  match d with
  | [] => [(k, v)]
  | (k', v') :: rest =>
      if String.eqb k' k then (k, v) :: rest else (k', v') :: dict_set rest k v
  end.

(** The loop variables: the dict, the pending phase and the log. *)
Record state : Type := mkState {
  timestamp_ranges : list (string * (Z * Z));
  phase : option string;
  log : list log_event
}.

Definition init : state := mkState [] None [].

Section Parse.

(** [datetime.fromisoformat]: [None] is [ValueError]. *)
Variable fromisoformat : string -> option Z.

(** One iteration of [for line in file]. *)
Definition step (st : state) (line : string) : state :=
  match phase_match line with
  | Some p => mkState (timestamp_ranges st) (Some p) (log st)
  | None =>
      match time_match line, phase st with
      | Some (g1, g2), Some (String c r) =>
          let p := String c r in
          match fromisoformat (replace_Z g1), fromisoformat (replace_Z g2) with
          | Some start_time, Some end_time =>
              mkState (dict_set (timestamp_ranges st) p (start_time, end_time))
                      None (log st)
          | _, _ =>
              mkState (timestamp_ranges st) None
                      (log st ++ [LogInfo "Invalid timestamp format" line])
          end
      | _, _ => st
      end
  end.

(** [parse_timestamp_ranges] on the lines of the file: the dict and the
    log, which ends with the line that prints the dict. *)
Definition parse_timestamp_ranges (lines : list string)
  : list (string * (Z * Z)) * list log_event :=
  let st := fold_left step lines init in
  (timestamp_ranges st, log st ++ [LogInfo "Parsed timestamp ranges" ""]).

End Parse.

End Ranges2.

(** A timestamp file of Experiment 2: a phase with two time lines. *)
Definition sample_ranges : list string :=
  [ Fixture.nl "cold:";
    Fixture.nl "Start Time = 2024-01-01T00:00:00Z, End Time = 2024-01-01T00:02:00Z";
    Fixture.nl "Start Time = 2024-01-01T00:05:00Z, End Time = 2024-01-01T00:07:00Z";
    Fixture.nl "hot:";
    Fixture.nl "Start Time = 2024-01-01T00:10:00Z, End Time = 2024-01-01T00:12:00Z" ].

(** ** The entry points of Experiments 2 and 3 *)

Module Cli23.

(** Experiment 3, [power_metrics_aggregator.py]: [main] with
    [sys.argv[1]] as [base_path]; [exists_] is [os.path.exists(base_path)]
    and [sf_folders] what [find_sf_folders] returns. *)
Definition main3 (exists_ : bool) (sf_folders : list string)
  (process : list string * option exn) : Cli.outcome :=
  if negb exists_ then
    Cli.mkOutcome 1%Z ["Error: The base_path does not exist."] None
  else
    match sf_folders with
    | [] => Cli.mkOutcome 1%Z ["No SF folders found in the base_path. Exiting."] None
    | _ :: _ =>
        match snd process with
        | None =>
            Cli.mkOutcome 0%Z
              (fst process ++ ["All data has been saved to their respective SF folders."])
              None
        | Some e => Cli.mkOutcome 1%Z (fst process) (Some e)
        end
    end.

(** Experiment 2, [power_metrics_aggregator.py]: [main]; [isdir] is
    [os.path.isdir(base_path)] and [sf_folders] what [process_all_folders]
    finds with [os.scandir]. *)
Definition main2 (isdir : bool) (sf_folders : list string)
  (process : list string * option exn) : Cli.outcome :=
  if negb isdir then
    Cli.mkOutcome 1%Z
      ["Script started."; "Base path is not a directory or does not exist"] None
  else
    match sf_folders with
    | [] =>
        Cli.mkOutcome 0%Z
          ["Script started."; "No SF folders found in the base path.";
           "Processing completed."] None
    | _ :: _ =>
        match snd process with
        | None =>
            Cli.mkOutcome 0%Z
              ("Script started." :: fst process ++ ["Processing completed."]) None
        | Some e => Cli.mkOutcome 1%Z ("Script started." :: fst process) (Some e)
        end
    end.

End Cli23.

(** ** The lines of one entry *)

(** The lines of one entry as Experiment 1 lexes them: a line that opens
    it, field lines, a line that closes it, none of them a separator
    line. *)
Definition entry_block1 (opening : string) (fields : list string)
  (closing : string) : bool :=
  negb (Spec1.is_separator opening) && Lex.contains "{" opening
  && forallb (fun line => negb (Spec1.is_separator line)
                          && negb (Lex.contains "{" line)
                          && negb (Lex.contains "}" line)) fields
  && negb (Spec1.is_separator closing) && negb (Lex.contains "{" closing)
  && Lex.contains "}" closing.

(** The [entry_data] dict its field lines leave at the close marker. *)
Definition entry_data1 (fields : list string) : entry :=
  fold_left (fun d line => Exp1.read_fields line d) fields no_entry.

(** A line that is neither the marker line nor a separator line of
    Experiment 2. *)
Definition plain2 (line : string) : bool :=
  negb (Lex.contains Lex.POWER_DETAIL line)
  && negb (Lex.startswith Lex.DASHES line).

(** The lines of one entry as Experiment 2 lexes them. *)
Definition entry_block2 (opening : string) (fields : list string)
  (closing : string) : bool :=
  plain2 opening && String.eqb (Lex.strip opening) "{"
  && forallb (fun line => plain2 line
                          && negb (String.eqb (Lex.strip line) "{")
                          && negb (is_close line)) fields
  && plain2 closing && is_close closing.

Definition entry_data2 (fields : list string) : entry :=
  fold_left (fun d line => read_fields2 line d) fields no_entry.

(** What the rest of the loop of Experiment 1 depends on: the sections,
    whether an entry is open, and the fields read when one is.  The two
    counters are only reported at debug level, and the fields of a closed
    entry are never read again. *)
Definition live1 (st : Exp1.state)
  : list Exp1.section * Exp1.section * bool * entry :=
  (Exp1.sections st, Exp1.current_section st, Exp1.inside_entry st,
   if Exp1.inside_entry st then Exp1.entry_data st else no_entry).

(** The same for Experiment 2: everything but the log. *)
Definition live2 (st : Exp2.state) : metrics (Z * string) * bool * entry :=
  (Exp2.sections st, Exp2.in_power_detail_section st, Exp2.entry_data st).

(** Entries that are not well formed. *)
Module Malformed.

Import Fixture.

Definition opening : string := nl "        {".
Definition closing : string := nl "        },".

Definition field (key value : string) : string :=
  nl ("            " ++ Lex.quoted key ++ ": " ++ value ++ ",")%string.

Definition time_field (time : string) : string :=
  nl ("            " ++ Lex.quoted "Time" ++ ": " ++ Lex.quoted time)%string.

(** The three metrics and no [Time]. *)
Definition timeless : list string :=
  [field "Average" "126"; field "CpuWatts" "46"; field "DimmWatts" "16"].

(** A [Time] in a month that does not exist. *)
Definition bad_time : list string :=
  [field "Average" "126"; field "CpuWatts" "46"; field "DimmWatts" "16";
   time_field "2024-13-01T00:00:00Z"].

(** A [Time] inside the sample window and the [Average] only. *)
Definition average_only : list string :=
  [field "Average" "126"; time_field "2024-01-01T00:01:00Z"].

End Malformed.

(** * Theorems *)

Arguments Lex.startswith : simpl never.
Arguments Lex.contains : simpl never.
Arguments Lex.strip : simpl never.

(** ** Lists *)

Lemma nth_app_repeat {A : Type} (d : A) (l : list A) (m k : nat) :
  nth k (l ++ repeat d m) d = nth k l d.
Proof.
  destruct (Nat.lt_ge_cases k (List.length l)) as [Hk | Hk].
  - now rewrite app_nth1.
  - rewrite app_nth2 by exact Hk.
    rewrite (nth_overflow l) by exact Hk.
    destruct (Nat.lt_ge_cases (k - List.length l) m) as [Hm | Hm].
    + now apply nth_repeat_lt.
    + apply nth_overflow. now rewrite repeat_length.
Qed.

Lemma nth_firstn_lt {A : Type} (d : A) (l : list A) (n k : nat) :
  k < n -> nth k (firstn n l) d = nth k l d.
Proof.
  revert l k. induction n as [| n IH]; intros l k Hk; [lia |].
  destruct l as [| x l]; [reflexivity |].
  destruct k as [| k]; [reflexivity |].
  simpl. apply IH. lia.
Qed.

Lemma nth_snoc_default {A : Type} (d : A) (l : list A) (k : nat) :
  nth k (l ++ [d]) d = nth k l d.
Proof. exact (nth_app_repeat d l 1 k). Qed.

Lemma select_nil keep k : select keep k [] = [].
Proof. reflexivity. Qed.

Lemma select_cons keep k n s T :
  select keep k ((n, s) :: T) =
  if (n =? k)%nat && keep (fst s) then s :: select keep k T else select keep k T.
Proof.
  unfold select. simpl. now destruct ((n =? k)%nat && keep (fst s)).
Qed.

(** Entries whose tags are all above [k] leave section [k] empty. *)
Lemma select_above keep k T :
  Forall (fun x => k < fst x) T -> select keep k T = [].
Proof.
  induction 1 as [| [n s] T Hn _ IH]; [reflexivity |].
  rewrite select_cons, IH. simpl in Hn.
  replace (n =? k)%nat with false; [reflexivity |].
  symmetry. apply Nat.eqb_neq. lia.
Qed.

(** ** Experiment 1 *)

Module Exp1Facts.

Import Exp1.
Import Spec1Aux.

Lemma sec_app_empty_r a : sec_app a empty_section = a.
Proof. destruct a. unfold sec_app. simpl. now rewrite !app_nil_r. Qed.

Lemma sec_app_empty_l a : sec_app empty_section a = a.
Proof. now destruct a. Qed.

Lemma append_if_app {A : Type} (xs ys : list A) (m : option A) :
  append_if xs m ++ ys = xs ++ opt_list m ++ ys.
Proof. destruct m; simpl; [now rewrite <- app_assoc | reflexivity]. Qed.

Lemma sec_app_add ts d cur l :
  sec_app (add_entry ts d cur) (Spec1.build l) =
  sec_app cur (Spec1.build ((ts, d) :: l)).
Proof.
  unfold sec_app, add_entry, Spec1.build, values_of. simpl.
  rewrite !append_if_app, <- app_assoc. reflexivity.
Qed.

Lemma any_nonempty_false s : any_nonempty s = false -> s = empty_section.
Proof.
  destruct s as [t c d a]. unfold any_nonempty. simpl.
  destruct t, c, d, a; simpl; intros E; first [discriminate E | reflexivity].
Qed.

Lemma tagged_ge lines : forall n inside d,
  Forall (fun x => n <= fst x) (Spec1.tagged n inside d lines).
Proof.
  induction lines as [| line rest IH]; intros n inside d; simpl; [constructor |].
  destruct (Spec1.is_separator line).
  - eapply Forall_impl; [| apply IH]. simpl. intros; lia.
  - destruct (Lex.contains "{" line); [apply IH |].
    destruct (Lex.contains "}" line && inside).
    + destruct (e_Time d); [constructor; [simpl; lia | apply IH] | apply IH].
    + destruct inside; apply IH.
Qed.

Section Window.

Variable strptime : string -> option Z.
Variables start_time end_time : Z.

Let keep := keeps strptime start_time end_time.
Let step := Exp1.step strptime start_time end_time.

(** The loop, started in any state, files every entry under its tag. *)
Lemma run1_tagged lines : forall st k,
  nth k (all_sections (fold_left step lines st)) empty_section =
  let n := List.length (sections st) in
  let T := Spec1.tagged n (inside_entry st) (entry_data st) lines in
  if (k <? n)%nat then nth k (sections st) empty_section
  else if (k =? n)%nat then sec_app (current_section st) (Spec1.build (select keep k T))
  else Spec1.build (select keep k T).
Proof.
  induction lines as [| line rest IH]; intros st k; cbv zeta.
  - simpl. unfold all_sections.
    destruct (Nat.ltb_spec k (List.length (sections st))) as [Hk | Hk].
    + now rewrite app_nth1.
    + rewrite app_nth2 by exact Hk.
      destruct (Nat.eqb_spec k (List.length (sections st))) as [-> | Hne].
      * rewrite Nat.sub_diag. simpl. now rewrite sec_app_empty_r.
      * destruct (k - List.length (sections st)) as [| [| j]] eqn:E; try reflexivity. lia.
  - simpl fold_left. rewrite IH. cbv zeta. clear IH.
    unfold step, Exp1.step. simpl Spec1.tagged.
    unfold Spec1.is_separator.
    destruct (String.eqb (Lex.strip line) Lex.DASHES) eqn:Esep.
    + (* separator *)
      simpl. rewrite length_app. simpl.
      replace (List.length (sections st) + 1) with (S (List.length (sections st))) by lia.
      set (n := List.length (sections st)).
      set (T := Spec1.tagged (S n) (inside_entry st) (entry_data st) rest).
      assert (HT : select keep n T = []).
      { apply select_above. eapply Forall_impl; [| apply tagged_ge].
        simpl. intros; lia. }
      destruct (Nat.ltb_spec k n) as [Hk | Hk].
      * replace (k <? S n)%nat with true by (symmetry; apply Nat.ltb_lt; lia).
        now rewrite app_nth1.
      * destruct (Nat.eqb_spec k n) as [-> | Hne].
        -- replace (n <? S n)%nat with true by (symmetry; apply Nat.ltb_lt; lia).
           rewrite app_nth2 by (fold n; lia). fold n. rewrite Nat.sub_diag. simpl.
           rewrite HT. simpl. symmetry. apply sec_app_empty_r.
        -- replace (k <? S n)%nat with false by (symmetry; apply Nat.ltb_ge; lia).
           destruct (Nat.eqb_spec k (S n)); [apply sec_app_empty_l | reflexivity].
    + destruct (Lex.contains "{" line) eqn:Eopen; [reflexivity |].
      destruct (Lex.contains "}" line && inside_entry st) eqn:Eclose.
      * (* close marker *)
        unfold close_entry.
        destruct (e_Time (entry_data st)) as [ts |] eqn:Etime; [| reflexivity].
        set (n := List.length (sections st)).
        rewrite select_cons. simpl fst.
        assert (Hkeep : keep ts = match strptime ts with
                                  | Some t => in_window start_time end_time t
                                  | None => false
                                  end) by reflexivity.
        destruct (strptime ts) as [t |] eqn:Eparse.
        -- destruct (in_window start_time end_time t) eqn:Ewin; simpl.
           ++ fold n. destruct (Nat.ltb_spec k n) as [Hk | Hk]; [reflexivity |].
              destruct (Nat.eqb_spec k n) as [-> | Hne].
              ** rewrite Nat.eqb_refl, Hkeep. simpl. apply sec_app_add.
              ** replace (n =? k)%nat with false
                   by (symmetry; apply Nat.eqb_neq; lia). reflexivity.
           ++ fold n. rewrite Hkeep, andb_false_r. reflexivity.
        -- simpl. fold n. rewrite Hkeep, andb_false_r. reflexivity.
      * destruct (inside_entry st) eqn:Einside; rewrite ?Einside; reflexivity.
Qed.

(** What is left of the sections after the flush, the padding and the
    truncation. *)
Lemma nth_finalize st k :
  k < TOTAL_SECTIONS ->
  nth k (truncate (pad (flush_last st))) empty_section =
  nth k (all_sections st) empty_section.
Proof.
  intros Hk. unfold truncate.
  assert (Hpad : nth k (pad (flush_last st)) empty_section =
                 nth k (all_sections st) empty_section).
  { unfold pad. rewrite nth_app_repeat. unfold flush_last, all_sections.
    destruct (any_nonempty (current_section st)) eqn:E; [reflexivity |].
    rewrite (any_nonempty_false _ E). symmetry. apply nth_snoc_default. }
  destruct (TOTAL_SECTIONS <? List.length (pad (flush_last st)))%nat; [| exact Hpad].
  rewrite nth_firstn_lt by exact Hk. exact Hpad.
Qed.

Lemma length_finalize ss : List.length (truncate (pad ss)) = TOTAL_SECTIONS.
Proof.
  unfold truncate, pad.
  destruct (Nat.ltb_spec TOTAL_SECTIONS
              (List.length (ss ++ repeat empty_section (TOTAL_SECTIONS - List.length ss))))
    as [Hlt | Hge].
  - rewrite length_firstn. lia.
  - rewrite length_app, repeat_length in *. lia.
Qed.

(** Section [k] of the result, for [k] below [TOTAL_SECTIONS], is made of
    the entries tagged [k] that the window keeps, in file order. *)
Lemma extract_lines_nth lines k :
  k < TOTAL_SECTIONS ->
  nth k (extract_lines strptime start_time end_time lines) empty_section =
  Spec1.section_of keep lines k.
Proof.
  intros Hk. unfold extract_lines. rewrite nth_finalize by exact Hk.
  unfold run. fold step. rewrite run1_tagged. simpl.
  unfold Spec1.section_of, Spec1.entries.
  destruct k; simpl; [apply sec_app_empty_l | reflexivity].
Qed.

Lemma extract_lines_length lines :
  List.length (extract_lines strptime start_time end_time lines) = TOTAL_SECTIONS.
Proof. apply length_finalize. Qed.

End Window.

End Exp1Facts.

(** ** Experiments 2 and 3: lists of sections *)

Lemma append_last_length {A : Type} (xss : list (list A)) v :
  List.length (append_last xss v) = List.length xss.
Proof.
  induction xss as [| xs xss IH]; [reflexivity |].
  destruct xss as [| ys rest]; [reflexivity |].
  change (append_last (xs :: ys :: rest) v) with (xs :: append_last (ys :: rest) v).
  cbn [List.length] in *. rewrite IH. reflexivity.
Qed.

Lemma append_last_nth {A : Type} (xss : list (list A)) v k :
  xss <> [] ->
  nth k (append_last xss v) [] =
  if (k =? List.length xss - 1)%nat then nth k xss [] ++ [v] else nth k xss [].
Proof.
  revert k. induction xss as [| xs xss IH]; intros k Hne; [congruence |].
  destruct xss as [| ys rest].
  - destruct k as [| [| k]]; reflexivity.
  - change (append_last (xs :: ys :: rest) v) with (xs :: append_last (ys :: rest) v).
    destruct k as [| k]; [reflexivity |].
    change (nth (S k) (xs :: append_last (ys :: rest) v) [])
      with (nth k (append_last (ys :: rest) v) []).
    rewrite IH by discriminate.
    change (nth (S k) (xs :: ys :: rest) []) with (nth k (ys :: rest) []).
    replace (S k =? List.length (xs :: ys :: rest) - 1)%nat
      with (k =? List.length (ys :: rest) - 1)%nat; [reflexivity |].
    cbn [List.length].
    destruct (Nat.eqb_spec k (S (List.length rest) - 1));
      destruct (Nat.eqb_spec (S k) (S (S (List.length rest)) - 1)); try reflexivity; lia.
Qed.

Lemma append_last_nonempty {A : Type} (xss : list (list A)) v :
  xss <> [] -> append_last xss v <> [].
Proof.
  intros Hne E. apply (f_equal (@List.length _)) in E.
  rewrite append_last_length in E. destruct xss; [congruence | discriminate E].
Qed.

Lemma tagged2_ge lines : forall n started d,
  Forall (fun x => n <= fst x) (Spec2.tagged n started d lines).
Proof.
  induction lines as [| line rest IH]; intros n started d; simpl; [constructor |].
  destruct (Lex.contains Lex.POWER_DETAIL line); [apply IH |].
  destruct (Lex.startswith Lex.DASHES line && started).
  - eapply Forall_impl; [| apply IH]. simpl. intros; lia.
  - destruct started; [| apply IH].
    destruct (String.eqb (Lex.strip line) "{"); [apply IH |].
    destruct (is_close line); [| apply IH].
    destruct (e_Time d) as [[| c ts] |]; try apply IH.
    constructor; [simpl; lia | apply IH].
Qed.

Lemma pairs_of_cons {B : Type} get (pair : string -> Z -> option B) ts d l :
  Spec2.pairs_of get pair ((ts, d) :: l) =
  match get d with
  | Some v => opt_list (pair ts v)
  | None => []
  end ++ Spec2.pairs_of get pair l.
Proof. reflexivity. Qed.


Module GenericFacts.

Import Generic.

Section Window.

Variable B : Type.
Variable parse : string -> option Z.
Variable mk : string -> Z -> Z -> B.
Variables start_time end_time : Z.

Let keep := keeps parse start_time end_time.
Let step := Generic.step B parse mk start_time end_time.
Let pair := Generic.pair B parse mk.

Section Metric.

(** One of the three metrics: its key in the entry and its list in the
    result. *)
Variable get : entry -> option Z.
Variable proj : metrics B -> list (list B).
Hypothesis proj_new : forall m, proj (new_section m) = proj m ++ [[]].
Hypothesis proj_add : forall ts t d m,
  proj (add_entry B mk ts t d m) = append_last_if (proj m) (get d) (mk ts t).

Lemma generic_run_tagged lines : forall st k,
  proj (sections st) <> [] ->
  let n := List.length (proj (sections st)) - 1 in
  let T := Spec2.tagged n (started st) (entry_data st) lines in
  let st' := fold_left step lines st in
  proj (sections st') <> [] /\
  List.length (proj (sections st')) =
    List.length (proj (sections st)) +
    Spec2.separators (started st) lines /\
  nth k (proj (sections st')) [] =
    if (k =? n)%nat
    then nth k (proj (sections st)) [] ++ Spec2.pairs_of get pair (select keep k T)
    else if (k <? n)%nat then nth k (proj (sections st)) []
    else Spec2.pairs_of get pair (select keep k T).
Proof.
  induction lines as [| line rest IH]; intros st k Hne; cbv zeta.
  - simpl. repeat split; [exact Hne | lia |].
    destruct (Nat.eqb_spec k (List.length (proj (sections st)) - 1)).
    + now rewrite app_nil_r.
    + destruct (Nat.ltb_spec k (List.length (proj (sections st)) - 1)); [reflexivity |].
      apply nth_overflow. lia.
  - simpl fold_left. simpl Spec2.tagged. simpl Spec2.separators.
    assert (Hlen : 0 < List.length (proj (sections st)))
      by (destruct (proj (sections st)); [congruence | simpl; lia]).
    set (n := List.length (proj (sections st)) - 1).
    assert (Hstep :
      proj (sections (step st line)) <> [] /\
      (if Lex.contains Lex.POWER_DETAIL line then
         sections (step st line) = sections st /\
         started (step st line) = true /\
         entry_data (step st line) = entry_data st
       else if Lex.startswith Lex.DASHES line && started st then
         proj (sections (step st line)) = proj (sections st) ++ [[]] /\
         started (step st line) = started st /\
         entry_data (step st line) = entry_data st
       else True)).
    { unfold step, Generic.step.
      destruct (Lex.contains Lex.POWER_DETAIL line); [simpl; auto |].
      destruct (Lex.startswith Lex.DASHES line && started st).
      - simpl. rewrite proj_new. split; [| auto].
        intros E. apply (f_equal (@List.length _)) in E.
        rewrite length_app in E. simpl in E. lia.
      - split; [| exact I].
        destruct (started st); [| exact Hne].
        destruct (String.eqb (Lex.strip line) "{"); [exact Hne |].
        destruct (is_close line); [| exact Hne].
        unfold close_entry.
        destruct (e_Time (entry_data st)) as [[| c ts] |]; try exact Hne.
        destruct (parse (String c ts)); [| exact Hne].
        destruct (in_window start_time end_time z); [| exact Hne].
        simpl. rewrite proj_add. unfold append_last_if.
        destruct (get (entry_data st)); [now apply append_last_nonempty | exact Hne]. }
    destruct Hstep as [Hne' Hstep].
    specialize (IH (step st line) k Hne'). cbv zeta in IH.
    destruct IH as (IH1 & IH2 & IH3). split; [exact IH1 |].
    destruct (Lex.contains Lex.POWER_DETAIL line) eqn:Emark.
    + destruct Hstep as (Hs & Hi & He). rewrite IH2, IH3, Hs, Hi, He. fold n. auto.
    + destruct (Lex.startswith Lex.DASHES line && started st) eqn:Esep.
      * destruct Hstep as (Hs & Hi & He). rewrite IH2, IH3, Hs, Hi, He.
        rewrite length_app. simpl List.length.
        replace (List.length (proj (sections st)) + 1 - 1) with (S n) by (unfold n; lia).
        split; [lia |].
        set (T := Spec2.tagged (S n) (started st) (entry_data st) rest).
        assert (HT : select keep n T = []).
        { apply select_above. eapply Forall_impl; [| apply tagged2_ge].
          simpl. intros; lia. }
        destruct (Nat.eqb_spec k (S n)) as [-> | Hk1].
        -- replace (S n =? n)%nat with false by (symmetry; apply Nat.eqb_neq; lia).
           replace (S n <? n)%nat with false by (symmetry; apply Nat.ltb_ge; lia).
           rewrite app_nth2 by (unfold n; lia).
           replace (S n - List.length (proj (sections st))) with 0 by (unfold n; lia).
           reflexivity.
        -- destruct (Nat.eqb_spec k n) as [-> | Hk2].
           ++ replace (n <? S n)%nat with true by (symmetry; apply Nat.ltb_lt; lia).
              rewrite HT. simpl. rewrite app_nil_r. apply app_nth1. unfold n; lia.
           ++ destruct (Nat.ltb_spec k n) as [Hk3 | Hk3].
              ** replace (k <? S n)%nat with true by (symmetry; apply Nat.ltb_lt; lia).
                 apply app_nth1. unfold n in Hk3; lia.
              ** replace (k <? S n)%nat with false by (symmetry; apply Nat.ltb_ge; lia).
                 reflexivity.
      * clear Hstep. revert IH1 IH2 IH3 Hne'. unfold step, Generic.step.
        rewrite Emark, Esep.
        destruct (started st) eqn:Ein.
        -- destruct (String.eqb (Lex.strip line) "{") eqn:Eopen.
           ++ simpl. rewrite ?Ein. fold n. intros _ -> -> _. split; [lia | reflexivity].
           ++ destruct (is_close line) eqn:Eclose.
              ** unfold close_entry.
                 destruct (e_Time (entry_data st)) as [[| c ts] |] eqn:Etime.
                 --- simpl. rewrite ?Ein. fold n. intros _ -> -> _. split; [lia | reflexivity].
                 --- rewrite select_cons. simpl fst.
                     assert (Hkeep : keep (String c ts) =
                                     match parse (String c ts) with
                                     | Some t => in_window start_time end_time t
                                     | None => false
                                     end) by reflexivity.
                     assert (Hpair : pair (String c ts) =
                                     fun v => match parse (String c ts) with
                                              | Some t => Some (mk (String c ts) t v)
                                              | None => None
                                              end) by reflexivity.
                     destruct (parse (String c ts)) as [t |] eqn:Eparse.
                     +++ destruct (in_window start_time end_time t) eqn:Ewin.
                         *** simpl. rewrite proj_add, ?Ein.
                             assert (Hl : List.length
                                       (append_last_if (proj (sections st)) (get (entry_data st))
                                          (mk (String c ts) t)) =
                                     List.length (proj (sections st))).
                             { unfold append_last_if. destruct (get (entry_data st));
                                 [apply append_last_length | reflexivity]. }
                             rewrite Hl. fold n. intros _ -> -> _. split; [lia |].
                             rewrite Hkeep.
                             destruct (Nat.eqb_spec k n) as [-> | Hk].
                             ---- rewrite Nat.eqb_refl. simpl andb. cbv iota.
                                  rewrite pairs_of_cons, Hpair. unfold append_last_if.
                                  destruct (get (entry_data st)) as [v |]; [| reflexivity].
                                  rewrite append_last_nth by exact Hne. fold n.
                                  rewrite Nat.eqb_refl, <- app_assoc. reflexivity.
                             ---- replace (n =? k)%nat with false
                                    by (symmetry; apply Nat.eqb_neq; lia).
                                  simpl andb. cbv iota.
                                  destruct (Nat.ltb_spec k n) as [Hk' | Hk']; [| reflexivity].
                                  unfold append_last_if.
                                  destruct (get (entry_data st)) as [v |]; [| reflexivity].
                                  rewrite append_last_nth by exact Hne. fold n.
                                  replace (k =? n)%nat with false
                                    by (symmetry; apply Nat.eqb_neq; lia).
                                  reflexivity.
                         *** simpl. rewrite ?Ein. fold n. intros _ -> -> _.
                             rewrite Hkeep, andb_false_r. split; [lia | reflexivity].
                     +++ simpl. rewrite ?Ein. fold n. intros _ -> -> _.
                         rewrite Hkeep, andb_false_r. split; [lia | reflexivity].
                 --- simpl. rewrite ?Ein. fold n. intros _ -> -> _. split; [lia | reflexivity].
              ** simpl. rewrite ?Ein. fold n. intros _ -> -> _. split; [lia | reflexivity].
        -- rewrite ?Ein. fold n. intros _ -> -> _. split; [lia | reflexivity].
Qed.

End Metric.

End Window.

End GenericFacts.

Module GenericResult.

Import Generic.

Section Window.

Variable B : Type.
Variable parse : string -> option Z.
Variable mk : string -> Z -> Z -> B.
Variables start_time end_time : Z.

Let step := Generic.step B parse mk start_time end_time.

Let run := Generic.run B parse mk start_time end_time.

(** Every metric of the result: section [k] holds the pairs of the
    entries tagged [k] that the window keeps, and there is one section
    more than separator lines after the marker. *)
Lemma run_sections lines :
  (forall k, nth k (m_CpuWatts (run lines)) [] =
             sections_of B parse mk start_time end_time e_CpuWatts lines k) /\
  (forall k, nth k (m_DimmWatts (run lines)) [] =
             sections_of B parse mk start_time end_time e_DimmWatts lines k) /\
  (forall k, nth k (m_Average (run lines)) [] =
             sections_of B parse mk start_time end_time e_Average lines k) /\
  List.length (m_CpuWatts (run lines)) = S (Spec2.separators false lines) /\
  List.length (m_DimmWatts (run lines)) = S (Spec2.separators false lines) /\
  List.length (m_Average (run lines)) = S (Spec2.separators false lines).
Proof.
  assert (G : forall get proj,
             (forall m, proj (new_section m) = proj m ++ [[]]) ->
             (forall ts t d m, proj (add_entry B mk ts t d m) =
                               append_last_if (proj m) (get d) (mk ts t)) ->
             proj one_empty_section = [[]] ->
             (forall k, nth k (proj (run lines)) [] =
                        sections_of B parse mk start_time end_time get lines k) /\
             List.length (proj (run lines)) = S (Spec2.separators false lines)).
  { intros get proj Hnew Hadd Hinit.
    assert (Hne : proj (sections (@init B)) <> []) by (simpl; rewrite Hinit; discriminate).
    split.
    - intros k.
      pose proof (GenericFacts.generic_run_tagged B parse mk start_time end_time get proj
                    Hnew Hadd lines (@init B) k Hne) as H.
      cbv zeta in H. destruct H as (_ & _ & H3).
      unfold run, Generic.run, step. rewrite H3. simpl sections. rewrite Hinit. simpl.
      unfold sections_of, Spec2.entries.
      destruct k as [| k]; reflexivity.
    - pose proof (GenericFacts.generic_run_tagged B parse mk start_time end_time get proj
                    Hnew Hadd lines (@init B) 0 Hne) as H.
      cbv zeta in H. destruct H as (_ & H2 & _).
      unfold run, Generic.run, step. rewrite H2. simpl sections. rewrite Hinit. reflexivity. }
  destruct (G e_CpuWatts m_CpuWatts) as [C1 C2]; try reflexivity.
  destruct (G e_DimmWatts m_DimmWatts) as [D1 D2]; try reflexivity.
  destruct (G e_Average m_Average) as [A1 A2]; try reflexivity.
  repeat split; assumption.
Qed.

End Window.

End GenericResult.

Module Exp2Facts.

Section Window.

Variable fromisoformat : string -> option Z.
Variable strftime : Z -> string.
Variables start_time end_time : Z.

Let parse := Generic.parse fromisoformat.
Let mk := Generic.mk2 strftime.
Let erase := Generic.of_exp2.

Lemma erase_step st line :
  erase (Exp2.step fromisoformat strftime start_time end_time st line) =
  Generic.step _ parse mk start_time end_time (erase st) line.
Proof.
  unfold erase, Generic.of_exp2, Exp2.step, Generic.step. simpl.
  destruct (Lex.contains Lex.POWER_DETAIL line); [reflexivity |].
  destruct (Lex.startswith Lex.DASHES line && Exp2.in_power_detail_section st);
    [reflexivity |].
  destruct (Exp2.in_power_detail_section st) eqn:Ein; [| rewrite ?Ein; reflexivity].
  destruct (String.eqb (Lex.strip line) "{"); [unfold erase, Generic.of_exp2; simpl; rewrite ?Ein; reflexivity |].
  destruct (is_close line); [| unfold erase, Generic.of_exp2; simpl; rewrite ?Ein; reflexivity].
  unfold Exp2.close_entry, Generic.close_entry, parse, Generic.parse. simpl.
  destruct (e_Time (Exp2.entry_data st)) as [[| c ts] |];
    try (unfold erase, Generic.of_exp2; simpl; rewrite ?Ein; reflexivity).
  destruct (fromisoformat (replace_Z (String c ts)));
    [| unfold erase, Generic.of_exp2; simpl; rewrite ?Ein; reflexivity].
  destruct (in_window start_time end_time z); unfold erase, Generic.of_exp2; simpl; rewrite ?Ein; reflexivity.
Qed.

Lemma erase_run lines : forall st,
  erase (fold_left (Exp2.step fromisoformat strftime start_time end_time) lines st) =
  fold_left (Generic.step _ parse mk start_time end_time) lines (erase st).
Proof.
  induction lines as [| line rest IH]; intros st; [reflexivity |].
  simpl. rewrite IH, erase_step. reflexivity.
Qed.

Lemma load2_generic lines :
  Exp2.load_power_data_in_time_range fromisoformat strftime start_time end_time lines =
  Generic.run _ parse mk start_time end_time lines.
Proof.
  unfold Exp2.load_power_data_in_time_range, Exp2.run, Generic.run.
  change (Exp2.sections
            (fold_left (Exp2.step fromisoformat strftime start_time end_time) lines Exp2.init))
    with (Generic.sections
            (erase (fold_left (Exp2.step fromisoformat strftime start_time end_time)
                      lines Exp2.init))).
  rewrite erase_run. reflexivity.
Qed.

End Window.

End Exp2Facts.

Module Exp3Facts.

Section Window.

Variable fromisoformat : string -> option Z.
Variables start_time end_time : Z.

Let parse := Generic.parse fromisoformat.
Let mk := Generic.mk3.
Let parses := Generic.parses fromisoformat.
Let erase := Generic.of_exp3.

(** When every tagged entry parses, the loop ends normally and does what
    the generic loop does. *)
Lemma run_from_generic lines : forall n st,
  Forall parses (Spec2.tagged n (Exp3.in_power_detail_section st)
                   (Exp3.entry_data st) lines) ->
  exists st',
    Exp3.run_from fromisoformat start_time end_time st lines = Ok st' /\
    erase st' = fold_left (Generic.step _ parse mk start_time end_time) lines (erase st).
Proof.
  unfold erase, Generic.of_exp3.
  induction lines as [| line rest IH]; intros n st HT.
  - exists st. split; reflexivity.
  - cbn [Exp3.run_from fold_left]. cbn [Spec2.tagged] in HT.
    unfold erase, Generic.of_exp3, Exp3.step, Generic.step. simpl Generic.started. simpl Generic.sections.
    simpl Generic.entry_data.
    destruct (Lex.contains Lex.POWER_DETAIL line);
      [exact (IH n (Exp3.mkState (Exp3.sections st) true (Exp3.entry_data st)) HT) |].
    destruct (Lex.startswith Lex.DASHES line && Exp3.in_power_detail_section st);
      [exact (IH (S n) (Exp3.mkState (new_section (Exp3.sections st))
                          (Exp3.in_power_detail_section st) (Exp3.entry_data st)) HT) |].
    destruct (Exp3.in_power_detail_section st) eqn:Ein.
    + destruct (String.eqb (Lex.strip line) "{").
      * destruct (IH n (Exp3.mkState (Exp3.sections st) true no_entry) HT)
          as (st' & H1 & H2).
        exists st'. split; [exact H1 |]. rewrite H2. unfold erase, Generic.of_exp3. simpl. rewrite ?Ein. reflexivity.
      * destruct (is_close line).
        -- unfold Exp3.close_entry, Generic.close_entry, Exp3.parse_datetime_from_string.
           simpl Generic.entry_data. simpl Generic.sections. simpl Generic.started.
           destruct (e_Time (Exp3.entry_data st)) as [[| c ts] |] eqn:Etime.
           ++ destruct (IH n (Exp3.mkState (Exp3.sections st) true no_entry) HT)
                as (st' & H1 & H2).
              exists st'. rewrite Ein. split; [exact H1 | exact H2].
           ++ inversion HT as [| x T Hx HT']; subst. unfold parses, Generic.parses, Generic.parse in Hx.
              cbn [fst snd] in Hx. unfold parse, Generic.parse.
              destruct (fromisoformat (replace_Z (String c ts))) as [t |]; [| congruence].
              rewrite Ein.
              destruct (in_window start_time end_time t).
              ** destruct (IH n (Exp3.mkState
                                   (Exp3.add_entry (String c ts) (Exp3.entry_data st)
                                      (Exp3.sections st)) true no_entry) HT')
                   as (st' & H1 & H2).
                 exists st'. split; [exact H1 | exact H2].
              ** destruct (IH n (Exp3.mkState (Exp3.sections st) true no_entry) HT')
                   as (st' & H1 & H2).
                 exists st'. split; [exact H1 | exact H2].
           ++ destruct (IH n (Exp3.mkState (Exp3.sections st) true no_entry) HT)
                as (st' & H1 & H2).
              exists st'. rewrite Ein. split; [exact H1 | exact H2].
        -- destruct (IH n (Exp3.mkState (Exp3.sections st) true
                             (read_fields2 line (Exp3.entry_data st))) HT)
             as (st' & H1 & H2).
           exists st'. split; [exact H1 |]. rewrite H2. unfold erase, Generic.of_exp3. simpl. rewrite ?Ein. reflexivity.
    + destruct (IH n st) as (st' & H1 & H2); [now rewrite Ein |].
      exists st'. split; [exact H1 |]. rewrite H2. unfold erase, Generic.of_exp3. rewrite ?Ein. reflexivity.
Qed.

Lemma load3_generic lines :
  Forall parses (Spec2.entries lines) ->
  Exp3.load_power_data_in_time_range fromisoformat start_time end_time lines =
  Ok (Generic.run _ parse mk start_time end_time lines).
Proof.
  intros HT. destruct (run_from_generic lines 0 Exp3.init HT) as (st' & H1 & H2).
  unfold Exp3.load_power_data_in_time_range. rewrite H1.
  unfold Generic.run.
  change (@Generic.init (string * Z)) with (erase Exp3.init).
  rewrite <- H2. reflexivity.
Qed.

End Window.

End Exp3Facts.

(** ** The claims *)

Lemma eq_map_seq {A : Type} (d : A) (f : nat -> A) (l : list A) (n : nat) :
  List.length l = n ->
  (forall k, k < n -> nth k l d = f k) ->
  l = map f (seq 0 n).
Proof.
  intros Hlen Hnth. apply (nth_ext _ _ d (f 0)).
  - now rewrite length_map, length_seq.
  - intros k Hk. rewrite Hlen in Hk. rewrite Hnth by exact Hk.
    rewrite (nth_indep _ (f 0) (f (nth k (seq 0 n) 0)))
      by (now rewrite length_map, length_seq).
    rewrite map_nth, seq_nth by exact Hk. reflexivity.
Qed.

Lemma keeps_inclusive parse start_time end_time ts :
  keeps parse start_time end_time ts = true <->
  exists t, parse ts = Some t /\ (start_time <= t <= end_time)%Z.
Proof.
  unfold keeps, in_window. split.
  - destruct (parse ts) as [t |]; [| discriminate].
    intros H. apply andb_true_iff in H. destruct H as [H1 H2].
    exists t. split; [reflexivity |]. split; now apply Z.leb_le.
  - intros (t & -> & H1 & H2). apply andb_true_iff. split; now apply Z.leb_le.
Qed.

Lemma firstn_repeat_le {A : Type} (x : A) (m n : nat) :
  m <= n -> firstn m (repeat x n) = repeat x m.
Proof.
  revert n. induction m as [| m IH]; intros n Hmn; [reflexivity |].
  destruct n as [| n]; [lia |]. simpl. f_equal. apply IH. lia.
Qed.

(** Padding then truncating is taking the first [TOTAL_SECTIONS] of the
    sections followed by empty ones. *)
Lemma truncate_pad ss :
  Exp1.truncate (Exp1.pad ss) =
  firstn Exp1.TOTAL_SECTIONS (ss ++ repeat Exp1.empty_section Exp1.TOTAL_SECTIONS).
Proof.
  unfold Exp1.truncate, Exp1.pad. generalize Exp1.TOTAL_SECTIONS. intros n.
  destruct (Nat.ltb_spec n (List.length (ss ++ repeat Exp1.empty_section
                                                  (n - List.length ss))))
    as [Hlt | Hge]; rewrite length_app, repeat_length in *.
  - replace (n - List.length ss) with 0 by lia. simpl repeat.
    rewrite app_nil_r, firstn_app.
    replace (n - List.length ss) with 0 by lia.
    simpl. now rewrite app_nil_r.
  - rewrite firstn_app, firstn_all2 by lia.
    f_equal. symmetry. apply firstn_repeat_le. lia.
Qed.

(** The Experiment 1 result, section by section. *)
Lemma extract_lines_sections strptime start_time end_time lines :
  Exp1.extract_lines strptime start_time end_time lines =
  map (Spec1.section_of (keeps strptime start_time end_time) lines)
      (seq 0 Exp1.TOTAL_SECTIONS).
Proof.
  apply (eq_map_seq Exp1.empty_section).
  - apply Exp1Facts.extract_lines_length.
  - intros k Hk. now apply Exp1Facts.extract_lines_nth.
Qed.

(** The Experiment 2 and 3 loop, metric by metric and section by section. *)
Lemma generic_sections B parse mk start_time end_time lines :
  Generic.run B parse mk start_time end_time lines =
  let n := S (Spec2.separators false lines) in
  mkMetrics
    (map (Generic.sections_of B parse mk start_time end_time e_CpuWatts lines) (seq 0 n))
    (map (Generic.sections_of B parse mk start_time end_time e_DimmWatts lines) (seq 0 n))
    (map (Generic.sections_of B parse mk start_time end_time e_Average lines) (seq 0 n)).
Proof.
  destruct (GenericResult.run_sections B parse mk start_time end_time lines)
    as (C & D & A & LC & LD & LA).
  cbv zeta.
  destruct (Generic.run B parse mk start_time end_time lines) as [c d a].
  cbn [m_CpuWatts m_DimmWatts m_Average] in *. f_equal; apply (eq_map_seq []); auto.
Qed.

(** C1 (as amended).  With a time window [(start_time, end_time)], the
    Experiment 1 extractor returns [TOTAL_SECTIONS] = 8 sections, and
    section [k] holds exactly the complete entries that lie after [k]
    separator lines and whose instant [t] satisfies
    [start_time <= t <= end_time], in file order; entries of later
    sections are not returned.  The Experiment 2 extractor returns, per
    metric, one section more than there are separator lines after the
    marker line, and section [k] holds exactly the in-window entries
    tagged [k], in file order. *)
Theorem C1_window_filter_per_section :
  forall (strptime fromisoformat : string -> option Z) (strftime : Z -> string)
         (start_time end_time : Z) (lines : list string),
    Exp1.extract_lines strptime start_time end_time lines =
      map (Spec1.section_of (keeps strptime start_time end_time) lines)
          (seq 0 Exp1.TOTAL_SECTIONS)
    /\
    (let parse := Generic.parse fromisoformat in
     let mk := Generic.mk2 strftime in
     let r := Exp2.load_power_data_in_time_range fromisoformat strftime
                start_time end_time lines in
     let n := S (Spec2.separators false lines) in
     m_CpuWatts r =
       map (Generic.sections_of _ parse mk start_time end_time e_CpuWatts lines) (seq 0 n)
     /\ m_DimmWatts r =
       map (Generic.sections_of _ parse mk start_time end_time e_DimmWatts lines) (seq 0 n)
     /\ m_Average r =
       map (Generic.sections_of _ parse mk start_time end_time e_Average lines) (seq 0 n))
    /\
    (forall parse ts,
       keeps parse start_time end_time ts = true <->
       exists t, parse ts = Some t /\ (start_time <= t <= end_time)%Z).
Proof.
  intros strptime fromisoformat strftime start_time end_time lines.
  split; [| split].
  - apply extract_lines_sections.
  - cbv zeta. rewrite Exp2Facts.load2_generic, generic_sections. cbv zeta.
    cbn [m_CpuWatts m_DimmWatts m_Average]. repeat split.
  - intros parse ts. apply keeps_inclusive.
Qed.

(** C3 (as amended).  The Experiment 1 extractor pads with empty sections
    and truncates, so its result always has [TOTAL_SECTIONS] = 8 sections.
    The Experiment 3 extractor neither pads nor truncates: when every
    entry's [Time] parses it returns, per metric, one section more than
    there are separator lines after the marker line. *)
Theorem C3_section_count :
  forall (strptime fromisoformat : string -> option Z) (start_time end_time : Z)
         (lines : list string),
    (Exp1.extract_lines strptime start_time end_time lines =
       firstn Exp1.TOTAL_SECTIONS
         (Exp1.flush_last (Exp1.run strptime start_time end_time lines)
          ++ repeat Exp1.empty_section Exp1.TOTAL_SECTIONS)
     /\ List.length (Exp1.extract_lines strptime start_time end_time lines) =
        Exp1.TOTAL_SECTIONS)
    /\
    (Forall (Generic.parses fromisoformat) (Spec2.entries lines) ->
     exists m,
       Exp3.load_power_data_in_time_range fromisoformat start_time end_time lines = Ok m
       /\ List.length (m_CpuWatts m) = S (Spec2.separators false lines)
       /\ List.length (m_DimmWatts m) = S (Spec2.separators false lines)
       /\ List.length (m_Average m) = S (Spec2.separators false lines)).
Proof.
  intros strptime fromisoformat start_time end_time lines. split; [split |].
  - unfold Exp1.extract_lines.
    generalize (Exp1.flush_last (Exp1.run strptime start_time end_time lines)).
    intros ss. apply truncate_pad.
  - apply Exp1Facts.extract_lines_length.
  - intros HT. eexists. split; [now apply Exp3Facts.load3_generic |].
    destruct (GenericResult.run_sections _ (Generic.parse fromisoformat)
                Generic.mk3 start_time end_time lines)
      as (_ & _ & _ & LC & LD & LA).
    auto.
Qed.

(** A decidable way into [Forall], for closed inputs. *)
Lemma Forall_of_forallb {A : Type} (P : A -> Prop) (f : A -> bool) (l : list A) :
  (forall x, f x = true -> P x) -> forallb f l = true -> Forall P l.
Proof.
  intros Hf Hall. apply Forall_forall. intros x Hx. apply Hf.
  exact (proj1 (forallb_forall f l) Hall x Hx).
Qed.

(** Tags never exceed the number of separator lines. *)
Lemma tagged1_le lines : forall n inside d,
  Forall (fun x => fst x <= n + Spec1.separators lines) (Spec1.tagged n inside d lines).
Proof.
  unfold Spec1.separators.
  induction lines as [| line rest IH]; intros n inside d; cbn [Spec1.tagged filter];
    [constructor |].
  destruct (Spec1.is_separator line).
  - eapply Forall_impl; [| apply IH]. cbn [List.length]. intros; lia.
  - destruct (Lex.contains "{" line); [apply IH |].
    destruct (Lex.contains "}" line && inside).
    + destruct (e_Time d); [constructor; [simpl; lia | apply IH] | apply IH].
    + destruct inside; apply IH.
Qed.

Lemma tagged2_le lines : forall n started d,
  Forall (fun x => fst x <= n + Spec2.separators started lines)
         (Spec2.tagged n started d lines).
Proof.
  induction lines as [| line rest IH]; intros n started d;
    cbn [Spec2.tagged Spec2.separators]; [constructor |].
  destruct (Lex.contains Lex.POWER_DETAIL line); [apply IH |].
  destruct (Lex.startswith Lex.DASHES line && started).
  - eapply Forall_impl; [| apply IH]. simpl. intros; lia.
  - destruct started; [| apply IH].
    destruct (String.eqb (Lex.strip line) "{"); [apply IH |].
    destruct (is_close line); [| apply IH].
    destruct (e_Time d) as [[| c ts] |]; try apply IH.
    constructor; [simpl; lia | apply IH].
Qed.

(** Entries whose tags are all below [k] leave section [k] empty. *)
Lemma select_below keep k T :
  Forall (fun x => fst x < k) T -> select keep k T = [].
Proof.
  induction 1 as [| [n s] T Hn _ IH]; [reflexivity |].
  rewrite select_cons, IH. simpl in Hn.
  replace (n =? k)%nat with false; [reflexivity |].
  symmetry. apply Nat.eqb_neq. lia.
Qed.

(** When the window keeps every entry, it filters nothing. *)
Lemma select_all_kept keep k T :
  Forall (fun x => keep (fst (snd x)) = true) T ->
  select keep k T = select (fun _ => true) k T.
Proof.
  induction 1 as [| [n s] T Hs _ IH]; [reflexivity |].
  rewrite !select_cons, IH. simpl in Hs. rewrite Hs. reflexivity.
Qed.

Lemma pairs_plain fromisoformat get l :
  Forall (fun s => Generic.parse fromisoformat (fst s) <> None) l ->
  Spec2.pairs_of get (Generic.pair _ (Generic.parse fromisoformat) Generic.mk3) l =
  plain_pairs get l.
Proof.
  induction 1 as [| [ts d] l Hp _ IH]; [reflexivity |].
  unfold Spec2.pairs_of, plain_pairs in *. cbn [flat_map fst snd] in *.
  rewrite IH. f_equal. destruct (get d) as [v |]; [| reflexivity].
  unfold Generic.pair.
  destruct (Generic.parse fromisoformat ts); [reflexivity | congruence].
Qed.

Lemma select_Forall (P : sample -> Prop) keep k T :
  Forall (fun x => P (snd x)) T -> Forall P (select keep k T).
Proof.
  induction 1 as [| [n s] T Hs _ IH]; [constructor |].
  rewrite select_cons. destruct ((n =? k)%nat && keep (fst s)); [| exact IH].
  constructor; assumption.
Qed.

Lemma kept_parses parse start_time end_time ts :
  keeps parse start_time end_time ts = true -> parse ts <> None.
Proof. unfold keeps. destruct (parse ts); [discriminate | discriminate]. Qed.

(** C2 (as amended).  For a power log with exactly 3 separator lines
    whose entries all lie inside the window: the Experiment 1 extractor
    returns [TOTAL_SECTIONS] = 8 sections, of which the first four hold
    the entries by the number of separator lines that precede them, in
    file order, and the last four are empty padding; the Experiment 3
    extractor, where the 3 separator lines are counted after the marker
    line, returns exactly 4 sections per metric, filled in the same
    positional way. *)
Theorem C2_three_separators_positional :
  forall (strptime fromisoformat : string -> option Z) (start_time end_time : Z)
         (lines : list string),
    (Spec1.separators lines = 3 ->
     Forall (fun x => keeps strptime start_time end_time (fst (snd x)) = true)
            (Spec1.entries lines) ->
     Exp1.extract_lines strptime start_time end_time lines =
       map (fun k => Spec1.build (select (fun _ => true) k (Spec1.entries lines)))
           (seq 0 4)
       ++ repeat Exp1.empty_section 4)
    /\
    (Spec2.separators false lines = 3 ->
     Forall (fun x => keeps (Generic.parse fromisoformat) start_time end_time
                            (fst (snd x)) = true)
            (Spec2.entries lines) ->
     Exp3.load_power_data_in_time_range fromisoformat start_time end_time lines =
       Ok (mkMetrics
             (map (fun k => plain_pairs e_CpuWatts
                              (select (fun _ => true) k (Spec2.entries lines))) (seq 0 4))
             (map (fun k => plain_pairs e_DimmWatts
                              (select (fun _ => true) k (Spec2.entries lines))) (seq 0 4))
             (map (fun k => plain_pairs e_Average
                              (select (fun _ => true) k (Spec2.entries lines))) (seq 0 4)))).
Proof.
  intros strptime fromisoformat start_time end_time lines. split.
  - intros Hsep Hall. rewrite extract_lines_sections.
    change (seq 0 Exp1.TOTAL_SECTIONS) with (seq 0 4 ++ seq 4 4).
    rewrite map_app. f_equal.
    + apply map_ext. intros k. unfold Spec1.section_of.
      now rewrite (select_all_kept _ _ _ Hall).
    + assert (Hle := tagged1_le lines 0 false no_entry). rewrite Hsep in Hle.
      fold (Spec1.entries lines) in Hle.
      assert (Hempty : forall k, 3 < k ->
                Spec1.section_of (keeps strptime start_time end_time) lines k =
                Exp1.empty_section).
      { intros k Hk. unfold Spec1.section_of. rewrite select_below; [reflexivity |].
        eapply Forall_impl; [| exact Hle]. simpl. intros; lia. }
      cbn [seq map repeat]. rewrite !Hempty by lia. reflexivity.
  - intros Hsep Hall.
    assert (Hparse : Forall (Generic.parses fromisoformat) (Spec2.entries lines)).
    { eapply Forall_impl; [| exact Hall]. intros x Hx. unfold Generic.parses.
      now apply kept_parses in Hx. }
    rewrite (Exp3Facts.load3_generic _ _ _ _ Hparse), generic_sections. cbv zeta.
    rewrite Hsep. f_equal.
    assert (Hsec : forall get k,
              Generic.sections_of _ (Generic.parse fromisoformat) Generic.mk3
                start_time end_time get lines k =
              plain_pairs get (select (fun _ => true) k (Spec2.entries lines))).
    { intros get k. unfold Generic.sections_of.
      rewrite (select_all_kept _ _ _ Hall). apply pairs_plain.
      apply select_Forall. exact Hparse. }
    f_equal; apply map_ext; intros k; apply Hsec.
Qed.

(** C2, a run: the sample log of four sections, in Experiment 1 and, with
    its marker line, in Experiment 3. *)
Lemma C2_three_separators_witness :
  Exp1.extract_lines Fixture.strptime Sample.t_start Sample.t_end Sample.four_sections =
    map (fun k => Spec1.build (select (fun _ => true) k
                                 (Spec1.entries Sample.four_sections)))
        (seq 0 4)
    ++ repeat Exp1.empty_section 4
  /\
  Exp3.load_power_data_in_time_range Fixture.fromisoformat Sample.t_start Sample.t_end
    Sample.four_sections_marked =
    Ok (mkMetrics
          (map (fun k => plain_pairs e_CpuWatts
                           (select (fun _ => true) k
                              (Spec2.entries Sample.four_sections_marked))) (seq 0 4))
          (map (fun k => plain_pairs e_DimmWatts
                           (select (fun _ => true) k
                              (Spec2.entries Sample.four_sections_marked))) (seq 0 4))
          (map (fun k => plain_pairs e_Average
                           (select (fun _ => true) k
                              (Spec2.entries Sample.four_sections_marked))) (seq 0 4))).
Proof.
  split.
  - apply (proj1 (C2_three_separators_positional Fixture.strptime Fixture.fromisoformat
                    Sample.t_start Sample.t_end Sample.four_sections)).
    + vm_compute. reflexivity.
    + apply (Forall_of_forallb _
               (fun x => keeps Fixture.strptime Sample.t_start Sample.t_end (fst (snd x))));
        [intros x Hx; exact Hx | vm_compute; reflexivity].
  - apply (proj2 (C2_three_separators_positional Fixture.strptime Fixture.fromisoformat
                    Sample.t_start Sample.t_end Sample.four_sections_marked)).
    + vm_compute. reflexivity.
    + apply (Forall_of_forallb _
               (fun x => keeps (Generic.parse Fixture.fromisoformat) Sample.t_start
                               Sample.t_end (fst (snd x))));
        [intros x Hx; exact Hx | vm_compute; reflexivity].
Defined.

(** C2 as stated fails in Experiment 1: on the sample log, which has
    exactly 3 separator lines and all its entries inside the window, the
    extractor returns 8 sections, not 4. *)
Lemma C2_counterexample :
  Spec1.separators Sample.four_sections = 3
  /\ forallb (fun x => keeps Fixture.strptime Sample.t_start Sample.t_end (fst (snd x)))
             (Spec1.entries Sample.four_sections) = true
  /\ List.length (Exp1.extract_lines Fixture.strptime Sample.t_start Sample.t_end
                    Sample.four_sections) = 8.
Proof. vm_compute. repeat split. Qed.

(** C1 as stated fails in Experiment 1: an entry inside the window that
    lies after eight separator lines is a complete in-window entry of the
    log, and the result holds no entry at all. *)
Lemma C1_counterexample :
  in_window_times (keeps Fixture.strptime Sample.t_start Sample.t_end)
    Sample.ninth_section = ["2024-01-01T00:00:30Z"]
  /\ kept_times (Exp1.extract_lines Fixture.strptime Sample.t_start Sample.t_end
                   Sample.ninth_section) = [].
Proof. vm_compute. split; reflexivity. Qed.

(** C3 as stated fails in Experiment 3: the number of sections follows the
    input, one for a log without separator lines and two for a log with
    one, so no fixed count is met. *)
Lemma C3_counterexample :
  (exists m, Exp3.load_power_data_in_time_range Fixture.fromisoformat
               Sample.t_start Sample.t_end [] = Ok m
             /\ List.length (m_CpuWatts m) = 1)
  /\ (exists m, Exp3.load_power_data_in_time_range Fixture.fromisoformat
                  Sample.t_start Sample.t_end Sample.two_sections_marked = Ok m
                /\ List.length (m_CpuWatts m) = 2).
Proof. split; eexists; split; vm_compute; reflexivity. Qed.

(** C3, a run: the sample log of four sections in both experiments. *)
Lemma C3_section_count_witness :
  List.length (Exp1.extract_lines Fixture.strptime Sample.t_start Sample.t_end
                 Sample.four_sections) = Exp1.TOTAL_SECTIONS
  /\ exists m,
       Exp3.load_power_data_in_time_range Fixture.fromisoformat Sample.t_start
         Sample.t_end Sample.four_sections_marked = Ok m
       /\ List.length (m_CpuWatts m) = S (Spec2.separators false Sample.four_sections_marked)
       /\ List.length (m_DimmWatts m) = S (Spec2.separators false Sample.four_sections_marked)
       /\ List.length (m_Average m) = S (Spec2.separators false Sample.four_sections_marked).
Proof.
  split.
  - apply (proj2 (proj1 (C3_section_count Fixture.strptime Fixture.fromisoformat
                           Sample.t_start Sample.t_end Sample.four_sections))).
  - apply (proj2 (C3_section_count Fixture.strptime Fixture.fromisoformat
                    Sample.t_start Sample.t_end Sample.four_sections_marked)).
    apply (Forall_of_forallb _
             (fun x : nat * sample =>
                match Generic.parse Fixture.fromisoformat (fst (snd x)) with
                       | Some _ => true
                       | None => false
                       end)).
    + intros x Hx. cbv beta in Hx. unfold Generic.parses. intros E.
      rewrite E in Hx. discriminate Hx.
    + vm_compute. reflexivity.
Defined.



(** C6, the failing run: an idle file of exactly five complete entries,
    asked for the last 20, gives four values per metric; the first entry
    of the file is never collected.  Asked for the last 0 it gives one. *)
Theorem C6_idle_reader_loses_first_entry :
  idle_entries no_entry Sample.idle_five =
    [(41, 11, 121); (42, 12, 122); (43, 13, 123); (44, 14, 124); (45, 15, 125)]%Z
  /\ Idle.last_values Sample.idle_five 20 =
     Idle.mkIdle [42; 43; 44; 45]%Z [12; 13; 14; 15]%Z [122; 123; 124; 125]%Z
  /\ Idle.last_values Sample.idle_five 0 = Idle.mkIdle [45]%Z [15]%Z [125]%Z.
Proof. vm_compute. repeat split. Qed.

(** C7 (as amended).  For a timestamp file that does not exist,
    [read_timestamps] of Experiment 1 returns no start time, no end time
    and no total duration and logs one error; [load_query_timestamps] of
    Experiment 3 raises [FileNotFoundError], which its caller avoids by
    testing [os.path.exists] before the call. *)
Theorem C7_missing_timestamp_file :
  forall (strptime fromisoformat : string -> option Z)
         (time_match : string -> option (string * string))
         (exec_time_match : string -> option Z)
         (query_match : string -> option (Z * string * string))
         (path : string),
    Loader1.read_timestamps strptime time_match exec_time_match path None =
      Loader1.mkState None None None [LogError "Timestamp file not found" path]
    /\ Loader3.load_query_timestamps fromisoformat query_match None =
       Raise FileNotFoundError
    /\ Loader3.guarded_load fromisoformat query_match None = None.
Proof. intros. repeat split. Qed.

(** C7 as stated fails in Experiment 3: the loader called on a missing
    file raises. *)
Lemma C7_counterexample :
  Loader3.load_query_timestamps Fixture.fromisoformat (fun _ => None) None =
  Raise FileNotFoundError.
Proof. reflexivity. Qed.

Module DropFacts.

Section Exp1Drop.

Variable strptime : string -> option Z.
Variables start_time end_time : Z.

Let step := Exp1.step strptime start_time end_time.

(** Field lines inside an open entry only fill [entry_data]. *)
Lemma fields_fill1 fields : forall S c d n m l,
  forallb (fun line => negb (Spec1.is_separator line)
                       && negb (Lex.contains "{" line)
                       && negb (Lex.contains "}" line)) fields = true ->
  fold_left step fields (Exp1.mkState S c true d n m l) =
  Exp1.mkState S c true (fold_left (fun d line => Exp1.read_fields line d) fields d)
               n m l.
Proof.
  induction fields as [| line fields IH]; intros S c d n m l H; [reflexivity |].
  cbn [forallb] in H. apply andb_prop in H. destruct H as [Hline Hrest].
  apply andb_prop in Hline. destruct Hline as [Hline Hclose].
  apply andb_prop in Hline. destruct Hline as [Hsep Hopen].
  apply Bool.negb_true_iff in Hsep, Hopen, Hclose. unfold Spec1.is_separator in Hsep.
  cbn [fold_left].
  assert (E : step (Exp1.mkState S c true d n m l) line =
              Exp1.mkState S c true (Exp1.read_fields line d) n m l).
  { unfold step, Exp1.step. rewrite Hsep, Hopen, Hclose. reflexivity. }
  rewrite E. apply IH. exact Hrest.
Qed.

(** One line keeps two states alike in what the loop depends on, and adds
    the same messages to both logs. *)
Lemma step_live1 st st' line :
  live1 st = live1 st' ->
  live1 (step st line) = live1 (step st' line)
  /\ exists k, Exp1.log (step st line) = Exp1.log st ++ k
               /\ Exp1.log (step st' line) = Exp1.log st' ++ k.
Proof.
  destruct st as [S c i d n m l], st' as [S' c' i' d' n' m' l'].
  unfold live1. cbn [Exp1.sections Exp1.current_section Exp1.inside_entry
                     Exp1.entry_data].
  intros H. injection H as -> -> -> Hd.
  unfold step, Exp1.step, Exp1.close_entry.
  cbn [Exp1.sections Exp1.current_section Exp1.inside_entry Exp1.entry_data
       Exp1.total_entries Exp1.matched_entries Exp1.log].
  destruct (String.eqb (Lex.strip line) Lex.DASHES).
  { split; [cbn; rewrite Hd; reflexivity
           | exists []; rewrite !app_nil_r; split; reflexivity]. }
  destruct (Lex.contains "{" line).
  { split; [reflexivity | exists []; rewrite !app_nil_r; split; reflexivity]. }
  destruct i'; cbn [andb].
  - subst d'. destruct (Lex.contains "}" line); cbn [andb].
    + destruct (e_Time d) as [ts |].
      * destruct (strptime ts) as [t |].
        -- destruct (in_window start_time end_time t);
             (split; [reflexivity
                     | exists []; rewrite !app_nil_r; split; reflexivity]).
        -- split; [reflexivity | eexists; split; reflexivity].
      * split; [reflexivity | exists []; rewrite !app_nil_r; split; reflexivity].
    + split; [reflexivity | exists []; rewrite !app_nil_r; split; reflexivity].
  - rewrite andb_false_r.
    split; [reflexivity | exists []; rewrite !app_nil_r; split; reflexivity].
Qed.

Lemma fold_live1 lines : forall st st',
  live1 st = live1 st' ->
  live1 (fold_left step lines st) = live1 (fold_left step lines st')
  /\ exists k, Exp1.log (fold_left step lines st) = Exp1.log st ++ k
               /\ Exp1.log (fold_left step lines st') = Exp1.log st' ++ k.
Proof.
  induction lines as [| line lines IH]; intros st st' H.
  - split; [exact H | exists []; rewrite !app_nil_r; split; reflexivity].
  - cbn [fold_left]. destruct (step_live1 st st' line H) as (H1 & k1 & E1 & E1').
    destruct (IH _ _ H1) as (H2 & k2 & E2 & E2').
    split; [exact H2 |]. exists (k1 ++ k2).
    rewrite E2, E2', E1, E1', <- !app_assoc. split; reflexivity.
Qed.

(** The result is read off what the loop depends on. *)
Lemma flush_live1 st st' : live1 st = live1 st' -> Exp1.flush_last st = Exp1.flush_last st'.
Proof.
  unfold live1, Exp1.flush_last. intros H. injection H as -> -> _ _. reflexivity.
Qed.

(** The state after the lines of an entry that is opened outside an
    entry. *)
Lemma after_block1 opening fields closing st :
  entry_block1 opening fields closing = true ->
  Exp1.inside_entry st = false ->
  step (fold_left step fields (step st opening)) closing =
  Exp1.close_entry strptime start_time end_time
    (Exp1.mkState (Exp1.sections st) (Exp1.current_section st) true
                  (entry_data1 fields) (S (Exp1.total_entries st))
                  (Exp1.matched_entries st) (Exp1.log st)).
Proof.
  unfold entry_block1. intros H Hin.
  repeat (apply andb_prop in H; let H' := fresh "H" in destruct H as [H H']).
  apply Bool.negb_true_iff in H, H1, H2. unfold Spec1.is_separator in H, H2.
  assert (E : step st opening =
              Exp1.mkState (Exp1.sections st) (Exp1.current_section st) true no_entry
                           (S (Exp1.total_entries st)) (Exp1.matched_entries st)
                           (Exp1.log st)).
  { unfold step, Exp1.step. rewrite H, H4. reflexivity. }
  rewrite E, (fields_fill1 _ _ _ _ _ _ _ H3). fold (entry_data1 fields).
  unfold step, Exp1.step. rewrite H2, H1, H0. reflexivity.
Qed.

End Exp1Drop.

Section Exp2Drop.

Variable fromisoformat : string -> option Z.
Variable strftime : Z -> string.
Variables start_time end_time : Z.

Let step := Exp2.step fromisoformat strftime start_time end_time.

Lemma plain2_false line :
  plain2 line = true ->
  Lex.contains Lex.POWER_DETAIL line = false /\ Lex.startswith Lex.DASHES line = false.
Proof.
  unfold plain2. intros H. apply andb_prop in H. destruct H as [H1 H2].
  apply Bool.negb_true_iff in H1, H2. split; assumption.
Qed.

(** Before the marker line the lines of an entry change nothing. *)
Lemma outside_detail lines : forall st,
  Exp2.in_power_detail_section st = false ->
  forallb plain2 lines = true ->
  fold_left step lines st = st.
Proof.
  induction lines as [| line lines IH]; intros st Hout H; [reflexivity |].
  cbn [forallb] in H. apply andb_prop in H. destruct H as [Hline Hrest].
  destruct (plain2_false _ Hline) as [Hm Hs]. cbn [fold_left].
  assert (E : step st line = st).
  { unfold step, Exp2.step. rewrite Hm, Hs, Hout. reflexivity. }
  rewrite E. apply IH; assumption.
Qed.

(** Field lines after the marker line only fill [entry_data]. *)
Lemma fields_fill2 fields : forall S d l,
  forallb (fun line => plain2 line
                       && negb (String.eqb (Lex.strip line) "{")
                       && negb (is_close line)) fields = true ->
  fold_left step fields (Exp2.mkState S true d l) =
  Exp2.mkState S true (fold_left (fun d line => read_fields2 line d) fields d) l.
Proof.
  induction fields as [| line fields IH]; intros S d l H; [reflexivity |].
  cbn [forallb] in H. apply andb_prop in H. destruct H as [Hline Hrest].
  apply andb_prop in Hline. destruct Hline as [Hline Hclose].
  apply andb_prop in Hline. destruct Hline as [Hplain Hopen].
  apply Bool.negb_true_iff in Hopen, Hclose.
  destruct (plain2_false _ Hplain) as [Hm Hs]. cbn [fold_left].
  assert (E : step (Exp2.mkState S true d l) line =
              Exp2.mkState S true (read_fields2 line d) l).
  { unfold step, Exp2.step. rewrite Hm, Hs, Hopen, Hclose. reflexivity. }
  rewrite E. apply IH. exact Hrest.
Qed.

(** A close marker is no open marker. *)
Lemma close_not_open line :
  is_close line = true -> String.eqb (Lex.strip line) "{" = false.
Proof.
  unfold is_close. intros H. apply orb_prop in H.
  destruct H as [H | H]; apply String.eqb_eq in H; rewrite H; reflexivity.
Qed.

Lemma block2_plain opening fields closing :
  entry_block2 opening fields closing = true ->
  forallb plain2 (opening :: fields ++ [closing]) = true.
Proof.
  unfold entry_block2. intros H.
  do 4 (apply andb_prop in H; let H' := fresh "H" in destruct H as [H H']).
  cbn [forallb]. rewrite H, forallb_app. cbn [forallb]. rewrite H1, andb_true_r.
  cbn [andb]. apply forallb_forall. intros x Hx.
  pose proof (proj1 (forallb_forall _ _) H2 x Hx) as Hp. cbv beta in Hp.
  apply andb_prop in Hp. destruct Hp as [Hp _].
  apply andb_prop in Hp. destruct Hp as [Hp _]. exact Hp.
Qed.

(** The state after the lines of an entry met after the marker line. *)
Lemma after_block2 opening fields closing S d l :
  entry_block2 opening fields closing = true ->
  step (fold_left step fields (step (Exp2.mkState S true d l) opening)) closing =
  Exp2.close_entry fromisoformat strftime start_time end_time
    (Exp2.mkState S true (entry_data2 fields) l).
Proof.
  unfold entry_block2. intros H.
  do 4 (apply andb_prop in H; let H' := fresh "H" in destruct H as [H H']).
  destruct (plain2_false _ H) as [Hm Hs]. destruct (plain2_false _ H1) as [Hm' Hs'].
  assert (E : step (Exp2.mkState S true d l) opening = Exp2.mkState S true no_entry l).
  { unfold step, Exp2.step. rewrite Hm, Hs, H3. reflexivity. }
  rewrite E, (fields_fill2 _ _ _ _ H2). fold (entry_data2 fields).
  unfold step, Exp2.step. rewrite Hm', Hs', (close_not_open _ H0), H0. reflexivity.
Qed.

(** One line keeps two states alike in everything but the log. *)
Lemma step_live2 st st' line :
  live2 st = live2 st' -> live2 (step st line) = live2 (step st' line).
Proof.
  destruct st as [S p d l], st' as [S' p' d' l'].
  unfold live2. cbn [Exp2.sections Exp2.in_power_detail_section Exp2.entry_data].
  intros H. injection H as -> -> ->.
  unfold step, Exp2.step, Exp2.close_entry.
  cbn [Exp2.sections Exp2.in_power_detail_section Exp2.entry_data Exp2.log].
  repeat match goal with
         | |- context [if ?b then _ else _] => destruct b
         | |- context [match ?x with _ => _ end] => destruct x
         end; reflexivity.
Qed.

Lemma fold_live2 lines : forall st st',
  live2 st = live2 st' ->
  live2 (fold_left step lines st) = live2 (fold_left step lines st').
Proof.
  induction lines as [| line lines IH]; intros st st' H; [exact H |].
  cbn [fold_left]. apply IH, step_live2, H.
Qed.

End Exp2Drop.

End DropFacts.




Module CliFacts.

Lemma insert_sorted_cons x l : Cli.insert_sorted x l <> [].
Proof. destruct l as [| y r]; cbn; [| destruct (String.leb x y)]; discriminate. Qed.

(** Sorting keeps a list empty or not. *)
Lemma sorted_nil l : Cli.sorted l = [] <-> l = [].
Proof.
  split; [| intros ->; reflexivity].
  destruct l as [| x r]; [reflexivity |]. cbn.
  intros H. exfalso. exact (insert_sorted_cons _ _ H).
Qed.

Lemma finish_status printed r : Cli.status (Cli.finish printed r) = 0%Z <-> snd r = None.
Proof.
  unfold Cli.finish. destruct (snd r); cbn; split; congruence.
Qed.

(** The loop of [energy_metrics_analyzer.py] ends with status 0 exactly
    when every combination it runs returns. *)
Lemma energy_loop_status f combine base_path names : forall printed,
  Cli.status (Cli.energy_loop f combine base_path names printed) = 0%Z <->
  (forall sf_folder, In sf_folder names ->
     Cli.energy_sf_folder f base_path sf_folder = true ->
     Cli.has_workbooks f base_path sf_folder = true ->
     snd (combine sf_folder) = None).
Proof.
  induction names as [| sf rest IH]; intros printed; cbn [Cli.energy_loop].
  - cbn. split; [intros _ ? [] | reflexivity].
  - destruct (Cli.energy_sf_folder f base_path sf) eqn:Esf.
    + destruct (Cli.has_workbooks f base_path sf) eqn:Ewb.
      * destruct (snd (combine sf)) eqn:Ec.
        -- cbn. split; [discriminate |].
           intros H. specialize (H sf (or_introl eq_refl) Esf Ewb). congruence.
        -- rewrite IH. split.
           ++ intros H x [<- | Hin]; [intros _ _; exact Ec | exact (H x Hin)].
           ++ intros H x Hin. exact (H x (or_intror Hin)).
      * rewrite IH. split.
        -- intros H x [<- | Hin]; [congruence | exact (H x Hin)].
        -- intros H x Hin. exact (H x (or_intror Hin)).
    + rewrite IH. split.
      * intros H x [<- | Hin]; [congruence | exact (H x Hin)].
      * intros H x Hin. exact (H x (or_intror Hin)).
Qed.

(** Without an SF folder the loop prints nothing. *)
Lemma energy_loop_no_sf f combine base_path names : forall printed,
  (forall sf_folder, In sf_folder names ->
     Cli.energy_sf_folder f base_path sf_folder = false) ->
  Cli.energy_loop f combine base_path names printed = Cli.mkOutcome 0 printed None.
Proof.
  induction names as [| sf rest IH]; intros printed H; cbn [Cli.energy_loop];
    [reflexivity |].
  rewrite (H sf (or_introl eq_refl)). apply IH.
  intros x Hin. exact (H x (or_intror Hin)).
Qed.

End CliFacts.




(** Lines without the marker leave the loops of Experiments 2 and 3 in
    their initial state. *)
Lemma no_marker_exp2 fromisoformat strftime start_time end_time pre :
  Forall (fun line => Lex.contains Lex.POWER_DETAIL line = false) pre ->
  fold_left (Exp2.step fromisoformat strftime start_time end_time) pre Exp2.init =
  Exp2.init.
Proof.
  induction 1 as [| line pre Hline _ IH]; [reflexivity |].
  cbn [fold_left]. unfold Exp2.step at 2. rewrite Hline.
  cbn [Exp2.init Exp2.in_power_detail_section andb]. rewrite andb_false_r. exact IH.
Qed.

Lemma no_marker_exp3 fromisoformat start_time end_time pre : forall rest,
  Forall (fun line => Lex.contains Lex.POWER_DETAIL line = false) pre ->
  Exp3.run_from fromisoformat start_time end_time Exp3.init (pre ++ rest) =
  Exp3.run_from fromisoformat start_time end_time Exp3.init rest.
Proof.
  intros rest. induction 1 as [| line pre Hline _ IH]; [reflexivity |].
  cbn [app Exp3.run_from]. unfold Exp3.step. rewrite Hline.
  cbn [Exp3.init Exp3.in_power_detail_section andb]. rewrite andb_false_r. exact IH.
Qed.

(** C10.  In Experiments 2 and 3 the lines before the first marker line
    are not processed: the result on a file is the result on what follows
    them, and a file without a marker line gives exactly one empty section
    per metric, whatever separator and entry lines it holds. *)
Theorem C10_nothing_before_marker :
  forall (fromisoformat : string -> option Z) (strftime : Z -> string)
         (start_time end_time : Z) (pre rest : list string),
    Forall (fun line => Lex.contains Lex.POWER_DETAIL line = false) pre ->
    Exp2.load_power_data_in_time_range fromisoformat strftime start_time end_time
      (pre ++ rest) =
    Exp2.load_power_data_in_time_range fromisoformat strftime start_time end_time rest
    /\ Exp3.load_power_data_in_time_range fromisoformat start_time end_time
         (pre ++ rest) =
       Exp3.load_power_data_in_time_range fromisoformat start_time end_time rest
    /\ Exp2.load_power_data_in_time_range fromisoformat strftime start_time end_time pre =
       one_empty_section
    /\ Exp3.load_power_data_in_time_range fromisoformat start_time end_time pre =
       Ok one_empty_section.
Proof.
  intros fromisoformat strftime start_time end_time pre rest Hpre.
  unfold Exp2.load_power_data_in_time_range, Exp3.load_power_data_in_time_range, Exp2.run.
  rewrite fold_left_app, (no_marker_exp2 _ _ _ _ _ Hpre).
  rewrite (no_marker_exp3 _ _ _ _ rest Hpre).
  repeat split.
  rewrite <- (app_nil_r pre) at 1. rewrite (no_marker_exp3 _ _ _ _ [] Hpre). reflexivity.
Qed.

(** C10, a run: the sample log of four sections, which has three
    separator lines, four entries and no marker line. *)
Lemma C10_nothing_before_marker_witness :
  Exp2.load_power_data_in_time_range Fixture.fromisoformat Fixture.strftime
    Sample.t_start Sample.t_end Sample.four_sections = one_empty_section
  /\ Exp3.load_power_data_in_time_range Fixture.fromisoformat Sample.t_start
       Sample.t_end Sample.four_sections = Ok one_empty_section.
Proof.
  apply (proj2 (proj2 (C10_nothing_before_marker Fixture.fromisoformat Fixture.strftime
                         Sample.t_start Sample.t_end Sample.four_sections []
                         (Forall_of_forallb _
                            (fun line => negb (Lex.contains Lex.POWER_DETAIL line))
                            Sample.four_sections
                            (fun line H => proj1 (negb_true_iff _) H)
                            ltac:(vm_compute; reflexivity))))).
Defined.

(** ** The idle reader *)

Module IdleFacts.

Import Idle.

Lemma scan_bounded number rev_lines : forall count d acc,
  aligned acc ->
  count = Z.of_nat (List.length (CpuWatts acc)) ->
  (count < Z.max 1 number)%Z ->
  let r := scan number rev_lines count d acc in
  aligned r /\ (Z.of_nat (List.length (CpuWatts r)) <= Z.max 1 number)%Z.
Proof.
  induction rev_lines as [| line rest IH]; intros count d acc Hal Hc Hlt; cbv zeta.
  - simpl. split; [exact Hal | lia].
  - cbn [scan]. destruct (is_close line).
    + destruct (e_CpuWatts d) as [c |]; [| now apply IH].
      destruct (e_DimmWatts d) as [m |]; [| now apply IH].
      destruct (e_Average d) as [a |]; [| now apply IH].
      assert (Hal' : aligned (mkIdle (c :: CpuWatts acc) (m :: DimmWatts acc)
                                     (a :: Average acc))).
      { destruct Hal as [H1 H2]. split; simpl; congruence. }
      destruct (Z.geb_spec (count + 1) number) as [Hstop | Hgo].
      * split; [exact Hal' |]. cbn [CpuWatts List.length]. lia.
      * apply IH; [exact Hal' | cbn [CpuWatts List.length]; lia | lia].
    + now apply IH.
Qed.

Lemma scan_no_close number p : forall count d acc,
  Forall (fun line => is_close line = false) p ->
  scan number p count d acc = acc.
Proof.
  induction p as [| line p IH]; intros count d acc Hp; [reflexivity |].
  inversion Hp as [| ? ? Hline Hrest]; subst. cbn [scan]. rewrite Hline.
  now apply IH.
Qed.

Lemma scan_app_no_close number p l : forall count d acc,
  Forall (fun line => is_close line = false) p ->
  scan number (l ++ p) count d acc = scan number l count d acc.
Proof.
  induction l as [| line l IH]; intros count d acc Hp.
  - now apply scan_no_close.
  - cbn [app scan]. destruct (is_close line).
    + destruct (e_CpuWatts d); [| now apply IH].
      destruct (e_DimmWatts d); [| now apply IH].
      destruct (e_Average d); [| now apply IH].
      destruct (count + 1 >=? number)%Z; [reflexivity | now apply IH].
    + now apply IH.
Qed.

End IdleFacts.

(** X1.  Whatever the idle file holds and whatever count is asked for,
    the three lists [get_last_X_idle_values] returns have the same
    length, and that length is at most the count asked for (at most 1
    when the count is 0 or negative, since the count is tested only after
    an entry has been stored). *)
Theorem X1_idle_values_aligned_and_bounded :
  forall (lines : list string) (number : Z),
    let r := Idle.last_values lines number in
    List.length (Idle.CpuWatts r) = List.length (Idle.DimmWatts r)
    /\ List.length (Idle.DimmWatts r) = List.length (Idle.Average r)
    /\ (Z.of_nat (List.length (Idle.CpuWatts r)) <= Z.max 1 number)%Z.
Proof.
  intros lines number. cbv zeta. unfold Idle.last_values.
  destruct (IdleFacts.scan_bounded number (rev lines) 0%Z no_entry Idle.no_values)
    as [[H1 H2] H3]; [split; reflexivity | reflexivity | lia |].
  auto.
Qed.

(** X2.  The lines of an idle file that come before its first close
    marker never reach the result: the reverse scan stores an entry's
    values only at the close marker that precedes them in the file. *)
Theorem X2_idle_lines_before_first_close_ignored :
  forall (pre rest : list string) (number : Z),
    Forall (fun line => is_close line = false) pre ->
    Idle.last_values (pre ++ rest) number = Idle.last_values rest number.
Proof.
  intros pre rest number Hpre. unfold Idle.last_values.
  rewrite rev_app_distr. apply IdleFacts.scan_app_no_close.
  apply Forall_rev. exact Hpre.
Qed.

(** X2, a run: the five field lines of the first entry of the sample
    idle file make no difference. *)
Lemma X2_idle_lines_before_first_close_witness :
  Idle.last_values (firstn 5 Sample.e1 ++ skipn 5 Sample.idle_five) 20 =
  Idle.last_values (skipn 5 Sample.idle_five) 20.
Proof.
  apply X2_idle_lines_before_first_close_ignored.
  apply (Forall_of_forallb _ (fun line => negb (is_close line)));
    [intros line H; exact (proj1 (negb_true_iff _) H) | vm_compute; reflexivity].
Defined.

(** ** Experiment 2: the idle loader *)

Module Idle2Facts.

Import Idle2.

Lemma fold_step lines : forall acc,
  fold_left step lines acc =
  mkLists (cpu_watts acc ++ matches "CpuWatts" lines)
          (dimm_watts acc ++ matches "DimmWatts" lines)
          (average acc ++ matches "Average" lines).
Proof.
  induction lines as [| line rest IH]; intros acc.
  - destruct acc. cbn. now rewrite !app_nil_r.
  - cbn [fold_left]. rewrite IH. unfold step, matches. cbn [flat_map cpu_watts dimm_watts average].
    rewrite !Exp1Facts.append_if_app. reflexivity.
Qed.

Lemma last_slice_positive {A : Type} (X : Z) (l : list A) :
  (1 <= X)%Z ->
  l = firstn (List.length l - Z.to_nat X) l ++ last_slice X l
  /\ List.length (last_slice X l) = Nat.min (Z.to_nat X) (List.length l).
Proof.
  intros HX. unfold last_slice.
  replace (0 <? X)%Z with true by (symmetry; apply Z.ltb_lt; lia).
  split; [symmetry; apply firstn_skipn |].
  rewrite length_skipn. lia.
Qed.

End Idle2Facts.

(** X3.  Asked for the last [X >= 1] values, the idle loader of
    Experiment 2 returns, for each metric, the values of the last
    [min X n] lines that hold the metric, in file order, where [n] is how
    many lines hold it; no line at the start of the file is lost. *)
Theorem X3_idle_loader_returns_last_matches :
  forall (lines : list string) (X : Z),
    (1 <= X)%Z ->
    let r := Idle2.load_last_metrics_from_idle_file lines X in
    (exists dropped, Idle2.matches "CpuWatts" lines = dropped ++ Idle.CpuWatts r)
    /\ (exists dropped, Idle2.matches "DimmWatts" lines = dropped ++ Idle.DimmWatts r)
    /\ (exists dropped, Idle2.matches "Average" lines = dropped ++ Idle.Average r)
    /\ List.length (Idle.CpuWatts r) =
       Nat.min (Z.to_nat X) (List.length (Idle2.matches "CpuWatts" lines))
    /\ List.length (Idle.DimmWatts r) =
       Nat.min (Z.to_nat X) (List.length (Idle2.matches "DimmWatts" lines))
    /\ List.length (Idle.Average r) =
       Nat.min (Z.to_nat X) (List.length (Idle2.matches "Average" lines)).
Proof.
  intros lines X HX. cbv zeta. unfold Idle2.load_last_metrics_from_idle_file.
  rewrite Idle2Facts.fold_step.
  cbn [Idle2.cpu_watts Idle2.dimm_watts Idle2.average app
       Idle.CpuWatts Idle.DimmWatts Idle.Average].
  destruct (Idle2Facts.last_slice_positive X (Idle2.matches "CpuWatts" lines) HX) as [C1 C2].
  destruct (Idle2Facts.last_slice_positive X (Idle2.matches "DimmWatts" lines) HX) as [D1 D2].
  destruct (Idle2Facts.last_slice_positive X (Idle2.matches "Average" lines) HX) as [A1 A2].
  repeat split; try assumption; eexists; eassumption.
Qed.

(** X3, a run: the sample idle file of five entries asked for 20 values
    gives all five. *)
Lemma X3_idle_loader_witness :
  let r := Idle2.load_last_metrics_from_idle_file Sample.idle_five 20 in
  (exists dropped, Idle2.matches "CpuWatts" Sample.idle_five = dropped ++ Idle.CpuWatts r)
  /\ (exists dropped, Idle2.matches "DimmWatts" Sample.idle_five = dropped ++ Idle.DimmWatts r)
  /\ (exists dropped, Idle2.matches "Average" Sample.idle_five = dropped ++ Idle.Average r)
  /\ List.length (Idle.CpuWatts r) =
     Nat.min (Z.to_nat 20) (List.length (Idle2.matches "CpuWatts" Sample.idle_five))
  /\ List.length (Idle.DimmWatts r) =
     Nat.min (Z.to_nat 20) (List.length (Idle2.matches "DimmWatts" Sample.idle_five))
  /\ List.length (Idle.Average r) =
     Nat.min (Z.to_nat 20) (List.length (Idle2.matches "Average" Sample.idle_five)).
Proof.
  apply (X3_idle_loader_returns_last_matches Sample.idle_five 20). lia.
Defined.

(** X4.  Asked for the last 0 values, the idle loader of Experiment 2
    returns every value of the file: the slice [l[-0:]] starts at index 0. *)
Theorem X4_idle_loader_zero_returns_all :
  forall lines : list string,
    Idle2.load_last_metrics_from_idle_file lines 0 =
    Idle.mkIdle (Idle2.matches "CpuWatts" lines)
                (Idle2.matches "DimmWatts" lines)
                (Idle2.matches "Average" lines).
Proof.
  intros lines. unfold Idle2.load_last_metrics_from_idle_file.
  rewrite Idle2Facts.fold_step. reflexivity.
Qed.

(** ** Timestamps that do not parse *)

Module BadTimeFacts.

(** In Experiment 3 one entry whose [Time] does not parse ends the loop
    with [ValueError]. *)
Lemma run_from_raises fromisoformat start_time end_time lines : forall n st,
  Exists (fun x => Generic.parse fromisoformat (fst (snd x)) = None)
         (Spec2.tagged n (Exp3.in_power_detail_section st) (Exp3.entry_data st) lines) ->
  Exp3.run_from fromisoformat start_time end_time st lines = Raise ValueError.
Proof.
  induction lines as [| line rest IH]; intros n st HT.
  - inversion HT.
  - cbn [Exp3.run_from]. cbn [Spec2.tagged] in HT. unfold Exp3.step.
    destruct (Lex.contains Lex.POWER_DETAIL line);
      [exact (IH n (Exp3.mkState (Exp3.sections st) true (Exp3.entry_data st)) HT) |].
    destruct (Lex.startswith Lex.DASHES line && Exp3.in_power_detail_section st);
      [exact (IH (S n) (Exp3.mkState (new_section (Exp3.sections st))
                          (Exp3.in_power_detail_section st) (Exp3.entry_data st)) HT) |].
    destruct (Exp3.in_power_detail_section st) eqn:Ein.
    + destruct (String.eqb (Lex.strip line) "{");
        [exact (IH n (Exp3.mkState (Exp3.sections st) true no_entry) HT) |].
      destruct (is_close line).
      * unfold Exp3.close_entry, Exp3.parse_datetime_from_string.
        destruct (e_Time (Exp3.entry_data st)) as [[| c ts] |] eqn:Etime.
        -- rewrite Ein. exact (IH n (Exp3.mkState (Exp3.sections st) true no_entry) HT).
        -- unfold Generic.parse in HT. cbn [fst snd] in HT.
           destruct (fromisoformat (replace_Z (String c ts))) as [t |] eqn:Eparse;
             [| reflexivity].
           inversion HT as [x T Hx | x T HT']; subst.
           ++ cbn [fst snd] in Hx. congruence.
           ++ rewrite Ein. destruct (in_window start_time end_time t).
              ** exact (IH n (Exp3.mkState
                                (Exp3.add_entry (String c ts) (Exp3.entry_data st)
                                   (Exp3.sections st)) true no_entry) HT').
              ** exact (IH n (Exp3.mkState (Exp3.sections st) true no_entry) HT').
        -- rewrite Ein. exact (IH n (Exp3.mkState (Exp3.sections st) true no_entry) HT).
      * exact (IH n (Exp3.mkState (Exp3.sections st) true
                       (read_fields2 line (Exp3.entry_data st))) HT).
    + apply (IH n st). now rewrite Ein.
Qed.

(** The log of Experiment 1 grows by one warning per entry whose [Time]
    does not parse. *)
Lemma log1_tagged strptime start_time end_time lines : forall n st,
  Exp1.log (fold_left (Exp1.step strptime start_time end_time) lines st) =
  Exp1.log st ++
  map (fun s => LogWarning "Error parsing time" (fst s))
      (filter (fun s => match strptime (fst s) with Some _ => false | None => true end)
              (map snd (Spec1.tagged n (Exp1.inside_entry st) (Exp1.entry_data st) lines))).
Proof.
  induction lines as [| line rest IH]; intros n st.
  - cbn. now rewrite app_nil_r.
  - cbn [fold_left Spec1.tagged]. unfold Exp1.step at 2. unfold Spec1.is_separator.
    destruct (String.eqb (Lex.strip line) Lex.DASHES); [exact (IH (S n) _) |].
    destruct (Lex.contains "{" line); [exact (IH n _) |].
    destruct (Lex.contains "}" line && Exp1.inside_entry st).
    + unfold Exp1.close_entry.
      destruct (e_Time (Exp1.entry_data st)) as [ts |] eqn:Etime; [| exact (IH n _)].
      cbn [map filter fst snd].
      destruct (strptime ts) as [t |] eqn:Eparse; cbv iota.
      * destruct (in_window start_time end_time t); exact (IH n _).
      * rewrite (IH n). cbn [Exp1.log Exp1.inside_entry Exp1.entry_data map].
        now rewrite <- app_assoc.
    + destruct (Exp1.inside_entry st) eqn:Ein; [exact (IH n _) |].
      rewrite (IH n st), Ein. reflexivity.
Qed.

(** The log of Experiment 2 grows by one message per entry whose [Time]
    does not parse. *)
Lemma log2_tagged fromisoformat strftime start_time end_time lines : forall n st,
  Exp2.log (fold_left (Exp2.step fromisoformat strftime start_time end_time) lines st) =
  Exp2.log st ++
  map (fun s => LogInfo "Invalid timestamp format. Skipping entry." (fst s))
      (filter (fun s => match Generic.parse fromisoformat (fst s) with
                        | Some _ => false
                        | None => true
                        end)
              (map snd (Spec2.tagged n (Exp2.in_power_detail_section st)
                          (Exp2.entry_data st) lines))).
Proof.
  induction lines as [| line rest IH]; intros n st.
  - cbn. now rewrite app_nil_r.
  - cbn [fold_left Spec2.tagged]. unfold Exp2.step at 2.
    destruct (Lex.contains Lex.POWER_DETAIL line); [exact (IH n _) |].
    destruct (Lex.startswith Lex.DASHES line && Exp2.in_power_detail_section st);
      [exact (IH (S n) _) |].
    destruct (Exp2.in_power_detail_section st) eqn:Ein.
    + destruct (String.eqb (Lex.strip line) "{"); [rewrite (IH n); now rewrite ?Ein |].
      destruct (is_close line); [| rewrite (IH n); now rewrite ?Ein].
      unfold Exp2.close_entry.
      destruct (e_Time (Exp2.entry_data st)) as [[| c ts] |] eqn:Etime;
        try (rewrite (IH n); now rewrite ?Ein).
      cbn [map filter fst snd].
      change (Generic.parse fromisoformat (String c ts))
        with (fromisoformat (replace_Z (String c ts))).
      destruct (fromisoformat (replace_Z (String c ts))) as [t |] eqn:Eparse; cbv iota.
      * destruct (in_window start_time end_time t); rewrite (IH n); now rewrite ?Ein.
      * rewrite (IH n). cbn [Exp2.log Exp2.in_power_detail_section Exp2.entry_data map].
        rewrite ?Ein. now rewrite <- app_assoc.
    + rewrite (IH n st), Ein. reflexivity.
Qed.

End BadTimeFacts.



(** X6.  The Experiment 1 extractor logs exactly one warning for each
    complete entry whose [Time] does not parse, in file order, and nothing
    else; such entries are reported even when they lie beyond the eighth
    section. *)
Theorem X6_exp1_warns_once_per_bad_time :
  forall (strptime : string -> option Z) (start_time end_time : Z)
         (path : string) (lines : list string),
    snd (Exp1.extract_section_values strptime start_time end_time path (Some lines)) =
    map (fun s => LogWarning "Error parsing time" (fst s))
        (filter (fun s => match strptime (fst s) with Some _ => false | None => true end)
                (map snd (Spec1.entries lines))).
Proof.
  intros strptime start_time end_time path lines.
  cbn [Exp1.extract_section_values snd]. unfold Exp1.run.
  now rewrite (BadTimeFacts.log1_tagged _ _ _ lines 0 Exp1.init).
Qed.

(** X7.  The Experiment 2 extractor logs exactly one message for each
    complete entry after the marker whose [Time] does not parse, in file
    order, and nothing else; unlike Experiment 3 it goes on. *)
Theorem X7_exp2_logs_once_per_bad_time :
  forall (fromisoformat : string -> option Z) (strftime : Z -> string)
         (start_time end_time : Z) (lines : list string),
    Exp2.log (Exp2.run fromisoformat strftime start_time end_time lines) =
    map (fun s => LogInfo "Invalid timestamp format. Skipping entry." (fst s))
        (filter (fun s => match Generic.parse fromisoformat (fst s) with
                          | Some _ => false
                          | None => true
                          end)
                (map snd (Spec2.entries lines))).
Proof.
  intros fromisoformat strftime start_time end_time lines. unfold Exp2.run.
  now rewrite (BadTimeFacts.log2_tagged _ _ _ _ lines 0 Exp2.init).
Qed.

(** ** How the extractors relate *)

Lemma pairs_values fromisoformat strftime get l :
  map fst (Spec2.pairs_of get
             (Generic.pair _ (Generic.parse fromisoformat) (Generic.mk2 strftime)) l) =
  map snd (Spec2.pairs_of get
             (Generic.pair _ (Generic.parse fromisoformat) Generic.mk3) l).
Proof.
  induction l as [| [ts d] l IH]; [reflexivity |].
  rewrite !pairs_of_cons, !map_app, IH. f_equal.
  destruct (get d) as [v |]; [| reflexivity].
  unfold Generic.pair. destruct (Generic.parse fromisoformat ts); reflexivity.
Qed.

(** X8.  On a log in which the [Time] of every complete entry parses, the
    extractors of Experiments 2 and 3 return the same values in the same
    sections; they differ only in the timestamp stored beside each value. *)
Theorem X8_exp2_exp3_same_values :
  forall (fromisoformat : string -> option Z) (strftime : Z -> string)
         (start_time end_time : Z) (lines : list string),
    Forall (Generic.parses fromisoformat) (Spec2.entries lines) ->
    exists m3,
      Exp3.load_power_data_in_time_range fromisoformat start_time end_time lines = Ok m3
      /\ values3 m3 =
         values2 (Exp2.load_power_data_in_time_range fromisoformat strftime
                    start_time end_time lines).
Proof.
  intros fromisoformat strftime start_time end_time lines HT.
  eexists. split; [now apply Exp3Facts.load3_generic |].
  rewrite Exp2Facts.load2_generic, !generic_sections. cbv zeta.
  unfold values2, values3. cbn [m_CpuWatts m_DimmWatts m_Average].
  rewrite !map_map. unfold Generic.sections_of.
  f_equal; apply map_ext; intros k; symmetry; apply pairs_values.
Qed.

(** X8, a run on the sample log of four sections with its marker. *)
Lemma X8_exp2_exp3_same_values_witness :
  exists m3,
    Exp3.load_power_data_in_time_range Fixture.fromisoformat Sample.t_start Sample.t_end
      Sample.four_sections_marked = Ok m3
    /\ values3 m3 =
       values2 (Exp2.load_power_data_in_time_range Fixture.fromisoformat Fixture.strftime
                  Sample.t_start Sample.t_end Sample.four_sections_marked).
Proof.
  apply X8_exp2_exp3_same_values.
  apply (Forall_of_forallb _
           (fun x : nat * sample =>
              match Generic.parse Fixture.fromisoformat (fst (snd x)) with
              | Some _ => true
              | None => false
              end)).
  - intros x Hx. cbv beta in Hx. unfold Generic.parses. intros E.
    rewrite E in Hx. discriminate Hx.
  - vm_compute. reflexivity.
Defined.

Lemma select_narrow (narrow wide : string -> bool) k T :
  (forall ts, narrow ts = true -> wide ts = true) ->
  filter narrow (map fst (select wide k T)) = map fst (select narrow k T).
Proof.
  intros Himp. induction T as [| [n s] T IH]; [reflexivity |].
  rewrite !select_cons. destruct (n =? k)%nat; cbn [andb]; [| exact IH].
  destruct (wide (fst s)) eqn:Ew.
  - cbn [map filter]. rewrite IH. destruct (narrow (fst s)); reflexivity.
  - destruct (narrow (fst s)) eqn:En; [| exact IH].
    apply Himp in En. congruence.
Qed.

Lemma keeps_narrow parse s e s' e' ts :
  (s' <= s)%Z -> (e <= e')%Z ->
  keeps parse s e ts = true -> keeps parse s' e' ts = true.
Proof.
  intros Hs He H. apply keeps_inclusive in H. destruct H as (t & Hp & Ht).
  apply keeps_inclusive. exists t. split; [exact Hp | lia].
Qed.

(** X9.  Narrowing the window afterwards is the same as extracting with
    the narrow window: in Experiment 1 the [Time] list of every section
    for a window inside a wider one is the [Time] list of that section
    for the wider window, filtered by the narrow window. *)
Theorem X9_exp1_window_narrowing :
  forall (strptime : string -> option Z) (s e s' e' : Z) (lines : list string),
    (s' <= s)%Z -> (e <= e')%Z ->
    map Exp1.Time (Exp1.extract_lines strptime s e lines) =
    map (fun section => filter (keeps strptime s e) (Exp1.Time section))
        (Exp1.extract_lines strptime s' e' lines).
Proof.
  intros strptime s e s' e' lines Hs He.
  rewrite !extract_lines_sections, !map_map. apply map_ext. intros k.
  unfold Spec1.section_of, Spec1.build. cbn [Exp1.Time].
  symmetry. apply select_narrow. intros ts. now apply keeps_narrow.
Qed.

(** X9, a run: the first minute inside the two minutes of the sample. *)
Lemma X9_exp1_window_narrowing_witness :
  map Exp1.Time (Exp1.extract_lines Fixture.strptime Sample.t_start
                   (Sample.t_start + 60) Sample.four_sections) =
  map (fun section => filter (keeps Fixture.strptime Sample.t_start (Sample.t_start + 60))
                             (Exp1.Time section))
      (Exp1.extract_lines Fixture.strptime Sample.t_start Sample.t_end
         Sample.four_sections).
Proof.
  apply X9_exp1_window_narrowing; vm_compute; discriminate.
Defined.

Lemma select_none keep k T :
  (forall ts, keep ts = false) -> select keep k T = [].
Proof.
  intros Hk. induction T as [| [n s] T IH]; [reflexivity |].
  now rewrite select_cons, Hk, andb_false_r.
Qed.

Lemma keeps_empty_window parse s e ts : (e < s)%Z -> keeps parse s e ts = false.
Proof.
  intros He. destruct (keeps parse s e ts) eqn:E; [| reflexivity].
  apply keeps_inclusive in E. destruct E as (t & _ & Ht). lia.
Qed.

(** X10.  With a window whose end lies before its start nothing is kept:
    Experiment 1 returns eight empty sections and Experiment 2 returns
    only empty sections, one more than there are separator lines after
    the marker. *)
Theorem X10_empty_window :
  forall (strptime fromisoformat : string -> option Z) (strftime : Z -> string)
         (start_time end_time : Z) (lines : list string),
    (end_time < start_time)%Z ->
    Exp1.extract_lines strptime start_time end_time lines =
      repeat Exp1.empty_section Exp1.TOTAL_SECTIONS
    /\ Exp2.load_power_data_in_time_range fromisoformat strftime start_time end_time
         lines =
       let n := S (Spec2.separators false lines) in
       mkMetrics (repeat [] n) (repeat [] n) (repeat [] n).
Proof.
  intros strptime fromisoformat strftime start_time end_time lines Hw. split.
  - rewrite extract_lines_sections.
    rewrite (map_ext _ (fun _ => Exp1.empty_section)).
    + generalize Exp1.TOTAL_SECTIONS. intros n. generalize 0.
      induction n as [| n IH]; intros a; [reflexivity |]. cbn. f_equal. apply IH.
    + intros k. unfold Spec1.section_of. rewrite select_none; [reflexivity |].
      intros ts. now apply keeps_empty_window.
  - rewrite Exp2Facts.load2_generic, generic_sections. cbv zeta.
    assert (Hrep : forall get,
              map (Generic.sections_of _ (Generic.parse fromisoformat)
                     (Generic.mk2 strftime) start_time end_time get lines)
                  (seq 0 (S (Spec2.separators false lines))) =
              repeat [] (S (Spec2.separators false lines))).
    { intros get. rewrite (map_ext _ (fun _ => [])).
      - generalize (S (Spec2.separators false lines)). intros n. generalize 0.
        induction n as [| n IH]; intros a; [reflexivity |]. cbn. f_equal. apply IH.
      - intros k. unfold Generic.sections_of. rewrite select_none; [reflexivity |].
        intros ts. now apply keeps_empty_window. }
    now rewrite !Hrep.
Qed.

(** X10, a run: the sample window turned round. *)
Lemma X10_empty_window_witness :
  Exp1.extract_lines Fixture.strptime Sample.t_end Sample.t_start
    Sample.four_sections_marked =
    repeat Exp1.empty_section Exp1.TOTAL_SECTIONS
  /\ Exp2.load_power_data_in_time_range Fixture.fromisoformat Fixture.strftime
       Sample.t_end Sample.t_start Sample.four_sections_marked =
     let n := S (Spec2.separators false Sample.four_sections_marked) in
     mkMetrics (repeat [] n) (repeat [] n) (repeat [] n).
Proof.
  apply X10_empty_window. vm_compute. reflexivity.
Defined.

(** ** Experiment 2: what the phase statistics are computed on *)

Module FlatFacts.

Import Generic.

Lemma concat_append_last {A : Type} (xss : list (list A)) v :
  xss <> [] -> List.concat (append_last xss v) = List.concat xss ++ [v].
Proof.
  induction xss as [| xs xss IH]; intros Hne; [congruence |].
  destruct xss as [| ys rest].
  - cbn. now rewrite !app_nil_r.
  - change (append_last (xs :: ys :: rest) v) with (xs :: append_last (ys :: rest) v).
    cbn [List.concat]. rewrite IH by discriminate. cbn [List.concat]. now rewrite app_assoc.
Qed.

Lemma concat_snoc_nil {A : Type} (xss : list (list A)) :
  List.concat (xss ++ [[]]) = List.concat xss.
Proof. rewrite List.concat_app. cbn. now rewrite app_nil_r. Qed.

Section Window.

Variable B : Type.
Variable parse : string -> option Z.
Variable mk : string -> Z -> Z -> B.
Variables start_time end_time : Z.

Let keep := keeps parse start_time end_time.
Let step := Generic.step B parse mk start_time end_time.
Let pair := Generic.pair B parse mk.

Variable get : entry -> option Z.
Variable proj : metrics B -> list (list B).
Hypothesis proj_new : forall m, proj (new_section m) = proj m ++ [[]].
Hypothesis proj_add : forall ts t d m,
  proj (add_entry B mk ts t d m) = append_last_if (proj m) (get d) (mk ts t).

(** All the pairs of a metric, whatever their section, are the pairs of
    the kept entries in file order. *)
Lemma run_concat lines : forall n st,
  proj (sections st) <> [] ->
  let st' := fold_left step lines st in
  proj (sections st') <> [] /\
  List.concat (proj (sections st')) =
  List.concat (proj (sections st)) ++
  Spec2.pairs_of get pair
    (filter (fun s => keep (fst s))
            (map snd (Spec2.tagged n (started st) (entry_data st) lines))).
Proof.
  induction lines as [| line rest IH]; intros n st Hne; cbv zeta.
  - cbn. split; [exact Hne | now rewrite app_nil_r].
  - cbn [fold_left Spec2.tagged]. unfold step at 2 4. unfold Generic.step.
    destruct (Lex.contains Lex.POWER_DETAIL line);
      [exact (IH n (mkState (sections st) true (entry_data st)) Hne) |].
    destruct (Lex.startswith Lex.DASHES line && started st).
    + assert (Hne' : proj (new_section (sections st)) <> []).
      { rewrite proj_new. intros E. apply (f_equal (@List.length _)) in E.
        rewrite length_app in E. simpl in E. lia. }
      destruct (IH (S n) (mkState (new_section (sections st)) (started st)
                            (entry_data st)) Hne') as [H1 H2].
      split; [exact H1 |]. rewrite H2. cbn [sections started entry_data].
      now rewrite proj_new, concat_snoc_nil.
    + destruct (started st) eqn:Est.
      * destruct (String.eqb (Lex.strip line) "{").
        { destruct (IH n (mkState (sections st) true no_entry) Hne) as [H1 H2].
          split; [exact H1 | exact H2]. }
        destruct (is_close line).
        2:{ destruct (IH n (mkState (sections st) true
                              (read_fields2 line (entry_data st))) Hne) as [H1 H2].
            split; [exact H1 | exact H2]. }
        unfold Generic.close_entry. rewrite Est.
        destruct (e_Time (entry_data st)) as [[| c ts] |] eqn:Etime;
          try (destruct (IH n (mkState (sections st) true no_entry) Hne) as [H1 H2];
               split; [exact H1 | exact H2]).
        cbn [map filter fst snd].
        assert (Hkeep : keep (String c ts) =
                        match parse (String c ts) with
                        | Some t => in_window start_time end_time t
                        | None => false
                        end) by reflexivity.
        assert (Hpair : pair (String c ts) =
                        fun v => match parse (String c ts) with
                                 | Some t => Some (mk (String c ts) t v)
                                 | None => None
                                 end) by reflexivity.
        rewrite Hkeep.
        destruct (parse (String c ts)) as [t |] eqn:Eparse;
          [| destruct (IH n (mkState (sections st) true no_entry) Hne) as [H1 H2];
             split; [exact H1 | exact H2]].
        destruct (in_window start_time end_time t) eqn:Ewin;
          [| destruct (IH n (mkState (sections st) true no_entry) Hne) as [H1 H2];
             split; [exact H1 | exact H2]].
        assert (Hne' : proj (add_entry B mk (String c ts) t (entry_data st)
                               (sections st)) <> []).
        { rewrite proj_add. unfold append_last_if.
          destruct (get (entry_data st)); [now apply append_last_nonempty | exact Hne]. }
        destruct (IH n (mkState (add_entry B mk (String c ts) t (entry_data st)
                                   (sections st)) true no_entry) Hne') as [H1 H2].
        split; [exact H1 |]. rewrite H2. cbn [sections started entry_data].
        rewrite proj_add, pairs_of_cons, Hpair. unfold append_last_if.
        destruct (get (entry_data st)) as [v |]; [| reflexivity].
        rewrite concat_append_last by exact Hne. cbn [opt_list].
        now rewrite <- app_assoc.
      * destruct (IH n st Hne) as [H1 H2]. split; [exact H1 |].
        rewrite H2, Est. reflexivity.
Qed.

End Window.

Lemma flat_values_concat (xss : list (list (Z * string))) :
  Stats2.flat_values xss = map fst (List.concat xss).
Proof.
  unfold Stats2.flat_values.
  induction xss as [| xs xss IH]; [reflexivity |].
  cbn [flat_map List.concat]. rewrite map_app, IH. f_equal.
  destruct xs as [| x xs]; [reflexivity |].
  generalize (x :: xs). intros l. induction l as [| y l IHl]; [reflexivity |].
  cbn. now rewrite IHl.
Qed.

Lemma pairs_values_kept fromisoformat strftime start_time end_time get l :
  map fst (Spec2.pairs_of get
             (Generic.pair _ (Generic.parse fromisoformat) (Generic.mk2 strftime))
             (filter (fun s => keeps (Generic.parse fromisoformat) start_time end_time
                                     (fst s)) l)) =
  values_of get
    (filter (fun s => keeps (Generic.parse fromisoformat) start_time end_time (fst s)) l).
Proof.
  induction l as [| [ts d] l IH]; [reflexivity |].
  cbn [filter fst].
  destruct (keeps (Generic.parse fromisoformat) start_time end_time ts) eqn:Ek;
    [| exact IH].
  rewrite pairs_of_cons, map_app, IH. unfold values_of. cbn [flat_map snd]. f_equal.
  destruct (get d) as [v |]; [| reflexivity].
  unfold Generic.pair. apply kept_parses in Ek.
  destruct (Generic.parse fromisoformat ts); [reflexivity | congruence].
Qed.

End FlatFacts.

(** X11.  The values [extract_phase_metrics] of Experiment 2 computes a
    metric's statistics on are the values of all the entries after the
    marker that the window keeps, in file order: the separator lines of
    the log make no difference to the statistics of a phase. *)
Theorem X11_phase_values_ignore_sections :
  forall (fromisoformat : string -> option Z) (strftime : Z -> string)
         (start_time end_time : Z) (lines : list string),
    let r := Exp2.load_power_data_in_time_range fromisoformat strftime
               start_time end_time lines in
    let kept := kept_entries (keeps (Generic.parse fromisoformat) start_time end_time)
                  lines in
    Stats2.flat_values (m_CpuWatts r) = values_of e_CpuWatts kept
    /\ Stats2.flat_values (m_DimmWatts r) = values_of e_DimmWatts kept
    /\ Stats2.flat_values (m_Average r) = values_of e_Average kept.
Proof.
  intros fromisoformat strftime start_time end_time lines. cbv zeta.
  rewrite Exp2Facts.load2_generic. unfold Generic.run, kept_entries, Spec2.entries.
  assert (G : forall get proj,
             (forall m, proj (new_section m) = proj m ++ [[]]) ->
             (forall ts t d m,
                proj (Generic.add_entry _ (Generic.mk2 strftime) ts t d m) =
                append_last_if (proj m) (get d) (Generic.mk2 strftime ts t)) ->
             proj one_empty_section = [[]] ->
             Stats2.flat_values
               (proj (Generic.sections
                        (fold_left (Generic.step _ (Generic.parse fromisoformat)
                                      (Generic.mk2 strftime) start_time end_time)
                           lines Generic.init))) =
             values_of get
               (filter (fun s => keeps (Generic.parse fromisoformat) start_time end_time
                                       (fst s))
                       (map snd (Spec2.tagged 0 false no_entry lines)))).
  { intros get proj Hnew Hadd Hinit.
    assert (Hne : proj (Generic.sections (@Generic.init (Z * string))) <> [])
      by (cbn; rewrite Hinit; discriminate).
    pose proof (FlatFacts.run_concat _ (Generic.parse fromisoformat)
                  (Generic.mk2 strftime) start_time end_time get proj Hnew Hadd
                  lines 0 Generic.init Hne) as Hrun.
    cbv zeta in Hrun. destruct Hrun as [_ Hrun].
    rewrite FlatFacts.flat_values_concat, Hrun.
    cbn [Generic.sections Generic.init Generic.started Generic.entry_data].
    rewrite Hinit. cbn [List.concat app]. apply FlatFacts.pairs_values_kept. }
  repeat split; apply G; reflexivity.
Qed.

(** ** Statistics: when a number is defined *)

(** X12.  In [calc_stats] of Experiment 1 the mean is [None] exactly on
    the empty list, and the sample standard deviation and the standard
    error are [None] exactly on fewer than two values; the helpers
    [calculate_sample_std] and [calculate_std_error] of Experiment 2
    return [None] exactly on fewer than two values. *)
Theorem X12_stats_defined_iff_enough_samples :
  forall (F : Type) (ops : FloatOps F) (nops : NumpyOps F) (data : list Z),
    (Stats1.Average (Stats1.calc_stats (F := F) data) = None <-> data = [])
    /\ (Stats1.StdDev (Stats1.calc_stats (F := F) data) = None <-> List.length data < 2)
    /\ (Stats1.StdError (Stats1.calc_stats (F := F) data) = None <-> List.length data < 2)
    /\ (Stats2.calculate_sample_std (F := F) data = None <-> List.length data < 2)
    /\ (Stats2.calculate_std_error (F := F) data = None <-> List.length data < 2).
Proof.
  intros F ops nops data.
  unfold Stats1.calc_stats, Stats2.calculate_std_error, Stats2.calculate_sample_std, zlen.
  destruct data as [| x [| y rest]].
  - cbn. repeat split; intros; try reflexivity; try lia.
  - cbn. repeat split; intros; try reflexivity; try lia; discriminate.
  - destruct (Z.ltb_spec 1 (Z.of_nat (List.length (x :: y :: rest)))) as [Hlt | Hge];
      [| cbn [List.length] in Hge; lia].
    cbn [Stats1.Average Stats1.StdDev Stats1.StdError List.length].
    repeat split; intros; try discriminate; lia.
Qed.

(** ** The execution times of the iterations *)

Module ExecTimeFacts.

Import ExecTime.

Lemma accumulate_from files : forall total times,
  fold_left (fun acc file =>
               let execution_time := extract_execution_time file in
               ((fst acc + execution_time)%Z, snd acc ++ [execution_time]))
            files (total, times) =
  ((total + zsum (map extract_execution_time files))%Z,
   times ++ map extract_execution_time files).
Proof.
  induction files as [| file rest IH]; intros total times.
  - cbn. now rewrite Z.add_0_r, app_nil_r.
  - cbn [fold_left map fst snd]. rewrite IH. unfold zsum. cbn [fold_right].
    rewrite <- app_assoc. f_equal. lia.
Qed.

Lemma zsum_snoc l n : zsum (l ++ [n]) = (zsum l + n)%Z.
Proof.
  unfold zsum. induction l as [| x l IH]; cbn [app fold_right]; [lia |].
  rewrite IH. lia.
Qed.

Lemma accumulate_spec files :
  accumulate files =
  (zsum (map extract_execution_time files), map extract_execution_time files).
Proof. unfold accumulate. now rewrite accumulate_from. Qed.

Lemma int_acc_digits_nonneg s : forall acc,
  (0 <= acc)%Z -> (0 <= Lex.int_acc acc (Lex.digits s))%Z.
Proof.
  induction s as [| c r IH]; intros acc Hacc; [exact Hacc |].
  cbn [Lex.digits]. destruct (Lex.is_digit c) eqn:Ed; [| exact Hacc].
  cbn [Lex.int_acc]. apply IH. unfold Lex.is_digit in Ed.
  apply andb_true_iff in Ed. destruct Ed as [Ed _]. apply Nat.leb_le in Ed. lia.
Qed.

Lemma search_some {A : Type} (here : string -> option A) s : forall v,
  Lex.search here s = Some v -> exists s', here s' = Some v.
Proof.
  induction s as [| c r IH]; intros v; cbn [Lex.search].
  - destruct (here EmptyString) eqn:E; [| discriminate].
    intros Hv. exists EmptyString. congruence.
  - destruct (here (String c r)) eqn:E.
    + intros Hv. exists (String c r). congruence.
    + apply IH.
Qed.

Lemma exec_time_here_nonneg s v : exec_time_here s = Some v -> (0 <= v)%Z.
Proof.
  unfold exec_time_here.
  destruct (Lex.after "Total Execution Time: " s) as [r |]; [| discriminate].
  destruct (Lex.digits r) as [| c ds] eqn:Ed; [discriminate |].
  destruct (Lex.after (String c ds) r) as [[| c' r'] |]; try discriminate.
  destruct (Lex.is_space c' && Lex.startswith "seconds" (Lex.lstrip r'));
    [| discriminate].
  intros E. injection E as <-. rewrite <- Ed. unfold Lex.int.
  apply int_acc_digits_nonneg. lia.
Qed.

Lemma extract_execution_time_nonneg file : (0 <= extract_execution_time file)%Z.
Proof.
  unfold extract_execution_time. destruct file as [lines |]; [| lia].
  destruct (first_match lines) as [n |] eqn:E; [| lia].
  revert E. induction lines as [| line rest IH]; cbn [first_match]; [discriminate |].
  destruct (Lex.search exec_time_here line) as [m |] eqn:Es; [| exact IH].
  intros E. injection E as <-. apply search_some in Es. destruct Es as (s' & Hs').
  now apply exec_time_here_nonneg in Hs'.
Qed.

End ExecTimeFacts.

(** X13.  In [process_iteration_folder] every iteration folder counts:
    the list of execution times has one entry per folder and the total is
    their sum, and a folder whose timestamp file is missing, or has no
    matching line, enters both as 0 seconds; adding such a folder leaves
    the total unchanged and raises the number of iterations the average
    is taken over, where a folder whose file has a matching line adds the
    seconds of its first match. *)
Theorem X13_missing_timestamp_counts_as_zero :
  forall (files : list (option (list string))),
    let '(total_time, execution_times) := ExecTime.accumulate files in
    List.length execution_times = List.length files
    /\ total_time = zsum execution_times
    /\ Forall (fun t => (0 <= t)%Z) execution_times
    /\ ExecTime.accumulate (files ++ [None]) = (total_time, execution_times ++ [0%Z])
    /\ (forall lines : list string,
          ExecTime.accumulate (files ++ [Some lines]) =
          match ExecTime.first_match lines with
          | None => (total_time, execution_times ++ [0%Z])
          | Some n => ((total_time + n)%Z, execution_times ++ [n])
          end).
Proof.
  intros files. rewrite ExecTimeFacts.accumulate_spec. repeat split.
  - now rewrite length_map.
  - apply Forall_forall. intros t Ht. apply in_map_iff in Ht.
    destruct Ht as (file & <- & _). apply ExecTimeFacts.extract_execution_time_nonneg.
  - rewrite ExecTimeFacts.accumulate_spec, map_app. cbn [map].
    unfold zsum. rewrite fold_right_app. cbn [fold_right ExecTime.extract_execution_time].
    f_equal.
  - intros lines. rewrite ExecTimeFacts.accumulate_spec, map_app. cbn [map].
    rewrite ExecTimeFacts.zsum_snoc. unfold ExecTime.extract_execution_time.
    destruct (ExecTime.first_match lines) as [n |]; [reflexivity |].
    now rewrite Z.add_0_r.
Qed.

(** ** Sections chosen by number *)

Lemma nth_error_map_seq {A : Type} (f : nat -> A) (n k : nat) :
  k < n -> nth_error (map f (seq 0 n)) k = Some (f k).
Proof.
  intros Hk. rewrite nth_error_map, nth_error_seq.
  replace (k <? n)%nat with true by (symmetry; apply Nat.ltb_lt; lia).
  reflexivity.
Qed.

Lemma py_index_map_seq {A : Type} (f : nat -> A) (n : nat) (i : Z) :
  (0 <= i < Z.of_nat n)%Z ->
  py_index (map f (seq 0 n)) i = Ok (f (Z.to_nat i)).
Proof.
  intros Hi. unfold py_index. rewrite length_map, length_seq.
  replace ((0 <=? i)%Z && (i <? Z.of_nat n)%Z) with true
    by (symmetry; apply andb_true_iff; split; [apply Z.leb_le | apply Z.ltb_lt]; lia).
  rewrite nth_error_map_seq by lia. reflexivity.
Qed.

Lemma py_index_last_map_seq {A : Type} (f : nat -> A) (n : nat) :
  py_index (map f (seq 0 (S n))) (-1) = Ok (f n).
Proof.
  unfold py_index. rewrite length_map, length_seq.
  replace ((0 <=? -1)%Z && (-1 <? Z.of_nat (S n))%Z) with false by reflexivity.
  replace ((- Z.of_nat (S n) <=? -1)%Z && (-1 <? 0)%Z) with true
    by (symmetry; apply andb_true_iff; split; [apply Z.leb_le; lia | reflexivity]).
  replace (Z.to_nat (Z.of_nat (S n) + -1)) with n by lia.
  rewrite nth_error_map_seq by lia. reflexivity.
Qed.

(** The section of a query among [n + 1] sections numbered from 0. *)
Lemma select_section_map_seq {A : Type} (f : nat -> list A) (n : nat) (q : Z) :
  ((1 <= q <= Z.of_nat (S n))%Z ->
   Query3.select_section (map f (seq 0 (S n))) q = Ok (f (Z.to_nat (q - 1))))
  /\ ((Z.of_nat (S n) < q)%Z ->
      Query3.select_section (map f (seq 0 (S n))) q = Ok [])
  /\ Query3.select_section (map f (seq 0 (S n))) 0 = Ok (f n).
Proof.
  unfold Query3.select_section. rewrite length_map, length_seq. repeat split.
  - intros Hq.
    replace (q - 1 <? Z.of_nat (S n))%Z with true by (symmetry; apply Z.ltb_lt; lia).
    apply py_index_map_seq. lia.
  - intros Hq.
    replace (q - 1 <? Z.of_nat (S n))%Z with false by (symmetry; apply Z.ltb_ge; lia).
    reflexivity.
  - replace (0 - 1 <? Z.of_nat (S n))%Z with true by (symmetry; apply Z.ltb_lt; lia).
    apply py_index_last_map_seq.
Qed.

(** X14.  When the timestamp file of an iteration gives a start and an
    end time, [process_iteration] of Experiment 1 reports iteration [n],
    for [n] from 1 to 8, on the entries of the power log that lie after
    [n - 1] separator lines and inside the window, with [calc_stats] of
    their values; for [n] above 8 it returns [None], so at most eight
    iterations are ever reported. *)
Theorem X14_iteration_reports_its_section :
  forall (F : Type) (ops : FloatOps F) (strptime : string -> option Z)
         (time_match : string -> option (string * string))
         (exec_time_match : string -> option Z)
         (timestamp_file ilo_power_file : string)
         (timestamps lines : list string) (n s e : Z),
    let ts := Loader1.read_timestamps strptime time_match exec_time_match
                timestamp_file (Some timestamps) in
    Loader1.start_time ts = Some s ->
    Loader1.end_time ts = Some e ->
    ((1 <= n <= Z.of_nat Exp1.TOTAL_SECTIONS)%Z ->
     exists r,
       Iteration1.process_iteration (F := F) strptime time_match exec_time_match
         timestamp_file ilo_power_file (Some timestamps) (Some lines) n = Ok (Some r)
       /\ Iteration1.CpuWatts r =
          values_of e_CpuWatts
            (select (keeps strptime s e) (Z.to_nat (n - 1)) (Spec1.entries lines))
       /\ Iteration1.DimmWatts r =
          values_of e_DimmWatts
            (select (keeps strptime s e) (Z.to_nat (n - 1)) (Spec1.entries lines))
       /\ Iteration1.AveragePowerValues r =
          values_of e_Average
            (select (keeps strptime s e) (Z.to_nat (n - 1)) (Spec1.entries lines))
       /\ Iteration1.cpu_stats r = Stats1.calc_stats (Iteration1.CpuWatts r)
       /\ Iteration1.dimm_stats r = Stats1.calc_stats (Iteration1.DimmWatts r)
       /\ Iteration1.power_stats r = Stats1.calc_stats (Iteration1.AveragePowerValues r))
    /\
    ((Z.of_nat Exp1.TOTAL_SECTIONS < n)%Z ->
     Iteration1.process_iteration (F := F) strptime time_match exec_time_match
       timestamp_file ilo_power_file (Some timestamps) (Some lines) n = Ok None).
Proof.
  intros F ops strptime time_match exec_time_match timestamp_file ilo_power_file
         timestamps lines n s e ts Hs He.
  unfold Iteration1.process_iteration. fold ts. rewrite Hs, He.
  cbn [Exp1.extract_section_values fst].
  rewrite Exp1Facts.extract_lines_length, extract_lines_sections. split.
  - intros Hn.
    destruct (Z.geb_spec (n - 1) (Z.of_nat Exp1.TOTAL_SECTIONS)) as [Hge | Hlt]; [lia |].
    rewrite py_index_map_seq by lia.
    unfold Iteration1.compute_statistics, Spec1.section_of, Spec1.build.
    cbn [Exp1.CpuWatts Exp1.DimmWatts Exp1.Average].
    eexists. split; [reflexivity |]. repeat split.
  - intros Hn.
    destruct (Z.geb_spec (n - 1) (Z.of_nat Exp1.TOTAL_SECTIONS)) as [Hge | Hlt]; [| lia].
    reflexivity.
Qed.

(** X14, a run: the second iteration on the sample log of four sections. *)
Lemma X14_iteration_reports_witness :
  (exists r,
     Iteration1.process_iteration (F := Z) (H := Sample.ZOps) Fixture.strptime sample_time_match
       (fun _ => None) "ilo_power_timestamps.txt" "ilo_power_all.txt"
       (Some ["Start Time"]) (Some Sample.four_sections) 2 = Ok (Some r)
     /\ Iteration1.CpuWatts r =
        values_of e_CpuWatts
          (select (keeps Fixture.strptime Sample.t_start Sample.t_end) (Z.to_nat (2 - 1))
             (Spec1.entries Sample.four_sections))
     /\ Iteration1.DimmWatts r =
        values_of e_DimmWatts
          (select (keeps Fixture.strptime Sample.t_start Sample.t_end) (Z.to_nat (2 - 1))
             (Spec1.entries Sample.four_sections))
     /\ Iteration1.AveragePowerValues r =
        values_of e_Average
          (select (keeps Fixture.strptime Sample.t_start Sample.t_end) (Z.to_nat (2 - 1))
             (Spec1.entries Sample.four_sections))
     /\ Iteration1.cpu_stats r = Stats1.calc_stats (H := Sample.ZOps) (Iteration1.CpuWatts r)
     /\ Iteration1.dimm_stats r = Stats1.calc_stats (H := Sample.ZOps) (Iteration1.DimmWatts r)
     /\ Iteration1.power_stats r = Stats1.calc_stats (H := Sample.ZOps) (Iteration1.AveragePowerValues r))
  /\ Iteration1.process_iteration (F := Z) (H := Sample.ZOps) Fixture.strptime sample_time_match
       (fun _ => None) "ilo_power_timestamps.txt" "ilo_power_all.txt"
       (Some ["Start Time"]) (Some Sample.four_sections) 9 = Ok None.
Proof.
  split.
  - apply (proj1 (X14_iteration_reports_its_section Z Sample.ZOps Fixture.strptime
                    sample_time_match (fun _ => None) "ilo_power_timestamps.txt"
                    "ilo_power_all.txt" ["Start Time"] Sample.four_sections 2
                    Sample.t_start Sample.t_end eq_refl eq_refl)).
    vm_compute. split; discriminate.
  - apply (proj2 (X14_iteration_reports_its_section Z Sample.ZOps Fixture.strptime
                    sample_time_match (fun _ => None) "ilo_power_timestamps.txt"
                    "ilo_power_all.txt" ["Start Time"] Sample.four_sections 9
                    Sample.t_start Sample.t_end eq_refl eq_refl)).
    vm_compute. reflexivity.
Defined.

(** X15.  On a log whose [Time] strings all parse, Experiment 3 computes
    the statistics of query [q] on the entries that lie after [q - 1]
    separator lines (counted after the marker) and inside the window, for
    [q] from 1 to the number of sections; on nothing for a larger [q];
    and for [q = 0], where the index [-1] counts from the end, on the
    last section. *)
Theorem X15_query_section :
  forall (fromisoformat : string -> option Z) (start_time end_time : Z)
         (lines : list string) (q : Z),
    Forall (Generic.parses fromisoformat) (Spec2.entries lines) ->
    exists m,
      Exp3.load_power_data_in_time_range fromisoformat start_time end_time lines = Ok m
      /\ let n := Spec2.separators false lines in
         let section := fun get k =>
           Generic.sections_of _ (Generic.parse fromisoformat) Generic.mk3
             start_time end_time get lines k in
         ((1 <= q <= Z.of_nat (S n))%Z ->
          Query3.select_section (m_CpuWatts m) q = Ok (section e_CpuWatts (Z.to_nat (q - 1)))
          /\ Query3.select_section (m_DimmWatts m) q =
             Ok (section e_DimmWatts (Z.to_nat (q - 1)))
          /\ Query3.select_section (m_Average m) q =
             Ok (section e_Average (Z.to_nat (q - 1))))
         /\ ((Z.of_nat (S n) < q)%Z ->
             Query3.select_section (m_CpuWatts m) q = Ok []
             /\ Query3.select_section (m_DimmWatts m) q = Ok []
             /\ Query3.select_section (m_Average m) q = Ok [])
         /\ Query3.select_section (m_CpuWatts m) 0 = Ok (section e_CpuWatts n)
         /\ Query3.select_section (m_DimmWatts m) 0 = Ok (section e_DimmWatts n)
         /\ Query3.select_section (m_Average m) 0 = Ok (section e_Average n).
Proof.
  intros fromisoformat start_time end_time lines q HT.
  eexists. split; [now apply Exp3Facts.load3_generic |].
  rewrite generic_sections. cbv zeta. cbn [m_CpuWatts m_DimmWatts m_Average].
  set (n := Spec2.separators false lines).
  assert (G := fun get =>
            select_section_map_seq
              (Generic.sections_of _ (Generic.parse fromisoformat) Generic.mk3
                 start_time end_time get lines) n q).
  destruct (G e_CpuWatts) as (C1 & C2 & C3).
  destruct (G e_DimmWatts) as (D1 & D2 & D3).
  destruct (G e_Average) as (A1 & A2 & A3).
  repeat split; auto.
Qed.

(** X15, a run on the sample log of four sections: query 2. *)
Lemma X15_query_section_witness :
  exists m,
    Exp3.load_power_data_in_time_range Fixture.fromisoformat Sample.t_start Sample.t_end
      Sample.four_sections_marked = Ok m
    /\ let n := Spec2.separators false Sample.four_sections_marked in
       let section := fun get k =>
         Generic.sections_of _ (Generic.parse Fixture.fromisoformat) Generic.mk3
           Sample.t_start Sample.t_end get Sample.four_sections_marked k in
       ((1 <= 2 <= Z.of_nat (S n))%Z ->
        Query3.select_section (m_CpuWatts m) 2 = Ok (section e_CpuWatts (Z.to_nat (2 - 1)))
        /\ Query3.select_section (m_DimmWatts m) 2 =
           Ok (section e_DimmWatts (Z.to_nat (2 - 1)))
        /\ Query3.select_section (m_Average m) 2 =
           Ok (section e_Average (Z.to_nat (2 - 1))))
       /\ ((Z.of_nat (S n) < 2)%Z ->
           Query3.select_section (m_CpuWatts m) 2 = Ok []
           /\ Query3.select_section (m_DimmWatts m) 2 = Ok []
           /\ Query3.select_section (m_Average m) 2 = Ok [])
       /\ Query3.select_section (m_CpuWatts m) 0 = Ok (section e_CpuWatts n)
       /\ Query3.select_section (m_DimmWatts m) 0 = Ok (section e_DimmWatts n)
       /\ Query3.select_section (m_Average m) 0 = Ok (section e_Average n).
Proof.
  apply (X15_query_section Fixture.fromisoformat Sample.t_start Sample.t_end
           Sample.four_sections_marked 2).
  apply (Forall_of_forallb _
           (fun x : nat * sample =>
              match Generic.parse Fixture.fromisoformat (fst (snd x)) with
              | Some _ => true
              | None => false
              end)).
  - intros x Hx. cbv beta in Hx. unfold Generic.parses. intros E.
    rewrite E in Hx. discriminate Hx.
  - vm_compute. reflexivity.
Defined.

(** ** Timestamp loaders *)

Lemma last_opt_app_one {A : Type} (l : list A) (x : A) : last_opt (l ++ [x]) = Some x.
Proof.
  induction l as [| y l IH]; [reflexivity |].
  cbn [app]. destruct (l ++ [x]) eqn:E; [destruct l; discriminate E |].
  exact IH.
Qed.

Lemma last_opt_app {A : Type} (l r : list A) :
  last_opt (l ++ r) = match last_opt r with Some x => Some x | None => last_opt l end.
Proof.
  induction r as [| x r IH] using rev_ind.
  - now rewrite app_nil_r.
  - rewrite app_assoc, !last_opt_app_one. reflexivity.
Qed.

Module Loader1Facts.

Import Loader1.

Lemma fold_step_timestamps strptime time_match exec_time_match lines : forall st,
  let st' := fold_left (step strptime time_match exec_time_match) lines st in
  start_time st' =
    match last_opt (Loader1Spec.starts strptime time_match lines) with
    | Some t => Some t
    | None => start_time st
    end
  /\ end_time st' =
     match last_opt (Loader1Spec.ends strptime time_match lines) with
     | Some t => Some t
     | None => end_time st
     end
  /\ total_execution_time st' =
     match last_opt (Loader1Spec.totals exec_time_match lines) with
     | Some n => Some n
     | None => total_execution_time st
     end
  /\ log st' =
     log st ++ map (LogError "Error parsing timestamps")
                   (Loader1Spec.bad_lines strptime time_match lines).
Proof.
  induction lines as [| line rest IH]; intros st; cbv zeta.
  - cbn. now rewrite app_nil_r.
  - cbn [fold_left]. destruct (IH (step strptime time_match exec_time_match st line))
      as (H1 & H2 & H3 & H4). rewrite H1, H2, H3, H4. clear IH H1 H2 H3 H4.
    unfold Loader1Spec.starts, Loader1Spec.ends, Loader1Spec.totals, Loader1Spec.bad_lines.
    cbn [flat_map filter].
    change (flat_map _ rest) with (Loader1Spec.starts strptime time_match rest) at 1.
    rewrite !(last_opt_app _ (flat_map _ rest)).
    unfold step, parse_times.
    destruct (time_match line) as [[s e] |];
      [destruct (strptime (Lex.strip s)) as [a |];
       [destruct (strptime (Lex.strip e)) as [b |] |] |];
      destruct (exec_time_match line) as [n |];
      cbn [start_time end_time total_execution_time log opt_list last_opt map];
      repeat split;
      try (destruct (last_opt _); reflexivity);
      try (now rewrite <- app_assoc).
Qed.

End Loader1Facts.

(** X16.  [read_timestamps] of Experiment 1 keeps the last value of each
    kind: the start time is the last start that parses, the end time is
    the last end of a line on which both times parse (so the two can come
    from different lines), the total is the last total, and one error is
    logged for each line with a pair of times of which one does not
    parse. *)
Theorem X16_read_timestamps_last_wins :
  forall (strptime : string -> option Z)
         (time_match : string -> option (string * string))
         (exec_time_match : string -> option Z)
         (path : string) (lines : list string),
    let r := Loader1.read_timestamps strptime time_match exec_time_match path
               (Some lines) in
    Loader1.start_time r = last_opt (Loader1Spec.starts strptime time_match lines)
    /\ Loader1.end_time r = last_opt (Loader1Spec.ends strptime time_match lines)
    /\ Loader1.total_execution_time r =
       last_opt (Loader1Spec.totals exec_time_match lines)
    /\ Loader1.log r =
       map (LogError "Error parsing timestamps")
           (Loader1Spec.bad_lines strptime time_match lines).
Proof.
  intros strptime time_match exec_time_match path lines. cbv zeta.
  cbn [Loader1.read_timestamps].
  destruct (Loader1Facts.fold_step_timestamps strptime time_match exec_time_match lines Loader1.init)
    as (H1 & H2 & H3 & H4).
  rewrite H1, H2, H3, H4. cbn [Loader1.init Loader1.start_time Loader1.end_time
                                Loader1.total_execution_time Loader1.log app].
  split; [destruct (last_opt (Loader1Spec.starts strptime time_match lines));
          reflexivity |].
  split; [destruct (last_opt (Loader1Spec.ends strptime time_match lines));
          reflexivity |].
  split; [destruct (last_opt (Loader1Spec.totals exec_time_match lines));
          reflexivity | reflexivity].
Qed.

Module Loader3Facts.

Import Loader3.

Lemma get_set_same d k v : dict_get (dict_set d k v) k = Some v.
Proof.
  induction d as [| [k' v'] d IH]; cbn [dict_set dict_get].
  - now rewrite Z.eqb_refl.
  - destruct (Z.eqb_spec k' k) as [-> | Hne]; cbn [dict_get].
    + now rewrite Z.eqb_refl.
    + destruct (Z.eqb_spec k' k); [congruence | exact IH].
Qed.

Lemma get_set_other d k v q : q <> k -> dict_get (dict_set d k v) q = dict_get d q.
Proof.
  intros Hq. induction d as [| [k' v'] d IH]; cbn [dict_set dict_get].
  - destruct (Z.eqb_spec k q); [congruence | reflexivity].
  - destruct (Z.eqb_spec k' k) as [-> | Hne]; cbn [dict_get].
    + destruct (Z.eqb_spec k q); [congruence | reflexivity].
    + destruct (Z.eqb_spec k' q); [reflexivity | exact IH].
Qed.

Lemma keys_set d k v :
  In k (map fst d) /\ map fst (dict_set d k v) = map fst d
  \/ ~ In k (map fst d) /\ map fst (dict_set d k v) = map fst d ++ [k].
Proof.
  induction d as [| [k' v'] d IH]; cbn [dict_set map fst].
  - right. split; [intros [] | reflexivity].
  - destruct (Z.eqb_spec k' k) as [-> | Hne].
    + left. split; [now left | reflexivity].
    + destruct IH as [[Hin Hk] | [Hnin Hk]].
      * left. split; [now right |]. cbn [map fst]. now rewrite Hk.
      * right. split; [intros [E | Hin]; [congruence | contradiction] |].
        cbn [map fst app]. now rewrite Hk.
Qed.

Lemma nodup_set d k v : NoDup (map fst d) -> NoDup (map fst (dict_set d k v)).
Proof.
  intros Hd. destruct (keys_set d k v) as [[_ ->] | [Hnin ->]]; [exact Hd |].
  apply NoDup_app; [exact Hd | repeat constructor; intros [] |].
  intros x Hx [<- | []]. contradiction.
Qed.

Section Lines.

Variable fromisoformat : string -> option Z.
Variable query_match : string -> option (Z * string * string).

Let interval := Loader3Spec.interval fromisoformat query_match.
Let fine := Loader3Spec.fine fromisoformat query_match.
Let intervals_of := Loader3Spec.intervals_of fromisoformat query_match.

Lemma interval_eq line :
  interval line =
  match query_match line with
  | Some (q, start, finish) =>
      match fromisoformat (replace_Z start), fromisoformat (replace_Z finish) with
      | Some s, Some f => Some (q, (s, f))
      | _, _ => None
      end
  | None => None
  end.
Proof. reflexivity. Qed.

Lemma fine_eq line :
  fine line =
  match query_match line with
  | Some _ => match interval line with Some _ => true | None => false end
  | None => true
  end.
Proof. reflexivity. Qed.

Lemma intervals_cons q line rest :
  intervals_of q (line :: rest) =
  match interval line with
  | Some (q', i) => if (q' =? q)%Z then [i] else []
  | None => []
  end ++ intervals_of q rest.
Proof. reflexivity. Qed.

Lemma load_lines_ok lines : forall acc,
  Forall (fun line => fine line = true) lines ->
  exists d,
    load_lines fromisoformat query_match acc lines = Ok d
    /\ (forall q, dict_get d q =
                  match last_opt (intervals_of q lines) with
                  | Some i => Some i
                  | None => dict_get acc q
                  end)
    /\ (NoDup (map fst acc) -> NoDup (map fst d)).
Proof.
  induction lines as [| line rest IH]; intros acc Hfine.
  - exists acc. repeat split; auto.
  - inversion Hfine as [| ? ? Hline Hrest]; subst.
    rewrite fine_eq in Hline. pose proof (interval_eq line) as Hint.
    cbn [load_lines]. unfold Exp3.parse_datetime_from_string.
    destruct (query_match line) as [[[qid start] finish] |].
    + destruct (fromisoformat (replace_Z start)) as [s |];
        [| rewrite Hint in Hline; discriminate].
      destruct (fromisoformat (replace_Z finish)) as [f |];
        [| rewrite Hint in Hline; discriminate].
      destruct (IH (dict_set acc qid (s, f)) Hrest) as (d & Hd & Hget & Hnd).
      exists d. split; [exact Hd |]. split.
      * intros q. rewrite Hget, intervals_cons, Hint, last_opt_app.
        destruct (last_opt (intervals_of q rest)); [reflexivity |].
        destruct (Z.eqb_spec qid q) as [<- | Hne].
        -- cbn [last_opt]. apply get_set_same.
        -- cbn [last_opt]. apply get_set_other. congruence.
      * intros Hacc. apply Hnd. now apply nodup_set.
    + destruct (IH acc Hrest) as (d & Hd & Hget & Hnd).
      exists d. split; [exact Hd |]. split; [| exact Hnd].
      intros q. rewrite Hget, intervals_cons, Hint. reflexivity.
Qed.

Lemma load_lines_raises lines : forall acc,
  Exists (fun line => fine line = false) lines ->
  load_lines fromisoformat query_match acc lines = Raise ValueError.
Proof.
  induction lines as [| line rest IH]; intros acc Hbad; [inversion Hbad |].
  cbn [load_lines]. unfold Exp3.parse_datetime_from_string.
  assert (Hline : fine line = false \/ Exists (fun line => fine line = false) rest)
    by (inversion Hbad; auto).
  rewrite fine_eq in Hline. pose proof (interval_eq line) as Hint.
  destruct (query_match line) as [[[qid start] finish] |].
  - destruct (fromisoformat (replace_Z start)) as [s |]; [| reflexivity].
    destruct (fromisoformat (replace_Z finish)) as [f |]; [| reflexivity].
    rewrite Hint in Hline.
    destruct Hline as [Hline | Hrest]; [discriminate | now apply IH].
  - destruct Hline as [Hline | Hrest]; [discriminate | now apply IH].
Qed.

End Lines.

End Loader3Facts.

(** X17.  [load_query_timestamps] of Experiment 3 on an existing file:
    when the two timestamps of every matching line parse, it returns a
    dict with one entry per query id in which each query has the interval
    of its last line; when one does not parse, it raises [ValueError]. *)
Theorem X17_load_query_timestamps_last_wins :
  forall (fromisoformat : string -> option Z)
         (query_match : string -> option (Z * string * string))
         (lines : list string),
    (Forall (fun line => Loader3Spec.fine fromisoformat query_match line = true) lines ->
     exists d,
       Loader3.load_query_timestamps fromisoformat query_match (Some lines) = Ok d
       /\ NoDup (map fst d)
       /\ forall q, dict_get d q =
                    last_opt (Loader3Spec.intervals_of fromisoformat query_match q lines))
    /\
    (Exists (fun line => Loader3Spec.fine fromisoformat query_match line = false) lines ->
     Loader3.load_query_timestamps fromisoformat query_match (Some lines) =
     Raise ValueError).
Proof.
  intros fromisoformat query_match lines. split.
  - intros Hfine.
    destruct (Loader3Facts.load_lines_ok fromisoformat query_match lines [] Hfine)
      as (d & Hd & Hget & Hnd).
    exists d. split; [exact Hd |]. split; [apply Hnd; constructor |].
    intros q. rewrite Hget.
    destruct (last_opt (Loader3Spec.intervals_of fromisoformat query_match q lines));
      reflexivity.
  - intros Hbad. now apply Loader3Facts.load_lines_raises.
Qed.

(** X17, a run: two lines for the same query. *)
Lemma X17_load_query_timestamps_witness :
  exists d,
    Loader3.load_query_timestamps Fixture.fromisoformat sample_query_match
      (Some ["Query 1: first"; "a comment"; "Query 1: second"]) = Ok d
    /\ NoDup (map fst d)
    /\ forall q, dict_get d q =
                 last_opt (Loader3Spec.intervals_of Fixture.fromisoformat
                             sample_query_match q
                             ["Query 1: first"; "a comment"; "Query 1: second"]).
Proof.
  apply (proj1 (X17_load_query_timestamps_last_wins Fixture.fromisoformat
                  sample_query_match
                  ["Query 1: first"; "a comment"; "Query 1: second"])).
  apply (Forall_of_forallb _ (Loader3Spec.fine Fixture.fromisoformat sample_query_match));
    [intros line H; exact H | vm_compute; reflexivity].
Defined.

(** ** Experiment 2: phases and their time lines *)

Module Ranges2Facts.

Import Ranges2.

(** Without a pending phase a line that is no header changes nothing. *)
Lemma step_no_phase fromisoformat st line :
  phase_match line = None ->
  phase st = None \/ phase st = Some EmptyString ->
  step fromisoformat st line = st.
Proof.
  intros Hl Hp. unfold step. rewrite Hl.
  destruct (time_match line) as [[g1 g2] |]; [| reflexivity].
  destruct Hp as [-> | ->]; reflexivity.
Qed.

(** A time line leaves no phase pending. *)
Lemma time_line_consumes fromisoformat st line :
  phase_match line = None ->
  time_match line <> None ->
  phase (step fromisoformat st line) = None
  \/ phase (step fromisoformat st line) = Some EmptyString.
Proof.
  intros Hl Ht. unfold step. rewrite Hl.
  destruct (time_match line) as [[g1 g2] |]; [| congruence].
  destruct (phase st) as [[| c r] |] eqn:Ep; [right; exact Ep | | left; exact Ep].
  left. destruct (fromisoformat (replace_Z g1)); [| reflexivity].
  destruct (fromisoformat (replace_Z g2)); reflexivity.
Qed.

(** After a time line, one more time line changes nothing. *)
Lemma second_time_line fromisoformat st tl1 tl2 :
  phase_match tl1 = None ->
  time_match tl1 <> None ->
  phase_match tl2 = None ->
  step fromisoformat (step fromisoformat st tl1) tl2 = step fromisoformat st tl1.
Proof.
  intros H1 Ht H2. apply step_no_phase; [exact H2 |].
  now apply time_line_consumes.
Qed.

End Ranges2Facts.

(** X18.  In [parse_timestamp_ranges] of Experiment 2 a phase takes the
    first time line that follows its header: a second time line directly
    after a time line is ignored, whatever it holds, so the file with it
    and the file without it give the same ranges and the same log. *)
Theorem X18_second_time_line_ignored :
  forall (fromisoformat : string -> option Z) (pre post : list string)
         (tl1 tl2 : string),
    Ranges2.phase_match tl1 = None ->
    Ranges2.time_match tl1 <> None ->
    Ranges2.phase_match tl2 = None ->
    Ranges2.parse_timestamp_ranges fromisoformat (pre ++ tl1 :: tl2 :: post) =
    Ranges2.parse_timestamp_ranges fromisoformat (pre ++ tl1 :: post).
Proof.
  intros fromisoformat pre post tl1 tl2 H1 Ht H2.
  unfold Ranges2.parse_timestamp_ranges. rewrite !fold_left_app. cbn [fold_left].
  now rewrite Ranges2Facts.second_time_line.
Qed.

(** X18, a run: the second time line of the sample file. *)
Lemma X18_second_time_line_witness :
  Ranges2.parse_timestamp_ranges Fixture.fromisoformat
    (firstn 1 sample_ranges ++ nth 1 sample_ranges "" :: nth 2 sample_ranges ""
       :: skipn 3 sample_ranges) =
  Ranges2.parse_timestamp_ranges Fixture.fromisoformat
    (firstn 1 sample_ranges ++ nth 1 sample_ranges "" :: skipn 3 sample_ranges).
Proof.
  apply X18_second_time_line_ignored.
  - vm_compute. reflexivity.
  - vm_compute. discriminate.
  - vm_compute. reflexivity.
Defined.

(** ** Exit status of the entry points of Experiments 2 and 3 *)

(** X19.  [power_metrics_aggregator.py] of Experiment 3 ends with status
    0 exactly when the base path exists, holds at least one SF folder and
    the traversal raises nothing: an existing path without SF folders
    gives status 1.  The script of Experiment 2 ends with status 0 on an
    existing directory without SF folders. *)
Theorem X19_exit_status_exp2_exp3 :
  forall (present : bool) (sf_folders : list string)
         (process : list string * option exn),
    (Cli.status (Cli23.main3 present sf_folders process) = 0%Z <->
     present = true /\ sf_folders <> [] /\ snd process = None)
    /\ (Cli.status (Cli23.main2 present sf_folders process) = 0%Z <->
        present = true /\ (sf_folders = [] \/ snd process = None)).
Proof.
  intros present sf_folders process. unfold Cli23.main3, Cli23.main2.
  destruct present, sf_folders as [| sf rest], (snd process) as [e |];
    cbn [negb Cli.status]; split; split;
    try (intros H; discriminate H);
    try (intros (H1 & H2 & H3); congruence);
    try (intros (H1 & [H2 | H2]); congruence);
    intros _; repeat split; try discriminate; auto.
Qed.
